(** * GetTogether: forms, widgets and URL configuration

    A shallow embedding of [events/forms.py], [get_together/urls.py] and
    [get_together/tests/teams.py], with the properties the specification
    states about them.

    Conventions.  Python [int] is [Z]; [str] is [string], a sequence of
    characters with code points below 256; a [datetime] is a reading in
    whole seconds between the years 1 and 9999; a [dict] with string
    keys is a [gmap string _]; a Python call that may raise returns a
    [result].
    The pieces of Python's standard library, of pytz and of Django that
    the source calls ([str.strip], [str.split], [time.strptime],
    [time.strftime], [tzinfo.localize], [timezone.make_naive], form field
    cleaning, [path] matching) are modelled next to their callers, each
    with the behaviour the source relies on. *)

From Stdlib Require Import ZArith List Ascii String Bool Lia.
From stdpp Require Import gmap strings list fin_maps pretty.

Open Scope Z_scope.

(** ** Python values and exceptions *)

Module Py.

Inductive exn : Type :=
| ValueError (msg : string)
| TypeError (msg : string)
| KeyError (key : string)
| AttributeError (msg : string)
| ValidationError (code : string) (param : string)
| DoesNotExist
| UnknownTimeZoneError (zone : string)
| NoReverseMatch (name : string)
| OverflowError (msg : string)
| AssertionError.

Inductive result (A : Type) : Type :=
| Ok (a : A)
| Raise (e : exn).
Arguments Ok {A} a.
Arguments Raise {A} e.

Definition bind {A B} (r : result A) (k : A -> result B) : result B :=
  match r with
  | Ok a => k a
  | Raise e => Raise e
  end.

Definition is_ok {A} (r : result A) : bool :=
  match r with Ok _ => true | Raise _ => false end.

(** The double quote character, for HTML attribute values. *)
Definition dq : string := String (ascii_of_nat 34) EmptyString.

(** [str(n)] for an [int]. *)
Definition str_int (n : Z) : string := pretty n.

(** ["%02d" % n]: the decimal form, padded with zeros on the left to
    two characters (a negative number already has two). *)
Definition fmt_02d (n : Z) : string :=
  let s := str_int n in
  if (String.length s <? 2)%nat then "0" +:+ s else s.

(** [range(start, stop, step)] for a positive [step]. *)
Definition range (start stop step : Z) : list Z :=
  map (fun i => start + step * Z.of_nat i)
      (seq 0 (Z.to_nat ((stop - start + step - 1) / step))).

Definition code (c : ascii) : Z := Z.of_nat (nat_of_ascii c).

(** [c.isspace()]: tab, newline, vertical tab, form feed, carriage
    return, the four separators 0x1c..0x1f, space, next line (0x85)
    and the no-break space (0xa0). *)
Definition isspace (c : ascii) : bool :=
  let n := code c in
  ((9 <=? n) && (n <=? 13)) || ((28 <=? n) && (n <=? 31)) || (n =? 32)
  || (n =? 133) || (n =? 160).

Definition isdigit (c : ascii) : bool :=
  let n := code c in (48 <=? n) && (n <=? 57).

Definition digit_value (c : ascii) : Z := code c - 48.

(** [c.lower()]: the letters A to Z, and the accented capitals
    0xc0..0xde (the multiplication sign 0xd7 is not a letter). *)
Definition lower (c : ascii) : ascii :=
  let n := code c in
  if ((65 <=? n) && (n <=? 90))
     || ((192 <=? n) && (n <=? 222) && negb (n =? 215))
  then ascii_of_nat (Z.to_nat (n + 32)) else c.

Fixpoint lower_str (s : string) : string :=
  match s with
  | EmptyString => EmptyString
  | String c s' => String (lower c) (lower_str s')
  end.

(** [s.lstrip()], [s.rstrip()] and [s.strip()]. *)
Fixpoint lstrip (s : string) : string :=
  match s with
  | EmptyString => EmptyString
  | String c s' => if isspace c then lstrip s' else s
  end.

Fixpoint rstrip (s : string) : string :=
  match s with
  | EmptyString => EmptyString
  | String c s' =>
      match rstrip s' with
      | EmptyString => if isspace c then EmptyString else String c EmptyString
      | r => String c r
      end
  end.

Definition strip (s : string) : string := rstrip (lstrip s).

(** [s.split(sep)] for a one-character separator: never empty, one
    more element than there are separators. *)
Fixpoint split (sep : ascii) (s : string) : list string :=
  match s with
  | EmptyString => [EmptyString]
  | String c s' =>
      if Ascii.eqb c sep then EmptyString :: split sep s'
      else match split sep s' with
           | [] => [String c EmptyString]
           | w :: ws => String c w :: ws
           end
  end.

(** [c in s] for a character [c]. *)
Fixpoint contains_char (c : ascii) (s : string) : bool :=
  match s with
  | EmptyString => false
  | String c' s' => Ascii.eqb c c' || contains_char c s'
  end.

(** [sep.join(l)]. *)
Fixpoint join (sep : string) (l : list string) : string :=
  match l with
  | [] => EmptyString
  | [w] => w
  | w :: ws => w +:+ sep +:+ join sep ws
  end.

End Py.

Import Py.

(** ** The [time] module: [struct_time], [strptime], [strftime] *)

Module Time.

(** The fields of [struct_time] the source reads. *)
Record struct_time : Type := {
  tm_year : Z; tm_mon : Z; tm_mday : Z;
  tm_hour : Z; tm_min : Z; tm_sec : Z
}.

(** [strptime] fills what the format does not give with 1900-01-01
    00:00:00. *)
Definition at_time (h m s : Z) : struct_time :=
  {| tm_year := 1900; tm_mon := 1; tm_mday := 1;
     tm_hour := h; tm_min := m; tm_sec := s |}.

(** Directive [%I] of [strptime], the pattern [1[0-2]|0[1-9]|[1-9]].
    Every use is followed by a colon, so the first alternative that
    matches is the only one that can lead to a match. *)
Definition parse_I (s : string) : option (Z * string) :=
  match s with
  | String c1 (String c2 rest) =>
      if (code c1 =? 49) && (48 <=? code c2) && (code c2 <=? 50)
      then Some (10 + digit_value c2, rest)
      else if (code c1 =? 48) && (49 <=? code c2) && (code c2 <=? 57)
      then Some (digit_value c2, rest)
      else if (49 <=? code c1) && (code c1 <=? 57)
      then Some (digit_value c1, String c2 rest)
      else None
  | String c1 EmptyString =>
      if (49 <=? code c1) && (code c1 <=? 57)
      then Some (digit_value c1, EmptyString) else None
  | EmptyString => None
  end.

(** Directive [%H], the pattern [2[0-3]|[0-1]\d|\d]. *)
Definition parse_H (s : string) : option (Z * string) :=
  match s with
  | String c1 (String c2 rest) =>
      if (code c1 =? 50) && (48 <=? code c2) && (code c2 <=? 51)
      then Some (20 + digit_value c2, rest)
      else if (48 <=? code c1) && (code c1 <=? 49) && isdigit c2
      then Some (10 * digit_value c1 + digit_value c2, rest)
      else if isdigit c1
      then Some (digit_value c1, String c2 rest)
      else None
  | String c1 EmptyString =>
      if isdigit c1 then Some (digit_value c1, EmptyString) else None
  | EmptyString => None
  end.

(** Directives [%M] and [%S] within 0..59, the pattern [[0-5]\d|\d]
    ([%S] also admits 60 and 61, which no caller produces). *)
Definition parse_M (s : string) : option (Z * string) :=
  match s with
  | String c1 (String c2 rest) =>
      if (48 <=? code c1) && (code c1 <=? 53) && isdigit c2
      then Some (10 * digit_value c1 + digit_value c2, rest)
      else if isdigit c1
      then Some (digit_value c1, String c2 rest)
      else None
  | String c1 EmptyString =>
      if isdigit c1 then Some (digit_value c1, EmptyString) else None
  | EmptyString => None
  end.

Definition parse_char (c : ascii) (s : string) : option string :=
  match s with
  | String c' rest => if Ascii.eqb c c' then Some rest else None
  | EmptyString => None
  end.

(** White space in a format matches [\s+]. *)
Definition parse_spaces (s : string) : option string :=
  match s with
  | String c rest => if isspace c then Some (lstrip rest) else None
  | EmptyString => None
  end.

(** Directive [%p], [am|pm] without regard to case, here at the end
    of the format: anything left over is "unconverted data". *)
Definition parse_p_end (s : string) : option bool :=
  let l := lower_str s in
  if String.eqb l "am" then Some false
  else if String.eqb l "pm" then Some true
  else None.

(** [strptime(s, "%I:%M %p")]. *)
Definition strptime_I_M_p (s : string) : result struct_time :=
  match parse_I s with
  | Some (h, s1) =>
      match parse_char ":" s1 with
      | Some s2 =>
          match parse_M s2 with
          | Some (m, s3) =>
              match parse_spaces s3 with
              | Some s4 =>
                  match parse_p_end s4 with
                  | Some pm =>
                      let hour :=
                        if pm then (if h =? 12 then 12 else h + 12)
                        else (if h =? 12 then 0 else h) in
                      Ok (at_time hour m 0)
                  | None => Raise (ValueError "time data does not match format")
                  end
              | None => Raise (ValueError "time data does not match format")
              end
          | None => Raise (ValueError "time data does not match format")
          end
      | None => Raise (ValueError "time data does not match format")
      end
  | None => Raise (ValueError "time data does not match format")
  end.

(** [strptime(s, "%H:%M:%S")]. *)
Definition strptime_H_M_S (s : string) : result struct_time :=
  match parse_H s with
  | Some (h, s1) =>
      match parse_char ":" s1 with
      | Some s2 =>
          match parse_M s2 with
          | Some (m, s3) =>
              match parse_char ":" s3 with
              | Some s4 =>
                  match parse_M s4 with
                  | Some (sec, EmptyString) => Ok (at_time h m sec)
                  | _ => Raise (ValueError "time data does not match format")
                  end
              | None => Raise (ValueError "time data does not match format")
              end
          | None => Raise (ValueError "time data does not match format")
          end
      | None => Raise (ValueError "time data does not match format")
      end
  | None => Raise (ValueError "time data does not match format")
  end.

(** [%I]: the hour on the 12-hour clock, two digits. *)
Definition fmt_I (h : Z) : string :=
  fmt_02d (if h mod 12 =? 0 then 12 else h mod 12).

(** [%p] in the C locale. *)
Definition fmt_p (h : Z) : string := if h <? 12 then "AM" else "PM".

(** [strftime("%H:%M:%S", t)]. *)
Definition strftime_H_M_S (t : struct_time) : string :=
  fmt_02d (tm_hour t) +:+ ":" +:+ fmt_02d (tm_min t) +:+ ":" +:+ fmt_02d (tm_sec t).

(** [strftime("%I:%M %p", t)]. *)
Definition strftime_I_M_p (t : struct_time) : string :=
  fmt_I (tm_hour t) +:+ ":" +:+ fmt_02d (tm_min t) +:+ " " +:+ fmt_p (tm_hour t).

(** [strftime("%Y-%m-%d", t)]; [%Y] is the year in decimal, four
    digits from the year 1000 on. *)
Definition strftime_Y_m_d (t : struct_time) : string :=
  str_int (tm_year t) +:+ "-" +:+ fmt_02d (tm_mon t) +:+ "-" +:+ fmt_02d (tm_mday t).

End Time.

Import Time.

(** ** Values passed between templates, widgets and forms *)

Inductive pyval : Type :=
| PNone
| PBool (b : bool)
| PInt (n : Z)
| PStr (s : string).

(** [str(v)], which is what [%s] formats. *)
Definition str (v : pyval) : string :=
  match v with
  | PNone => "None"
  | PBool true => "True"
  | PBool false => "False"
  | PInt n => str_int n
  | PStr s => s
  end.

Fixpoint digits_value (acc : Z) (s : string) : option Z :=
  match s with
  | EmptyString => Some acc
  | String c s' =>
      if isdigit c then digits_value (10 * acc + digit_value c) s' else None
  end.

(** [int(s)] for a string: white space around an optional sign and at
    least one decimal digit.  Python also admits single underscores
    between digits; no caller here produces them. *)
Definition int_of_string (s : string) : result Z :=
  let bad := Raise (ValueError "invalid literal for int() with base 10") in
  match strip s with
  | EmptyString => bad
  | String c rest =>
      if Ascii.eqb c "-" then
        match rest with
        | EmptyString => bad
        | _ => match digits_value 0 rest with Some n => Ok (- n) | None => bad end
        end
      else if Ascii.eqb c "+" then
        match rest with
        | EmptyString => bad
        | _ => match digits_value 0 rest with Some n => Ok n | None => bad end
        end
      else match digits_value 0 (String c rest) with Some n => Ok n | None => bad end
  end.

(** [int(v)]. *)
Definition int (v : pyval) : result Z :=
  match v with
  | PNone => Raise (TypeError "int() argument must be a string or a number")
  | PBool b => Ok (if b then 1 else 0)
  | PInt n => Ok n
  | PStr s => int_of_string s
  end.

(** Submitted form data: a [QueryDict] read with [data.get(name)]. *)
Abbreviation querydict := (gmap string string).

Definition data_get (data : querydict) (name : string) : pyval :=
  match data !! name with
  | Some s => PStr s
  | None => PNone
  end.

(** [name + "_%s" % i], the name of the [i]-th part of a [MultiWidget]. *)
Definition subwidget_name (name : string) (i : Z) : string :=
  name +:+ "_" +:+ str_int i.

(** ** Widgets of [events/forms.py] *)

(** *** [Lookup] *)

Module Lookup.
Section WithSource.

(** The model class behind [self.source]: its instances, the query
    [source.objects.get] with the keyword [key] bound to [value], and
    [getattr] on an instance.
    An attribute is a plain value or a bound method. *)
Variable instance : Type.

Inductive attribute : Type :=
| Plain (v : pyval)
| Method (call : unit -> pyval).

Variable objects_get : string -> pyval -> result instance.
Variable getattr : instance -> string -> result attribute.

Record t : Type := { key : string; label : string }.

(** [Lookup(source)] leaves [key="id"] and [label="__str__"]. *)
Definition default : t := {| key := "id"; label := "__str__" |}.

(** One entry per call of [objects.get], in order. *)
Definition query : Type := (string * pyval)%type.

(** [format_value], with the queries it performed. *)
Definition format_value (self : t) (value : pyval) : list query * result string :=
  match value with
  | PNone => ([], Ok ("<option value=" +:+ dq +:+ dq +:+ ">--------</option>"))
  | _ =>
      ([(key self, value)],
       bind (objects_get (key self) value) (fun lookup_object =>
       bind (getattr lookup_object (label self)) (fun lookup_field =>
       let lookup_value :=
         match lookup_field with
         | Method call => call tt
         | Plain v => v
         end in
       Ok ("<option value=" +:+ dq +:+ str value +:+ dq +:+ ">"
           +:+ str lookup_value +:+ "</option>"))))
  end.

End WithSource.
End Lookup.

(** *** [SimpleTimeWidget] *)

Module SimpleTimeWidget.

(** The [choices] built by [__init__]: for each meridian, for each
    hour of [range(0, 12)] (0 shown as 12), for each minute of
    [range(0, 60, 30)], the pair of value and label. *)
Definition choices : list (string * string) :=
  flat_map (fun m =>
    flat_map (fun hour =>
      let hour := if hour =? 0 then 12 else hour in
      flat_map (fun minute =>
        [ (fmt_02d hour +:+ ":" +:+ fmt_02d minute +:+ " " +:+ m,
           fmt_02d hour +:+ ":" +:+ fmt_02d minute +:+ " " +:+ m) ])
        (range 0 60 30))
      (range 0 12 1))
    ["AM"; "PM"].

(** [strptime(value, fmt)] on whatever [data.get] returned. *)
Definition strptime_value (value : pyval) : result struct_time :=
  match value with
  | PStr s => strptime_I_M_p s
  | _ => Raise (TypeError "strptime() argument 0 must be str")
  end.

Definition value_from_datadict (data : querydict) (name : string) : result string :=
  let value := data_get data name in
  bind (strptime_value value) (fun t =>
  Ok (strftime_H_M_S t)).

End SimpleTimeWidget.

(** *** [TimeWidget] *)

(** [datetime.time]. *)
Record time : Type := {
  time_hour : Z; time_minute : Z; time_second : Z; time_microsecond : Z
}.

Definition time_wf (t : time) : Prop :=
  0 <= time_hour t < 24 /\ 0 <= time_minute t < 60 /\
  0 <= time_second t < 60 /\ 0 <= time_microsecond t < 1000000.

(** [time.strftime] formats the time on 1900-01-01. *)
Definition time_timetuple (t : time) : struct_time :=
  at_time (time_hour t) (time_minute t) (time_second t).

Module TimeWidget.

(** What [decompress] may be given. *)
Inductive value : Type :=
| VStr (s : string)
| VTime (t : time)
| VOther (v : pyval).

(** The option values of the three select boxes. *)
Definition hour_choices : list Z := map (fun i => i + 1) (range 0 12 1).
Definition minute_choices : list Z := range 0 60 15.
Definition meridian_choices : list string := ["AM"; "PM"].

Definition decompress (v : value) : result (pyval * pyval * pyval) :=
  match v with
  | VStr s =>
      bind (match strptime_I_M_p s with
            | Ok t => Ok t
            | Raise _ => strptime_H_M_S s
            end) (fun value =>
      let hour := tm_hour value in
      let minute := tm_min value in
      if hour <? 12
      then Ok (PInt hour, PInt minute, PStr "AM")
      else Ok (PInt (hour - 12), PInt minute, PStr "PM"))
  | VTime t =>
      bind (int_of_string (fmt_I (time_hour t))) (fun hour =>
      bind (int_of_string (fmt_02d (time_minute t))) (fun minute =>
      let meridian := fmt_p (time_hour t) in
      Ok (PInt hour, PInt minute, PStr meridian)))
  | VOther _ => Ok (PNone, PNone, PNone)
  end.

Definition value_from_datadict (data : querydict) (name : string) : result string :=
  let value0 := data_get data (subwidget_name name 0) in
  let value1 := data_get data (subwidget_name name 1) in
  let value2 := data_get data (subwidget_name name 2) in
  bind (int value0) (fun h =>
  bind (int value1) (fun m =>
  bind (strptime_I_M_p (fmt_02d h +:+ ":" +:+ fmt_02d m +:+ " " +:+ str value2)) (fun t =>
  Ok (strftime_H_M_S t)))).

(** What the browser posts back for select boxes showing [parts]:
    the text of each selected option value. *)
Definition posted (name : string) (parts : pyval * pyval * pyval) : querydict :=
  let '(h, m, p) := parts in
  <[subwidget_name name 2 := str p]>
    (<[subwidget_name name 1 := str m]>
      (<[subwidget_name name 0 := str h]> ∅)).

End TimeWidget.

(** *** [DateTimeWidget] *)

(** The calendar fields of [datetime.datetime] that the widget reads. *)
Record datetime : Type := {
  year : Z; month : Z; day : Z;
  hour : Z; minute : Z; second : Z
}.

Definition timetuple (d : datetime) : struct_time :=
  {| tm_year := year d; tm_mon := month d; tm_mday := day d;
     tm_hour := hour d; tm_min := minute d; tm_sec := second d |}.

Module DateTimeWidget.

Inductive value : Type :=
| VNone
| VStr (s : string)
| VDatetime (d : datetime).

(** [if value:]: [None] and the empty string are false; a datetime
    is always true. *)
Definition truthy (v : value) : bool :=
  match v with
  | VNone => false
  | VStr s => negb (String.eqb s "")
  | VDatetime _ => true
  end.

Definition decompress (v : value) : result (pyval * pyval) :=
  if truthy v then
    match v with
    | VDatetime value =>
        let d := strftime_Y_m_d (timetuple value) in
        let t := strftime_I_M_p (timetuple value) in
        Ok (PStr d, PStr t)
    | _ => Raise (AttributeError "'str' object has no attribute 'timetuple'")
    end
  else Ok (PNone, PNone).

(** [" ".join(values)] for the two parts. *)
Definition join_values (values : list pyval) : result string :=
  match values with
  | [PStr a; PStr b] => Ok (Py.join " " [a; b])
  | _ => Raise (TypeError "sequence item: expected str instance")
  end.

(** The parts are a [DateWidget], which hands back the posted text,
    and a [SimpleTimeWidget]. *)
Definition value_from_datadict (data : querydict) (name : string) : result string :=
  let v0 := data_get data (subwidget_name name 0) in
  bind (SimpleTimeWidget.value_from_datadict data (subwidget_name name 1)) (fun v1 =>
  join_values [v0; PStr v1]).

(** What the browser posts back for a widget showing [parts]. *)
Definition posted (name : string) (parts : pyval * pyval) : querydict :=
  let '(d, t) := parts in
  <[subwidget_name name 1 := str t]>
    (<[subwidget_name name 0 := str d]> ∅).

End DateTimeWidget.

(** ** Django form fields, as far as the declared forms use them *)

Module Django.

(** [CheckboxInput.value_from_datadict]: a missing key is [False];
    the texts "true" and "false" (in any case) are read as such;
    anything else counts by [bool(value)]. *)
Definition CheckboxInput_value_from_datadict (data : querydict) (name : string) : bool :=
  match data !! name with
  | None => false
  | Some value =>
      if String.eqb (lower_str value) "true" then true
      else if String.eqb (lower_str value) "false" then false
      else negb (String.eqb value "")
  end.

(** The field classes the confirmation forms declare.  [CharField]
    carries Django's defaults when the source passes none:
    [required=True] and [strip=True]. *)
Inductive field : Type :=
| BooleanField (label : string) (required : bool)
| CharField (label : string) (required : bool) (strip_ : bool).

Definition CharField_default (label : string) : field :=
  CharField label true true.

Definition NUL : ascii := ascii_of_nat 0.

(** [Field.clean] for one field of a bound form: the widget reads
    the data, then [to_python], [validate] and [run_validators]. *)
Definition clean_field (name : string) (f : field) (data : querydict) : result pyval :=
  match f with
  | BooleanField _ required =>
      let value := CheckboxInput_value_from_datadict data name in
      if negb value && required
      then Raise (ValidationError "required" name)
      else Ok (PBool value)
  | CharField _ required strip_ =>
      let value :=
        match data_get data name with
        | PStr s => if strip_ then strip s else s
        | _ => EmptyString
        end in
      if String.eqb value "" then
        if required then Raise (ValidationError "required" name)
        else Ok (PStr value)
      else if contains_char NUL value
      then Raise (ValidationError "null_characters_not_allowed" name)
      else Ok (PStr value)
  end.

(** A form class: its declared fields, in order. *)
Definition form : Type := list (string * field).

(** [form.errors] after [full_clean]: one entry per failing field. *)
Fixpoint errors (f : form) (data : querydict) : list (string * exn) :=
  match f with
  | [] => []
  | (name, fld) :: rest =>
      match clean_field name fld data with
      | Ok _ => errors rest data
      | Raise e => (name, e) :: errors rest data
      end
  end.

(** [form.is_valid()] for a bound form. *)
Definition is_valid (f : form) (data : querydict) : bool :=
  match errors f data with
  | [] => true
  | _ => false
  end.

End Django.

(** ** The confirmation forms *)

Module Forms.
Import Django.

Definition DeleteTeamForm : form :=
  [("confirm", BooleanField "Yes, delete team" true)].
Definition DeleteEventForm : form :=
  [("confirm", BooleanField "Yes, delete event" true)].
Definition CancelEventForm : form :=
  [("confirm", BooleanField "Yes, cancel this event" true);
   ("reason", CharField_default "Reason for cancellation")].
Definition DeleteEventSeriesForm : form :=
  [("confirm", BooleanField "Yes, delete series" true)].
Definition RemoveEventPhotoForm : form :=
  [("confirm", BooleanField "Yes, remove photo" true)].
Definition DeleteCommentForm : form :=
  [("confirm", BooleanField "Yes, delete comment" true)].
Definition AcceptRequestToJoinOrgForm : form :=
  [("confirm", BooleanField "Yes, add this team to my organization" true)].
Definition AcceptInviteToJoinOrgForm : form :=
  [("confirm", BooleanField "Yes, add my team to this organization" true)].
Definition AcceptInviteToJoinTeamForm : form :=
  [("confirm", BooleanField "Yes, add me to this team" true)].
Definition AcceptRequestToJoinTeamForm : form :=
  [("confirm", BooleanField "Yes, add this person to my team" true)].
Definition DeleteSpeakerForm : form :=
  [("confirm", BooleanField "Yes, delete series" true)].
Definition DeleteTalkForm : form :=
  [("confirm", BooleanField "Yes, delete series" true)].

(** The confirmation forms with the single field [confirm]. *)
Definition plain_confirmation_forms : list form :=
  [DeleteTeamForm; DeleteEventForm; DeleteEventSeriesForm;
   RemoveEventPhotoForm; DeleteCommentForm; AcceptRequestToJoinOrgForm;
   AcceptInviteToJoinOrgForm; AcceptInviteToJoinTeamForm;
   AcceptRequestToJoinTeamForm; DeleteSpeakerForm; DeleteTalkForm].

(** The checkbox [name] is checked in [data]: the key is posted with
    a text that is neither empty nor "false" (a browser posts "on"). *)
Definition checked (data : querydict) (name : string) : Prop :=
  exists v, data !! name = Some v /\ v <> EmptyString /\ lower_str v <> "false"%string.

End Forms.

(** ** [MultiEmailField] *)

Module MultiEmailField.
Section WithValidator.

(** [django.core.validators.validate_email] accepts an address or
    raises; which addresses it accepts is Django's business. *)
Variable email_ok : string -> bool.

Definition validate_email (email : string) : result unit :=
  if email_ok email then Ok tt else Raise (ValidationError "invalid" email).

Record t : Type := { label : string; required : bool }.

(** [to = MultiEmailField(label="", widget=...)] in [TeamInviteForm],
    and [emails] in [EventInviteEmailForm]: required by default. *)
Definition declared : t := {| label := ""; required := true |}.

(** [not value]. *)
Definition falsy (value : pyval) : bool :=
  match value with
  | PNone => true
  | PBool b => negb b
  | PInt n => n =? 0
  | PStr s => String.eqb s ""
  end.

Definition to_python (value : pyval) : result (list string) :=
  if falsy value then Ok []
  else match value with
       | PStr s => Ok (map strip (split "," s))
       | _ => Raise (AttributeError "object has no attribute 'split'")
       end.

Fixpoint validate_each (value : list string) : result unit :=
  match value with
  | [] => Ok tt
  | email :: rest => bind (validate_email email) (fun _ => validate_each rest)
  end.

(** [validate]: first [Field.validate], which refuses an empty value
    of a required field, then every address in turn. *)
Definition validate (self : t) (value : list string) : result unit :=
  bind (match value with
        | [] => if required self
                then Raise (ValidationError "required" "")
                else Ok tt
        | _ => Ok tt
        end) (fun _ =>
  validate_each value).

End WithValidator.
End MultiEmailField.

(** ** Time zones: pytz and [django.utils.timezone] *)

Module Tz.

(** What an aware datetime carries: the zone and the offset from UTC
    in force, in seconds. *)
Record tzinfo : Type := { tzname : string; utcoffset : Z }.

(** A datetime on the time line: the wall-clock reading in seconds
    from the epoch, and the zone information when it is aware. *)
Record datetime : Type := { wall : Z; tz : option tzinfo }.

(** [datetime.min] and [datetime.max], 0001-01-01 00:00:00 and
    9999-12-31 23:59:59, in seconds from the epoch. *)
Definition min_wall : Z := -62135596800.
Definition max_wall : Z := 253402300799.

Definition in_range (w : Z) : bool := (min_wall <=? w) && (w <=? max_wall).

(** [dt + timedelta(seconds=delta)] on the reading of a datetime:
    a result outside of the years 1 to 9999 is an [OverflowError]. *)
Definition add_seconds (w delta : Z) : result Z :=
  if in_range (w + delta) then Ok (w + delta)
  else Raise (OverflowError "date value out of range").

(** [timedelta(days=1)], in seconds. *)
Definition day : Z := 86400.

(** A pytz zone: its name, whether its offset changes over the years
    (pytz's [DstTzInfo]; [pytz.utc] and the zones of one fixed offset
    are not), the offset in force at a UTC instant, and the offset
    [localize] picks for a wall-clock reading.  An offset is less than
    a day either way, as Python demands of [utcoffset()]. *)
Record timezone : Type := {
  zone : string;
  is_DstTzInfo : bool;
  offset_at_utc : Z -> Z;
  offset_at_wall : Z -> Z
}.

Definition utc : timezone :=
  {| zone := "UTC"; is_DstTzInfo := false;
     offset_at_utc := fun _ => 0; offset_at_wall := fun _ => 0 |}.

Definition naive (w : Z) : datetime := {| wall := w; tz := None |}.

Definition aware (w : Z) (z : timezone) (off : Z) : datetime :=
  {| wall := w; tz := Some {| tzname := zone z; utcoffset := off |} |}.

(** [z.localize(dt)]: a naive datetime read as wall-clock time of [z].
    [pytz.utc] and a zone of fixed offset attach themselves to [dt];
    a [DstTzInfo] first looks up the offsets in force a day before and
    a day after [dt], and neither day may leave the range. *)
Definition localize (z : timezone) (dt : datetime) : result datetime :=
  match tz dt with
  | Some _ => Raise (ValueError "Not naive datetime (tzinfo is already set)")
  | None =>
      if is_DstTzInfo z then
        bind (add_seconds (wall dt) (- day)) (fun _ =>
        bind (add_seconds (wall dt) day) (fun _ =>
        Ok (aware (wall dt) z (offset_at_wall z (wall dt)))))
      else Ok (aware (wall dt) z (offset_at_wall z (wall dt)))
  end.

(** [z is dt.tzinfo]: a zone of fixed offset is itself the [tzinfo]
    of the datetimes that carry its name and its offset; a [DstTzInfo]
    labels a datetime with an object of its own for the offset in
    force. *)
Definition is_tzinfo_of (z : timezone) (w : Z) (i : tzinfo) : bool :=
  negb (is_DstTzInfo z) && String.eqb (tzname i) (zone z)
  && (utcoffset i =? offset_at_utc z (w - utcoffset i)).

(** [dt.astimezone(z)] for an aware [dt]: [dt] itself when [z] is its
    [tzinfo]; otherwise the same instant read on the clock of [z],
    through [dt - dt.utcoffset()] and [z.fromutc]. *)
Definition astimezone (z : timezone) (w : Z) (i : tzinfo) : result datetime :=
  if is_tzinfo_of z w i then Ok {| wall := w; tz := Some i |}
  else
    bind (add_seconds w (- utcoffset i)) (fun u =>
    bind (add_seconds u (offset_at_utc z u)) (fun w' =>
    Ok (aware w' z (offset_at_utc z u)))).

(** [timezone.make_naive(value)]: with no zone given, Django converts
    to the current time zone ([astimezone], then the zone's
    [normalize], which repeats the same arithmetic) and drops the
    zone information. *)
Definition make_naive (current : timezone) (value : datetime) : result datetime :=
  match tz value with
  | None => Raise (ValueError "make_naive() cannot be applied to a naive datetime")
  | Some i =>
      bind (astimezone current (wall value) i) (fun d => Ok (naive (wall d)))
  end.

(** What a form's [DateTimeField] hands over for the submitted
    wall-clock reading [w]: that reading made aware in the current
    time zone. *)
Definition from_current_timezone (current : timezone) (w : Z) : datetime :=
  aware w current (offset_at_wall current w).

(** The submitted reading [w] taken as wall-clock time of [z] and
    converted to UTC. *)
Definition localized_in_utc (z : timezone) (w : Z) : datetime :=
  aware (w - offset_at_wall z w) utc 0.

End Tz.

(** ** The event forms *)

Module EventForms.
Import Tz.

(** Entries of [cleaned_data]. *)
Inductive cleaned : Type :=
| CDatetime (d : datetime)
| CValue (v : pyval).

Abbreviation cleaned_data := (gmap string cleaned).

(** [cleaned_data[key]]. *)
Definition getitem (d : cleaned_data) (key : string) : result cleaned :=
  match d !! key with
  | Some v => Ok v
  | None => Raise (KeyError key)
  end.

(** The event behind [self.instance]; [clean] reads its [tz]. *)
Record Event : Type := { event_tz_name : string }.

Section WithSettings.

(** Django's current time zone, and pytz's zone database. *)
Variable current : timezone.
Variable tzdb : string -> option timezone.

(** [pytz.timezone(name)]. *)
Definition pytz_timezone (name : string) : result timezone :=
  match tzdb name with
  | Some z => Ok z
  | None => Raise (UnknownTimeZoneError name)
  end.

(** [timezone.make_naive(v)] on an entry of [cleaned_data]. *)
Definition make_naive_value (v : cleaned) : result datetime :=
  match v with
  | CDatetime d => make_naive current d
  | CValue _ => Raise (AttributeError "object has no attribute 'utcoffset'")
  end.

(** [pytz.utc.localize(timezone.make_naive(event_tz.localize(
    timezone.make_naive(v))))], the expression [clean] applies to
    both times. *)
Definition relocalize (event_tz : timezone) (v : cleaned) : result cleaned :=
  bind (make_naive_value v) (fun n1 =>
  bind (localize event_tz n1) (fun a =>
  bind (make_naive current a) (fun n2 =>
  bind (localize utc n2) (fun u =>
  Ok (CDatetime u))))).

Definition TeamEventForm_clean (instance : Event) (super_clean : cleaned_data)
  : result cleaned_data :=
  let cleaned_data := super_clean in
  bind (pytz_timezone (event_tz_name instance)) (fun event_tz =>
  bind (getitem cleaned_data "start_time") (fun s =>
  bind (relocalize event_tz s) (fun s' =>
  let cleaned_data := <["start_time" := s']> cleaned_data in
  bind (getitem cleaned_data "end_time") (fun e =>
  bind (relocalize event_tz e) (fun e' =>
  let cleaned_data := <["end_time" := e']> cleaned_data in
  Ok cleaned_data))))).

Definition NewTeamEventForm_clean (instance : Event) (super_clean : cleaned_data)
  : result cleaned_data :=
  let cleaned_data := super_clean in
  bind (pytz_timezone (event_tz_name instance)) (fun event_tz =>
  bind (getitem cleaned_data "start_time") (fun s =>
  bind (relocalize event_tz s) (fun s' =>
  let cleaned_data := <["start_time" := s']> cleaned_data in
  bind (getitem cleaned_data "end_time") (fun e =>
  bind (relocalize event_tz e) (fun e' =>
  let cleaned_data := <["end_time" := e']> cleaned_data in
  Ok cleaned_data))))).

Definition NewEventForm_clean (instance : Event) (super_clean : cleaned_data)
  : result cleaned_data :=
  let cleaned_data := super_clean in
  bind (pytz_timezone (event_tz_name instance)) (fun event_tz =>
  bind (getitem cleaned_data "start_time") (fun s =>
  bind (relocalize event_tz s) (fun s' =>
  let cleaned_data := <["start_time" := s']> cleaned_data in
  bind (getitem cleaned_data "end_time") (fun e =>
  bind (relocalize event_tz e) (fun e' =>
  let cleaned_data := <["end_time" := e']> cleaned_data in
  Ok cleaned_data))))).

(** The three form classes with a [clean] of their own. *)
Inductive event_form : Type :=
| TeamEventForm
| NewTeamEventForm
| NewEventForm.

Definition clean (f : event_form) : Event -> cleaned_data -> result cleaned_data :=
  match f with
  | TeamEventForm => TeamEventForm_clean
  | NewTeamEventForm => NewTeamEventForm_clean
  | NewEventForm => NewEventForm_clean
  end.

End WithSettings.

End EventForms.

(** ** [get_together/urls.py] *)

Module Urls.

(** What a route leads to: a view function of a module, the admin
    site's URLs, or an included URLconf with its namespace. *)
Inductive target : Type :=
| View (module_ : string) (function : string)
| AdminSiteUrls
| Include (urlconf : string) (namespace : option string).

Record url_pattern : Type := {
  route : string;
  view : target;
  name : option string
}.

(** [path(route, view, name=name)]. *)
Definition path (route : string) (view : target) (name : option string) : url_pattern :=
  {| route := route; view := view; name := name |}.

Definition urlpatterns : list url_pattern := [
  path "" (View "views" "home") (Some "home");
  path "admin/" AdminSiteUrls None;
  path "searchables/" (View "event_views" "searchable_list") None;
  path "api/places/" (View "event_views" "places_list") None;
  path "api/countries/" (View "event_views" "country_list") None;
  path "api/spr/" (View "event_views" "spr_list") None;
  path "api/cities/" (View "event_views" "city_list") None;

  path "events/" (View "views" "events_list") (Some "events");
  path "create-team/" (View "views" "create_team") (Some "create-team");
  path "teams/" (View "views" "teams_list") (Some "teams");
  path "team/<int:team_id>/" (View "views" "show_team") (Some "show-team");
  path "team/<int:team_id>/create-event/" (View "views" "create_event") (Some "create-event");
  path "events/<int:event_id>/<str:event_slug>/" (View "views" "show_event") (Some "show-event");

  path "places/" (View "views" "places_list") (Some "places");
  path "create-place/" (View "views" "create_place") (Some "create-place");

  path "oauth/" (Include "social_django.urls" (Some "social")) None
].

(** *** Django's [path] routes *)

(** A route is text with converters [<kind:name>] in it. *)
Inductive part : Type :=
| Lit (c : ascii)
| Conv (kind : string) (param : string).

Inductive scan : Type :=
| Outside
| InKind (kind : string)
| InParam (kind : string) (param : string).

Definition snoc (s : string) (c : ascii) : string := s +:+ String c EmptyString.

(** Reading a route from left to right; [<name>] without a kind is
    a [str] converter. *)
Fixpoint parse_route (st : scan) (s : string) : list part :=
  match s with
  | EmptyString => []
  | String c s' =>
      match st with
      | Outside =>
          if Ascii.eqb c "<" then parse_route (InKind EmptyString) s'
          else Lit c :: parse_route Outside s'
      | InKind kind =>
          if Ascii.eqb c ":" then parse_route (InParam kind EmptyString) s'
          else if Ascii.eqb c ">" then Conv "str" kind :: parse_route Outside s'
          else parse_route (InKind (snoc kind c)) s'
      | InParam kind param =>
          if Ascii.eqb c ">" then Conv kind param :: parse_route Outside s'
          else parse_route (InParam kind (snoc param c)) s'
      end
  end.

(** The longest prefix of characters satisfying [p], and the rest. *)
Fixpoint span (p : ascii -> bool) (s : string) : string * string :=
  match s with
  | EmptyString => (EmptyString, EmptyString)
  | String c s' =>
      if p c then let '(a, b) := span p s' in (String c a, b)
      else (EmptyString, s)
  end.

Definition not_slash (c : ascii) : bool := negb (Ascii.eqb c "/").

(** [IntConverter]: the pattern [[0-9]+], converted with [int]. *)
Definition IntConverter (s : string) : option (pyval * string) :=
  let '(a, b) := span isdigit s in
  match a, digits_value 0 a with
  | String _ _, Some n => Some (PInt n, b)
  | _, _ => None
  end.

(** [StringConverter]: the pattern [[^/]+], kept as text. *)
Definition StringConverter (s : string) : option (pyval * string) :=
  let '(a, b) := span not_slash s in
  match a with
  | String _ _ => Some (PStr a, b)
  | EmptyString => None
  end.

(** The converters these routes use. *)
Definition converter (kind : string) (s : string) : option (pyval * string) :=
  if String.eqb kind "int" then IntConverter s
  else if String.eqb kind "str" then StringConverter s
  else None.

(** Matching the parts against the front of a request path.  In
    every route above a converter is followed by a slash, which
    neither converter's pattern matches, so the longest prefix is the
    only candidate. *)
Fixpoint match_parts (ps : list part) (s : string)
  : option (list (string * pyval) * string) :=
  match ps with
  | [] => Some ([], s)
  | Lit c :: ps' =>
      match s with
      | String c' s' => if Ascii.eqb c c' then match_parts ps' s' else None
      | EmptyString => None
      end
  | Conv kind param :: ps' =>
      match converter kind s with
      | Some (v, b) =>
          match match_parts ps' b with
          | Some (kw, rest) => Some ((param, v) :: kw, rest)
          | None => None
          end
      | None => None
      end
  end.

(** A view must match the whole path; an included URLconf takes over
    what is left of it. *)
Definition match_pattern (p : url_pattern) (s : string)
  : option (list (string * pyval) * string) :=
  match match_parts (parse_route Outside (route p)) s with
  | Some (kw, rest) =>
      match view p with
      | View _ _ => if String.eqb rest "" then Some (kw, rest) else None
      | _ => Some (kw, rest)
      end
  | None => None
  end.

Record resolver_match : Type := {
  matched : url_pattern;
  kwargs : list (string * pyval);
  remainder : string
}.

(** The first pattern that matches, in the order of the list. *)
Fixpoint resolve_in (patterns : list url_pattern) (s : string) : option resolver_match :=
  match patterns with
  | [] => None
  | p :: rest =>
      match match_pattern p s with
      | Some (kw, r) => Some {| matched := p; kwargs := kw; remainder := r |}
      | None => resolve_in rest s
      end
  end.

(** [resolve] of a request path, given without its leading slash. *)
Definition resolve (s : string) : option resolver_match := resolve_in urlpatterns s.

(** *** [reverse] *)

Fixpoint lookup_kwarg (kw : list (string * pyval)) (k : string) : option pyval :=
  match kw with
  | [] => None
  | (k', v) :: rest => if String.eqb k k' then Some v else lookup_kwarg rest k
  end.

(** The parameters of a route, from left to right. *)
Fixpoint params (ps : list part) : list string :=
  match ps with
  | [] => []
  | Lit _ :: ps' => params ps'
  | Conv _ param :: ps' => param :: params ps'
  end.

(** The keyword arguments given are the parameters of the route, no
    more and no fewer. *)
Definition same_keys (kw : list (string * pyval)) (ps : list string) : bool :=
  forallb (fun k => existsb (String.eqb k) ps) (map fst kw)
  && forallb (fun p => existsb (String.eqb p) (map fst kw)) ps.

(** The route with the text of each argument in the place of its
    converter. *)
Fixpoint build (ps : list part) (kw : list (string * pyval)) : option string :=
  match ps with
  | [] => Some EmptyString
  | Lit c :: ps' =>
      match build ps' kw with
      | Some s => Some (String c s)
      | None => None
      end
  | Conv _ param :: ps' =>
      match lookup_kwarg kw param, build ps' kw with
      | Some v, Some s => Some (str v +:+ s)
      | _, _ => None
      end
  end.

(** [urllib.parse.quote(s, safe=RFC3986_SUBDELIMS + '/~:@')]: letters,
    digits and the listed punctuation stay; every other character is
    written as the bytes of its UTF-8 form, each a percent sign and
    two capital hexadecimal digits. *)
Definition isalnum (c : ascii) : bool :=
  let n := code c in
  ((48 <=? n) && (n <=? 57)) || ((65 <=? n) && (n <=? 90)) || ((97 <=? n) && (n <=? 122)).

Definition safe (c : ascii) : bool :=
  isalnum c || contains_char c "_.-~" || contains_char c "!$&'()*+,;="
  || contains_char c "/~:@".

Definition hex_digit (n : Z) : ascii :=
  ascii_of_nat (Z.to_nat (if n <? 10 then 48 + n else 55 + n)).

Definition percent (byte : Z) : string :=
  String "%" (String (hex_digit (byte / 16)) (String (hex_digit (byte mod 16)) EmptyString)).

Definition quote_char (c : ascii) : string :=
  let n := code c in
  if safe c then String c EmptyString
  else if n <? 128 then percent n
  else percent (192 + n / 64) +:+ percent (128 + n mod 64).

Fixpoint quote (s : string) : string :=
  match s with
  | EmptyString => EmptyString
  | String c s' => quote_char c +:+ quote s'
  end.

(** [escape_leading_slashes(url)]: no URL starts with two slashes. *)
Definition escape_leading_slashes (url : string) : string :=
  match url with
  | String "/" (String "/" rest) => "/%2F" +:+ rest
  | _ => url
  end.

Definition has_name (n : string) (p : url_pattern) : bool :=
  match name p with
  | Some n' => String.eqb n n'
  | None => false
  end.

(** The candidates for a name, in turn: the keyword arguments must be
    the route's parameters, and the route filled in with their text
    must match the route's own pattern; the URL is that text, quoted,
    after the script prefix [/]. *)
Fixpoint reverse_in (patterns : list url_pattern) (n : string)
    (kw : list (string * pyval)) : result string :=
  match patterns with
  | [] => Raise (NoReverseMatch n)
  | p :: rest =>
      let ps := parse_route Outside (route p) in
      if has_name n p && same_keys kw (params ps) then
        match build ps kw with
        | Some candidate =>
            match match_pattern p candidate with
            | Some _ => Ok (escape_leading_slashes ("/" +:+ quote candidate))
            | None => reverse_in rest n kw
            end
        | None => reverse_in rest n kw
        end
      else reverse_in rest n kw
  end.

(** [reverse(name, kwargs=kw)] for a name outside any namespace: the
    names of [admin] and of the [social] include live in namespaces
    of their own.  The resolver tries the entries of a name from the
    last one listed to the first. *)
Definition reverse (n : string) (kw : list (string * pyval)) : result string :=
  reverse_in (rev urlpatterns) n kw.

End Urls.

(** ** [get_together/tests/teams.py] *)

Module TeamDisplayTests.

(** The fields of [Team] the tests touch. *)
Record Team : Type := { team_id : Z; slug : string; about_page : string }.

Section WithSite.

(** [Team.get_absolute_url] and the test client's [get] reach into
    the model and the views; the tests only compare the status. *)
Variable get_absolute_url : Team -> string.
Variable client_get : string -> Z.

Definition assert (b : bool) : result unit :=
  if b then Ok tt else Raise AssertionError.

Definition test_show_team (team : Team) : result unit :=
  let team_url := get_absolute_url team in
  let status_code := client_get team_url in
  assert (status_code =? 200).

Definition test_show_about_team (team : Team) : result unit :=
  let team := {| team_id := team_id team; slug := slug team;
                 about_page := "about this team!" |} in
  bind (Urls.reverse "show-team-about-by-slug" [("team_slug", PStr (slug team))])
    (fun team_about_url =>
  let status_code := client_get team_about_url in
  assert (status_code =? 200)).

Definition test_show_about_team_redirects_if_none (team : Team) : result unit :=
  let team := {| team_id := team_id team; slug := slug team;
                 about_page := "" |} in
  bind (Urls.reverse "show-team-about-by-slug" [("team_slug", PStr (slug team))])
    (fun team_about_url =>
  let status_code := client_get team_about_url in
  assert (status_code =? 302)).

End WithSite.

End TeamDisplayTests.

(** ** Vocabulary of the statements, and sample inputs *)

(** Equality of what the functions return is decidable, so finite
    families of cases are settled by evaluation. *)
#[local] Instance exn_eq_dec : EqDecision exn.
Proof. solve_decision. Defined.
#[local] Instance result_eq_dec {A} `{EqDecision A} : EqDecision (result A).
Proof. solve_decision. Defined.
#[local] Instance struct_time_eq_dec : EqDecision struct_time.
Proof. solve_decision. Defined.
#[local] Instance pyval_eq_dec : EqDecision pyval.
Proof. solve_decision. Defined.
#[local] Instance target_eq_dec : EqDecision Urls.target.
Proof. solve_decision. Defined.
#[local] Instance url_pattern_eq_dec : EqDecision Urls.url_pattern.
Proof. solve_decision. Defined.
#[local] Instance resolver_match_eq_dec : EqDecision Urls.resolver_match.
Proof. solve_decision. Defined.


(** A datetime to the minute, on the 24-hour clock. *)
Definition strftime_to_minute (t : struct_time) : string :=
  strftime_Y_m_d t +:+ " " +:+ strftime_H_M_S (at_time (tm_hour t) (tm_min t) 0).

Definition example_datetime : datetime :=
  {| year := 2020; month := 1; day := 2; hour := 15; minute := 30; second := 0 |}.

Definition quarter_past_ten : time :=
  {| time_hour := 10; time_minute := 15; time_second := 0; time_microsecond := 0 |}.

Definition quarter_past_ten_and_30s : time :=
  {| time_hour := 10; time_minute := 15; time_second := 30; time_microsecond := 0 |}.

Fixpoint all_space (s : string) : bool :=
  match s with
  | EmptyString => true
  | String c s' => isspace c && all_space s'
  end.

Definition starts_with_space (s : string) : bool :=
  match s with
  | EmptyString => false
  | String c _ => isspace c
  end.

Fixpoint ends_with_space (s : string) : bool :=
  match s with
  | EmptyString => false
  | String c EmptyString => isspace c
  | String _ s' => ends_with_space s'
  end.

(** [v] is [w] without its surrounding white space. *)
Definition stripped_of (w v : string) : Prop :=
  exists a b, w = a +:+ v +:+ b /\ all_space a = true /\ all_space b = true /\
              starts_with_space v = false /\ ends_with_space v = false.

(** A table of cities with a [name] field and a [__str__] method. *)
Definition city_get (k : string) (v : pyval) : result (Z * string) :=
  match v with
  | PInt 7 => if String.eqb k "id" then Ok (7, "Lyon"%string) else Raise DoesNotExist
  | _ => Raise DoesNotExist
  end.

Definition city_getattr (c : Z * string) (a : string) : result Lookup.attribute :=
  if String.eqb a "__str__" then Ok (Lookup.Method (fun _ => PStr (snd c)))
  else if String.eqb a "name" then Ok (Lookup.Plain (PStr (snd c)))
  else Raise (AttributeError a).

(** The box checked, and a reason of one space. *)
Definition blank_reason : querydict :=
  <["reason"%string := " "%string]> (<["confirm"%string := "on"%string]> ∅).

(** A stand-in for [validate_email]: an at sign somewhere. *)
Definition has_at_sign (s : string) : bool := contains_char "@" s.

(** Two zones of changing offset, on their winter offsets, which are
    all the sample submissions meet. *)
Definition new_york : Tz.timezone :=
  {| Tz.zone := "America/New_York";
     Tz.is_DstTzInfo := true;
     Tz.offset_at_utc := fun _ => -18000;
     Tz.offset_at_wall := fun _ => -18000 |}.

Definition paris : Tz.timezone :=
  {| Tz.zone := "Europe/Paris";
     Tz.is_DstTzInfo := true;
     Tz.offset_at_utc := fun _ => 3600;
     Tz.offset_at_wall := fun _ => 3600 |}.

Definition zones (name : string) : option Tz.timezone :=
  if String.eqb name "America/New_York" then Some new_york
  else if String.eqb name "Europe/Paris" then Some paris
  else if String.eqb name "UTC" then Some Tz.utc
  else None.

Definition meetup : EventForms.Event :=
  {| EventForms.event_tz_name := "America/New_York" |}.

(** The superclass's [cleaned_data] for a start at 1000 and an end at
    4600 on the wall clock, under the current zone [current]. *)
Definition submission (current : Tz.timezone) : gmap string EventForms.cleaned :=
  <["name"%string := EventForms.CValue (PStr "Meetup")]>
    (<["end_time"%string := EventForms.CDatetime (Tz.from_current_timezone current 4600)]>
      (<["start_time"%string := EventForms.CDatetime (Tz.from_current_timezone current 1000)]> ∅)).

(** The reading [w] lies at least [n] days inside the range of
    datetimes. *)
Definition days_inside (n : Z) (w : Z) : Prop :=
  Tz.min_wall + n * Tz.day <= w <= Tz.max_wall - n * Tz.day.

(** Every offset of the zone is less than a day, either way. *)
Definition offsets_below_a_day (z : Tz.timezone) : Prop :=
  forall t, - Tz.day < Tz.offset_at_utc z t < Tz.day /\
            - Tz.day < Tz.offset_at_wall z t < Tz.day.

(** The superclass's [cleaned_data], under UTC, for an event that
    starts with the first second of the year 1 and ends an hour
    later. *)
Definition first_hour_submission : gmap string EventForms.cleaned :=
  <["name"%string := EventForms.CValue (PStr "Meetup")]>
    (<["end_time"%string :=
         EventForms.CDatetime (Tz.from_current_timezone Tz.utc (Tz.min_wall + 3600))]>
      (<["start_time"%string :=
           EventForms.CDatetime (Tz.from_current_timezone Tz.utc Tz.min_wall)]> ∅)).

Definition cleaned_submission : gmap string EventForms.cleaned :=
  <["end_time"%string := EventForms.CDatetime (Tz.aware 22600 Tz.utc 0)]>
    (<["start_time"%string := EventForms.CDatetime (Tz.aware 19000 Tz.utc 0)]>
      (submission Tz.utc)).

(** Three entries of [urlpatterns]. *)
Definition show_team : Urls.url_pattern :=
  Urls.path "team/<int:team_id>/" (Urls.View "views" "show_team") (Some "show-team"%string).

Definition show_event : Urls.url_pattern :=
  Urls.path "events/<int:event_id>/<str:event_slug>/" (Urls.View "views" "show_event")
    (Some "show-event"%string).

Definition create_event : Urls.url_pattern :=
  Urls.path "team/<int:team_id>/create-event/" (Urls.View "views" "create_event")
    (Some "create-event"%string).

Definition oauth : Urls.url_pattern :=
  Urls.path "oauth/" (Urls.Include "social_django.urls" (Some "social"%string)) None.

(** The pattern registered under a name. *)
Definition named (n : string) : option Urls.url_pattern :=
  find (Urls.has_name n) Urls.urlpatterns.

(** The request path [s] is dispatched to the entry that lists the
    route [r] for the target [v] under the name [n], with the
    arguments [kw], and [rest] is left to an included URLconf. *)
Definition dispatches (s r : string) (v : Urls.target) (n : option string)
    (kw : list (string * pyval)) (rest : string) : Prop :=
  Urls.resolve s
  = Some {| Urls.matched := {| Urls.route := r; Urls.view := v; Urls.name := n |};
            Urls.kwargs := kw; Urls.remainder := rest |}.

(** The name [n] stands for the route [r] and the view [v]. *)
Definition registered (n r : string) (v : Urls.target) : Prop :=
  named n = Some {| Urls.route := r; Urls.view := v; Urls.name := Some n |}.

(** Text that [quote] leaves as it is. *)
Fixpoint all_safe (s : string) : bool :=
  match s with
  | EmptyString => true
  | String c s' => Urls.safe c && all_safe s'
  end.

(** ** The constructors of the widgets *)

(** HTML attributes passed to a widget: [None] or a dict. *)
Abbreviation html_attrs := (gmap string string).

(** [not attrs]: [None] and the empty dict. *)
Definition no_attrs (attrs : option html_attrs) : bool :=
  match attrs with
  | None => true
  | Some a => bool_decide (a = ∅)
  end.

(** [DateWidget]: a [DateInput], whose constructor copies the dict it
    is given and pops ["type"] from the copy into [input_type]. *)
Record DateWidget : Type := {
  date_class : string;
  date_input_type : string;
  date_attrs : html_attrs
}.

(** [DateWidget.__init__], with the caller's [attrs] as the call
    leaves it: [if not attrs: attrs = {}] binds a fresh dict, so
    [None] and an empty dict stay as they are, and any other dict is
    the one the [pop] and the assignment work on. *)
Definition DateWidget_init (attrs : option html_attrs) : DateWidget * option html_attrs :=
  let date_class := "datepicker"%string in
  let a := if no_attrs attrs then ∅ else default ∅ attrs in
  let '(date_class, a) :=
    match a !! "date_class" with
    | Some v => (v, delete "date_class" a)
    | None => (date_class, a)
    end in
  let a :=
    match a !! "class" with
    | None => <["class" := "date"]> a
    | Some _ => a
    end in
  ({| date_class := date_class;
      date_input_type := default "text" (a !! "type");
      date_attrs := delete "type" a |},
   if no_attrs attrs then attrs else Some a).

(** [SimpleTimeWidget] as constructed: a [Select], whose constructor
    copies the dict it is given. *)
Record SimpleTimeSelect : Type := {
  time_class : string;
  time_attrs : html_attrs;
  time_choices : list (string * string)
}.

(** [SimpleTimeWidget.__init__], likewise. *)
Definition SimpleTimeWidget_init (attrs : option html_attrs)
  : SimpleTimeSelect * option html_attrs :=
  let time_class := "timepicker"%string in
  let a := if no_attrs attrs then ∅ else default ∅ attrs in
  let '(time_class, a) :=
    match a !! "time_class" with
    | Some v => (v, delete "time_class" a)
    | None => (time_class, a)
    end in
  let a :=
    match a !! "class" with
    | None => <["class" := "time"]> a
    | Some _ => a
    end in
  ({| time_class := time_class;
      time_attrs := a;
      time_choices := SimpleTimeWidget.choices |},
   if no_attrs attrs then attrs else Some a).

(** [DateTimeWidget.__init__] replaces the parts by a [DateWidget] and
    a [SimpleTimeWidget], both built from the one [attrs], the date
    part first. *)
Definition DateTimeWidget_init (attrs : option html_attrs)
  : (DateWidget * SimpleTimeSelect) * option html_attrs :=
  let '(date_part, attrs1) := DateWidget_init attrs in
  let '(time_part, attrs2) := SimpleTimeWidget_init attrs1 in
  ((date_part, time_part), attrs2).

(** ** [MultiEmailField] as a form calls it *)

(** [Field.clean], inherited by [MultiEmailField]: [to_python], then
    [validate]; the field declares no validators of its own, so the
    cleaned value is what [to_python] returned. *)
Definition MultiEmailField_clean (email_ok : string -> bool) (self : MultiEmailField.t)
    (value : pyval) : result (list string) :=
  bind (MultiEmailField.to_python value) (fun emails =>
  bind (MultiEmailField.validate email_ok self emails) (fun _ =>
  Ok emails)).

(** How often [c] occurs in [s]. *)
Fixpoint count_char (c : ascii) (s : string) : nat :=
  match s with
  | EmptyString => 0%nat
  | String c' s' => ((if Ascii.eqb c' c then 1 else 0) + count_char c s')%nat
  end.

(** ** More vocabulary of the statements *)

(** The hour the string branch of [decompress] hands to the hour box. *)
Definition hour_after_noon (h : Z) : Z := if h <? 12 then h else h - 12.

(** Every way of setting the three select boxes. *)
Definition select_settings : list (pyval * pyval * pyval) :=
  flat_map (fun p =>
    flat_map (fun h =>
      map (fun m => (PInt h, PInt m, PStr p)) TimeWidget.minute_choices)
      TimeWidget.hour_choices)
    TimeWidget.meridian_choices.

(** The time of day a setting of the boxes stands for. *)
Definition setting_time (c : pyval * pyval * pyval) : result string :=
  match c with
  | (PInt h, PInt m, PStr p) =>
      Ok (strftime_H_M_S
            (at_time (h mod 12 + (if String.eqb p "PM" then 12 else 0)) m 0))
  | _ => Raise (TypeError "not a setting of the select boxes")
  end.

Definition seven_past_eleven_pm : time :=
  {| time_hour := 23; time_minute := 7; time_second := 59; time_microsecond := 999999 |}.

(** * Properties *)

(** ** Checking a finite range by evaluation *)

Lemma range_unit_elem (n i : Z) : 0 <= i < n -> In i (range 0 n 1).
Proof.
  intros Hi. unfold range. apply in_map_iff. exists (Z.to_nat i). split.
  - lia.
  - apply in_seq. replace (n - 0 + 1 - 1) with n by lia. rewrite Z.div_1_r. lia.
Qed.

Lemma range_forallb (P : Z -> bool) (n : Z) :
  forallb P (range 0 n 1) = true -> forall i, 0 <= i < n -> P i = true.
Proof.
  intros H i Hi. rewrite forallb_forall in H. apply H. now apply range_unit_elem.
Qed.

(** Every hour and minute of the day. *)
Lemma clock_forallb (P : Z -> Z -> bool) :
  forallb (fun h => forallb (P h) (range 0 60 1)) (range 0 24 1) = true ->
  forall h m, 0 <= h < 24 -> 0 <= m < 60 -> P h m = true.
Proof.
  intros H h m Hh Hm.
  pose proof (range_forallb _ 24 H h Hh) as H1. cbv beta in H1.
  exact (range_forallb _ 60 H1 m Hm).
Qed.

(** ** [strptime] undoes [strftime] on the 12-hour format *)

Lemma strptime_strftime_I_M_p (h m : Z) :
  0 <= h < 24 -> 0 <= m < 60 ->
  strptime_I_M_p (fmt_I h +:+ ":" +:+ fmt_02d m +:+ " " +:+ fmt_p h)
  = Ok (at_time h m 0).
Proof.
  intros Hh Hm.
  assert (H : forallb (fun h => forallb (fun m => bool_decide
    (strptime_I_M_p (fmt_I h +:+ ":" +:+ fmt_02d m +:+ " " +:+ fmt_p h)
     = Ok (at_time h m 0))) (range 0 60 1)) (range 0 24 1) = true)
    by (vm_compute; reflexivity).
  pose proof (clock_forallb _ H h m Hh Hm) as H1. cbv beta in H1.
  now apply bool_decide_eq_true in H1.
Qed.

(** ** Names of the parts of a multi-part widget *)

Lemma subwidget_name_ne (name : string) (i j : Z) :
  str_int i <> str_int j -> subwidget_name name i <> subwidget_name name j.
Proof.
  intros Hne H. unfold subwidget_name in H.
  apply String.app_inj in H. apply String.app_inj in H. contradiction.
Qed.

Lemma data_get_lookup (data : querydict) (name s : string) :
  data !! name = Some s -> data_get data name = PStr s.
Proof. intros H. unfold data_get. now rewrite H. Qed.

(** ** [SimpleTimeWidget] *)



(** ** [DateTimeWidget] *)

Lemma DateTimeWidget_posted_0 (name : string) (d t : pyval) :
  DateTimeWidget.posted name (d, t) !! subwidget_name name 0 = Some (str d).
Proof.
  unfold DateTimeWidget.posted.
  rewrite lookup_insert_ne by (apply subwidget_name_ne; discriminate).
  apply lookup_insert_eq.
Qed.

Lemma DateTimeWidget_posted_1 (name : string) (d t : pyval) :
  DateTimeWidget.posted name (d, t) !! subwidget_name name 1 = Some (str t).
Proof. unfold DateTimeWidget.posted. apply lookup_insert_eq. Qed.

(** C7, as the code has it.  [decompress] of a datetime is the pair of
    its date as [%Y-%m-%d] and its time as [%I:%M %p]; of [None] and of
    the empty string, the pair of [None]s.  [value_from_datadict] joins
    the posted date and the value of the time part with one space, and
    that value is what [SimpleTimeWidget] makes of the posted time: the
    24-hour form [%H:%M:%S].  So posting back the parts of a datetime
    gives that datetime to the minute as [YYYY-MM-DD HH:MM:00] on the
    24-hour clock. *)
Theorem DateTimeWidget_decompress_roundtrip (d : datetime) (name : string) :
  0 <= hour d < 24 -> 0 <= minute d < 60 ->
  DateTimeWidget.decompress (DateTimeWidget.VDatetime d)
    = Ok (PStr (strftime_Y_m_d (timetuple d)), PStr (strftime_I_M_p (timetuple d))) /\
  (forall (data : querydict) (dd tt : string),
     data !! subwidget_name name 0 = Some dd ->
     SimpleTimeWidget.value_from_datadict data (subwidget_name name 1) = Ok tt ->
     DateTimeWidget.value_from_datadict data name = Ok (dd +:+ " " +:+ tt)) /\
  DateTimeWidget.value_from_datadict
    (DateTimeWidget.posted name
       (PStr (strftime_Y_m_d (timetuple d)), PStr (strftime_I_M_p (timetuple d)))) name
    = Ok (strftime_to_minute (timetuple d)) /\
  DateTimeWidget.decompress DateTimeWidget.VNone = Ok (PNone, PNone) /\
  DateTimeWidget.decompress (DateTimeWidget.VStr "") = Ok (PNone, PNone).
Proof.
  intros Hh Hm.
  assert (Hjoin : forall (data : querydict) (dd tt : string),
     data !! subwidget_name name 0 = Some dd ->
     SimpleTimeWidget.value_from_datadict data (subwidget_name name 1) = Ok tt ->
     DateTimeWidget.value_from_datadict data name = Ok (dd +:+ " " +:+ tt)).
  { intros data dd tt H0 H1. unfold DateTimeWidget.value_from_datadict.
    rewrite H1, (data_get_lookup _ _ _ H0). reflexivity. }
  repeat split; try reflexivity; [exact Hjoin|].
  apply Hjoin.
  - apply DateTimeWidget_posted_0.
  - unfold SimpleTimeWidget.value_from_datadict.
    rewrite (data_get_lookup _ _ _ (DateTimeWidget_posted_1 _ _ _)).
    cbn [str SimpleTimeWidget.strptime_value].
    unfold strftime_I_M_p. cbn [timetuple tm_hour tm_min].
    now rewrite strptime_strftime_I_M_p.
Qed.

Lemma DateTimeWidget_decompress_roundtrip_witness :
  DateTimeWidget.value_from_datadict
    (DateTimeWidget.posted "start_time" (PStr "2020-01-02", PStr "03:30 PM")) "start_time"
  = Ok "2020-01-02 15:30:00"%string.
Proof.
  destruct (DateTimeWidget_decompress_roundtrip example_datetime "start_time")
    as (_ & _ & H & _).
  - simpl. lia.
  - simpl. lia.
  - exact H.
Defined.

(** C7 as stated fails: the parts of 2020-01-02 15:30 are "2020-01-02"
    and "03:30 PM", and posting them back gives "2020-01-02 15:30:00",
    not the two parts joined by a space. *)
Lemma DateTimeWidget_not_12_hour_text :
  ~ (forall (d : datetime) (name dd tt : string),
       0 <= hour d < 24 -> 0 <= minute d < 60 ->
       DateTimeWidget.decompress (DateTimeWidget.VDatetime d) = Ok (PStr dd, PStr tt) ->
       DateTimeWidget.value_from_datadict
         (DateTimeWidget.posted name (PStr dd, PStr tt)) name
       = Ok (dd +:+ " " +:+ tt)).
Proof.
  intros H.
  specialize (H example_datetime "start_time" "2020-01-02" "03:30 PM")%string.
  assert (Hv : DateTimeWidget.value_from_datadict
    (DateTimeWidget.posted "start_time" (PStr "2020-01-02", PStr "03:30 PM")) "start_time"
    = Ok "2020-01-02 15:30:00"%string) by (vm_compute; reflexivity).
  rewrite Hv in H.
  assert (Hneq : Ok "2020-01-02 15:30:00"%string = Ok "2020-01-02 03:30 PM"%string).
  { apply H; [simpl; lia | simpl; lia | reflexivity]. }
  discriminate Hneq.
Qed.

(** ** [TimeWidget] *)

Lemma TimeWidget_posted_lookup (name : string) (h m p : pyval) :
  TimeWidget.posted name (h, m, p) !! subwidget_name name 0 = Some (str h) /\
  TimeWidget.posted name (h, m, p) !! subwidget_name name 1 = Some (str m) /\
  TimeWidget.posted name (h, m, p) !! subwidget_name name 2 = Some (str p).
Proof.
  unfold TimeWidget.posted. repeat split.
  - rewrite !lookup_insert_ne by (apply subwidget_name_ne; discriminate).
    apply lookup_insert_eq.
  - rewrite lookup_insert_ne by (apply subwidget_name_ne; discriminate).
    apply lookup_insert_eq.
  - apply lookup_insert_eq.
Qed.

(** The hour and minute that [decompress] reads back from the
    formatted time, and what the select boxes then post. *)
Lemma TimeWidget_parts (h m : Z) :
  0 <= h < 24 -> 0 <= m < 60 ->
  let h12 := if h mod 12 =? 0 then 12 else h mod 12 in
  int_of_string (fmt_I h) = Ok h12 /\
  int_of_string (fmt_02d m) = Ok m /\
  int_of_string (str_int h12) = Ok h12 /\
  int_of_string (str_int m) = Ok m /\
  strptime_I_M_p (fmt_02d h12 +:+ ":" +:+ fmt_02d m +:+ " " +:+ fmt_p h)
    = Ok (at_time h m 0) /\
  h12 ∈ TimeWidget.hour_choices.
Proof.
  intros Hh Hm h12. subst h12.
  assert (H : forallb (fun h => forallb (fun m =>
    let h12 := if h mod 12 =? 0 then 12 else h mod 12 in
    bool_decide (int_of_string (fmt_I h) = Ok h12) &&
    bool_decide (int_of_string (fmt_02d m) = Ok m) &&
    bool_decide (int_of_string (str_int h12) = Ok h12) &&
    bool_decide (int_of_string (str_int m) = Ok m) &&
    bool_decide (strptime_I_M_p (fmt_02d h12 +:+ ":" +:+ fmt_02d m +:+ " " +:+ fmt_p h)
                 = Ok (at_time h m 0)) &&
    bool_decide (h12 ∈ TimeWidget.hour_choices))
    (range 0 60 1)) (range 0 24 1) = true) by (vm_compute; reflexivity).
  pose proof (clock_forallb _ H h m Hh Hm) as H1. cbv beta zeta in H1.
  repeat (apply andb_true_iff in H1; destruct H1 as [H1 ?]).
  repeat match goal with
         | H : bool_decide _ = true |- _ => apply bool_decide_eq_true in H
         end.
  repeat split; assumption.
Qed.

(** C10, as the code has it.  For a time of day [t] whose minute is a
    multiple of 15 and whose second is 0, [decompress] gives an hour,
    a minute and a meridian that are among the options of the three
    select boxes, and [value_from_datadict] on what the boxes post
    back returns [t] as [%H:%M:%S].  A value that is neither a string
    nor a time decompresses to three [None]s. *)
Theorem TimeWidget_roundtrip (t : time) (name : string) :
  time_wf t -> time_minute t mod 15 = 0 -> time_second t = 0 ->
  (exists h m p,
     TimeWidget.decompress (TimeWidget.VTime t) = Ok (PInt h, PInt m, PStr p) /\
     h ∈ TimeWidget.hour_choices /\
     m ∈ TimeWidget.minute_choices /\
     p ∈ TimeWidget.meridian_choices /\
     TimeWidget.value_from_datadict
       (TimeWidget.posted name (PInt h, PInt m, PStr p)) name
     = Ok (strftime_H_M_S (time_timetuple t))) /\
  (forall v, TimeWidget.decompress (TimeWidget.VOther v) = Ok (PNone, PNone, PNone)).
Proof.
  intros (Hh & Hm & _ & _) H15 Hs. split; [|reflexivity].
  destruct (TimeWidget_parts (time_hour t) (time_minute t) Hh Hm)
    as (HI & HM & HsI & HsM & Hp & Hin).
  set (h12 := if time_hour t mod 12 =? 0 then 12 else time_hour t mod 12) in *.
  exists h12, (time_minute t), (fmt_p (time_hour t)).
  split; [|split; [exact Hin|split; [|split]]].
  - unfold TimeWidget.decompress. rewrite HI. cbn [bind]. rewrite HM. reflexivity.
  - assert (Hc : time_minute t = 0 \/ time_minute t = 15 \/
                 time_minute t = 30 \/ time_minute t = 45)
      by (pose proof (Z.div_mod (time_minute t) 15 ltac:(lia)); lia).
    apply list_elem_of_In. destruct Hc as [-> | [-> | [-> | ->]]]; cbv; tauto.
  - apply list_elem_of_In. unfold fmt_p. destruct (time_hour t <? 12); cbv; tauto.
  - destruct (TimeWidget_posted_lookup name (PInt h12) (PInt (time_minute t))
                (PStr (fmt_p (time_hour t)))) as (L0 & L1 & L2).
    unfold TimeWidget.value_from_datadict.
    rewrite (data_get_lookup _ _ _ L0), (data_get_lookup _ _ _ L1),
            (data_get_lookup _ _ _ L2).
    cbn [str int]. rewrite HsI, HsM. cbn [bind]. rewrite Hp. cbn [bind].
    unfold time_timetuple. now rewrite Hs.
Qed.

Lemma TimeWidget_roundtrip_witness :
  exists h m p,
    TimeWidget.decompress (TimeWidget.VTime quarter_past_ten) = Ok (PInt h, PInt m, PStr p) /\
    h ∈ TimeWidget.hour_choices /\
    m ∈ TimeWidget.minute_choices /\
    p ∈ TimeWidget.meridian_choices /\
    TimeWidget.value_from_datadict
      (TimeWidget.posted "start_time" (PInt h, PInt m, PStr p)) "start_time"
    = Ok "10:15:00"%string.
Proof.
  refine (proj1 (TimeWidget_roundtrip quarter_past_ten "start_time" _ _ _)).
  - unfold time_wf; simpl; lia.
  - reflexivity.
  - reflexivity.
Defined.

(** C10 as stated fails for a time with seconds: 10:15:30 has a minute
    that is a multiple of 15, its parts are (10, 15, "AM"), and they
    come back as "10:15:00", not "10:15:30". *)
Lemma TimeWidget_roundtrip_drops_seconds :
  ~ (forall (t : time) (name : string) (parts : pyval * pyval * pyval),
       time_wf t -> time_minute t mod 15 = 0 ->
       TimeWidget.decompress (TimeWidget.VTime t) = Ok parts ->
       TimeWidget.value_from_datadict (TimeWidget.posted name parts) name
       = Ok (strftime_H_M_S (time_timetuple t))).
Proof.
  intros H.
  specialize (H quarter_past_ten_and_30s "start_time"%string
                (PInt 10, PInt 15, PStr "AM")).
  assert (Hv : TimeWidget.value_from_datadict
    (TimeWidget.posted "start_time" (PInt 10, PInt 15, PStr "AM")) "start_time"
    = Ok "10:15:00"%string) by (vm_compute; reflexivity).
  rewrite Hv in H.
  assert (Hneq : Ok "10:15:00"%string
                 = Ok (strftime_H_M_S (time_timetuple quarter_past_ten_and_30s))).
  { apply H; [unfold time_wf; simpl; lia | reflexivity | reflexivity]. }
  vm_compute in Hneq. discriminate Hneq.
Qed.

(** ** [Lookup] *)

Section LookupProperties.

Variable instance : Type.
Variable objects_get : string -> pyval -> result instance.
Variable getattr : instance -> string -> result Lookup.attribute.

(** C8. For [None], [format_value] returns the placeholder option
    and performs no query.  For any other value, when the query finds
    an object and the object has the label attribute, it performs
    that one query and returns an option whose value attribute is the
    value and whose text is the attribute, or the result of calling
    it when it is a method. *)
Theorem Lookup_format_value (self : Lookup.t) :
  Lookup.format_value instance objects_get getattr self PNone
    = ([], Ok ("<option value=" +:+ dq +:+ dq +:+ ">--------</option>")) /\
  forall (value : pyval) (lookup_object : instance) (lookup_field : Lookup.attribute),
    value <> PNone ->
    objects_get (Lookup.key self) value = Ok lookup_object ->
    getattr lookup_object (Lookup.label self) = Ok lookup_field ->
    Lookup.format_value instance objects_get getattr self value
    = ([(Lookup.key self, value)],
       Ok ("<option value=" +:+ dq +:+ str value +:+ dq +:+ ">"
           +:+ str (match lookup_field with
                    | Lookup.Plain v => v
                    | Lookup.Method call => call tt
                    end)
           +:+ "</option>")).
Proof.
  split; [reflexivity|].
  intros value lookup_object lookup_field Hv Hget Hattr.
  destruct value; try congruence;
    unfold Lookup.format_value; rewrite Hget; cbn [bind]; rewrite Hattr;
    reflexivity.
Qed.

End LookupProperties.

Lemma Lookup_format_value_witness :
  Lookup.format_value _ city_get city_getattr Lookup.default (PInt 7)
  = ([("id"%string, PInt 7)],
     Ok ("<option value=" +:+ dq +:+ "7" +:+ dq +:+ ">Lyon</option>")).
Proof.
  refine (proj2 (Lookup_format_value _ city_get city_getattr Lookup.default)
            (PInt 7) (7, "Lyon"%string) (Lookup.Method (fun _ => PStr "Lyon")) _ _ _).
  - discriminate.
  - reflexivity.
  - reflexivity.
Defined.

(** ** The confirmation forms *)

Lemma checkbox_checked (data : querydict) (name : string) :
  Django.CheckboxInput_value_from_datadict data name = true <-> Forms.checked data name.
Proof.
  unfold Django.CheckboxInput_value_from_datadict, Forms.checked.
  destruct (data !! name) as [v|]; [|split; [discriminate | intros (v & ? & _); discriminate]].
  destruct (String.eqb_spec (lower_str v) "true") as [Ht|Ht].
  - split; [|reflexivity]. intros _. exists v. repeat split.
    + intros ->. discriminate.
    + rewrite Ht. discriminate.
  - destruct (String.eqb_spec (lower_str v) "false") as [Hf|Hf].
    + split; [discriminate|]. intros (v' & [= <-] & _ & Hnf). contradiction.
    + destruct (String.eqb_spec v "") as [He|He]; cbn [negb].
      * split; [discriminate|]. intros (v' & [= <-] & Hne & _). contradiction.
      * split; [|reflexivity]. intros _. exists v. auto.
Qed.

Lemma confirm_only_valid (label : string) (data : querydict) :
  Django.is_valid [("confirm"%string, Django.BooleanField label true)] data = true
  <-> Forms.checked data "confirm".
Proof.
  rewrite <- checkbox_checked.
  unfold Django.is_valid. cbn [Django.errors Django.clean_field].
  destruct (Django.CheckboxInput_value_from_datadict data "confirm"); cbn; split; congruence.
Qed.

(** C3, as the code has it.  Each confirmation form declares first a
    required boolean field [confirm].  The eleven forms with that field
    alone validate exactly when the box is checked.  [CancelEventForm]
    also declares [reason], a required character field that Django
    strips, and validates exactly when the box is checked and a reason
    is posted that is not empty once stripped and holds no NUL. *)
Theorem confirmation_forms_validate_iff_confirmed (data : querydict) :
  Forall (fun f =>
            (exists label, f = [("confirm"%string, Django.BooleanField label true)]) /\
            (Django.is_valid f data = true <-> Forms.checked data "confirm"))
         Forms.plain_confirmation_forms /\
  (exists label rest,
     Forms.CancelEventForm = ("confirm"%string, Django.BooleanField label true) :: rest) /\
  (Django.is_valid Forms.CancelEventForm data = true <->
   Forms.checked data "confirm" /\
   exists r, data !! "reason" = Some r /\
             strip r <> EmptyString /\
             contains_char Django.NUL (strip r) = false).
Proof.
  split; [|split].
  - unfold Forms.plain_confirmation_forms.
    repeat (apply Forall_cons; split;
            [split; [eexists; reflexivity | apply confirm_only_valid]|]).
    apply Forall_nil. trivial.
  - do 2 eexists. reflexivity.
  - rewrite <- checkbox_checked.
    unfold Django.is_valid, Forms.CancelEventForm, Django.CharField_default.
    cbn [Django.errors Django.clean_field]. unfold data_get.
    destruct (Django.CheckboxInput_value_from_datadict data "confirm");
      cbn [negb andb].
    + destruct (data !! "reason") as [r|].
      * destruct (String.eqb_spec (strip r) "") as [He|He].
        -- split; [discriminate|]. intros (_ & r' & [= <-] & Hne & _). contradiction.
        -- destruct (contains_char Django.NUL (strip r)) eqn:Hn.
           ++ split; [discriminate|]. intros (_ & r' & [= <-] & _ & Hc). congruence.
           ++ split; [|reflexivity]. intros _. split; [reflexivity|]. exists r. auto.
      * cbn. split; [discriminate|]. intros (_ & r' & Hr & _). discriminate.
    + split; [|intros [? _]; discriminate].
      destruct (data !! "reason") as [r|]; [|cbn; discriminate].
      destruct (String.eqb (strip r) ""); [discriminate|].
      destruct (contains_char Django.NUL (strip r)); discriminate.
Qed.

(** C3 as stated fails for [CancelEventForm]: with the box checked and
    a reason of one space, which is not empty, the form is not valid. *)
Lemma CancelEventForm_blank_reason_invalid :
  ~ (forall data : querydict,
       Django.is_valid Forms.CancelEventForm data = true <->
       Forms.checked data "confirm" /\
       exists r, data !! "reason" = Some r /\ r <> EmptyString).
Proof.
  intros H. specialize (H blank_reason).
  assert (Hv : Django.is_valid Forms.CancelEventForm blank_reason = false)
    by (vm_compute; reflexivity).
  rewrite Hv in H. destruct H as [_ H].
  assert (false = true); [|discriminate].
  apply H. split.
  - exists "on"%string. repeat split; discriminate || reflexivity.
  - exists " "%string. split; [reflexivity | discriminate].
Qed.

(** ** [str.split], [str.join] and [str.strip] *)

Lemma split_nonempty (sep : ascii) (s : string) : split sep s <> [].
Proof.
  destruct s as [|c s]; cbn; [discriminate|].
  destruct (Ascii.eqb c sep); [discriminate|].
  destruct (split sep s); discriminate.
Qed.

Lemma join_cons_char (sep : string) (c : ascii) (w : string) (ws : list string) :
  join sep (String c w :: ws) = String c (join sep (w :: ws)).
Proof. destruct ws; reflexivity. Qed.

(** Joining the pieces with the separator gives the text back. *)
Lemma join_split (sep : ascii) (s : string) :
  join (String sep EmptyString) (split sep s) = s.
Proof.
  induction s as [|c s IH]; [reflexivity|].
  cbn [split]. pose proof (split_nonempty sep s) as Hn.
  destruct (Ascii.eqb_spec c sep) as [->|Hne].
  - destruct (split sep s) as [|w ws]; [contradiction|].
    change (join (String sep "") ("" :: w :: ws))%string
      with (String sep (join (String sep "") (w :: ws))).
    now rewrite IH.
  - destruct (split sep s) as [|w ws]; [contradiction|].
    rewrite join_cons_char. now rewrite IH.
Qed.

(** No piece holds the separator. *)
Lemma split_no_sep (sep : ascii) (s : string) :
  Forall (fun w => contains_char sep w = false) (split sep s).
Proof.
  induction s as [|c s IH]; cbn [split].
  - repeat constructor.
  - destruct (Ascii.eqb_spec c sep) as [->|Hne].
    + constructor; [reflexivity | exact IH].
    + pose proof (split_nonempty sep s) as Hn.
      destruct (split sep s) as [|w ws]; [contradiction|].
      apply Forall_cons in IH as [Hw Hws]. constructor; [|exact Hws].
      cbn [contains_char]. rewrite Hw.
      destruct (Ascii.eqb_spec sep c); [congruence | reflexivity].
Qed.

Lemma lstrip_spec (s : string) :
  exists a, s = a +:+ lstrip s /\ all_space a = true /\
            starts_with_space (lstrip s) = false.
Proof.
  induction s as [|c s (a & Hs & Ha & Hl)].
  - exists EmptyString. auto.
  - cbn [lstrip]. destruct (isspace c) eqn:Hc.
    + exists (String c a). split; [|split].
      * change (String c a +:+ lstrip s) with (String c (a +:+ lstrip s)).
        now rewrite <- Hs.
      * cbn [all_space]. now rewrite Hc, Ha.
      * exact Hl.
    + exists EmptyString. split; [reflexivity|]. split; [reflexivity|].
      exact Hc.
Qed.

Lemma rstrip_spec (s : string) :
  exists b, s = rstrip s +:+ b /\ all_space b = true /\
            ends_with_space (rstrip s) = false.
Proof.
  induction s as [|c s (b & Hs & Hb & He)].
  - exists EmptyString. auto.
  - cbn [rstrip]. destruct (rstrip s) as [|c' r] eqn:Hr.
    + destruct (isspace c) eqn:Hc.
      * exists (String c b). split; [|split].
        -- change (s = b) in Hs. change (String c s = String c b). now rewrite <- Hs.
        -- cbn [all_space]. now rewrite Hc, Hb.
        -- reflexivity.
      * exists b. split; [|split].
        -- change (s = b) in Hs. change (String c s = String c b). now rewrite <- Hs.
        -- exact Hb.
        -- cbn. exact Hc.
    + exists b. split; [|split].
      * change (String c (String c' r) +:+ b) with (String c (String c' r +:+ b)).
        now rewrite <- Hs.
      * exact Hb.
      * exact He.
Qed.

Lemma rstrip_starts (s : string) :
  starts_with_space s = false -> starts_with_space (rstrip s) = false.
Proof.
  destruct s as [|c s]; [reflexivity|]. cbn. intros Hc.
  destruct (rstrip s); [rewrite Hc|]; cbn; auto.
Qed.

Lemma strip_spec (w : string) : stripped_of w (strip w).
Proof.
  unfold strip.
  destruct (lstrip_spec w) as (a & Hw & Ha & Hl).
  destruct (rstrip_spec (lstrip w)) as (b & Hr & Hb & He).
  exists a, b. repeat split; try assumption.
  - rewrite <- Hr. exact Hw.
  - now apply rstrip_starts.
Qed.

(** ** [MultiEmailField] *)

Section MultiEmailFieldProperties.

Variable email_ok : string -> bool.

Abbreviation validate_each := (MultiEmailField.validate_each email_ok).
Abbreviation validate := (MultiEmailField.validate email_ok).

Lemma validate_each_ok (value : list string) :
  validate_each value = Ok tt <-> Forall (fun e => email_ok e = true) value.
Proof.
  induction value as [|e value IH]; cbn [MultiEmailField.validate_each].
  - split; [constructor | reflexivity].
  - unfold MultiEmailField.validate_email.
    destruct (email_ok e) eqn:He; cbn [bind].
    + rewrite IH. split; [now constructor | now intros [_ ?]%Forall_cons].
    + split; [discriminate | intros [? _]%Forall_cons; congruence].
Qed.

(** The error names the first address that is refused. *)
Lemma validate_each_raise (value : list string) (x : exn) :
  validate_each value = Raise x <->
  exists l1 e l2, value = l1 ++ e :: l2 /\
                  Forall (fun e => email_ok e = true) l1 /\
                  email_ok e = false /\ x = ValidationError "invalid" e.
Proof.
  induction value as [|e value IH]; cbn [MultiEmailField.validate_each].
  - split; [discriminate|]. intros (l1 & e & l2 & H & _). now destruct l1.
  - unfold MultiEmailField.validate_email.
    destruct (email_ok e) eqn:He; cbn [bind].
    + rewrite IH. split.
      * intros (l1 & e' & l2 & -> & Hl & He' & ->).
        exists (e :: l1), e', l2. repeat split; [now constructor | assumption].
      * intros (l1 & e' & l2 & Hv & Hl & He' & ->).
        destruct l1 as [|a l1]; cbn in Hv; injection Hv as <- ->; [congruence|].
        apply Forall_cons in Hl as [_ Hl]. exists l1, e', l2. auto.
    + split.
      * intros [= <-]. exists [], e, value. repeat split; [constructor | assumption].
      * intros (l1 & e' & l2 & Hv & Hl & He' & ->).
        destruct l1 as [|a l1]; cbn in Hv; injection Hv as <- ->; [reflexivity|].
        apply Forall_cons in Hl as [Ha _]. congruence.
Qed.

(** C4, as the code has it.  [to_python] returns the empty list for
    [None] and for the empty string; for any other string it returns
    the pieces between the commas, each without its surrounding white
    space.  [validate] succeeds exactly when the list is not empty,
    if the field is required, and [validate_email] accepts every
    element; when an element is refused, the error raised is the one
    for the first such element. *)
Theorem MultiEmailField_to_python_validate (self : MultiEmailField.t) :
  MultiEmailField.to_python PNone = Ok [] /\
  MultiEmailField.to_python (PStr "") = Ok [] /\
  (forall s : string, s <> EmptyString ->
     exists pieces,
       join "," pieces = s /\
       Forall (fun w => contains_char "," w = false) pieces /\
       MultiEmailField.to_python (PStr s) = Ok (map strip pieces) /\
       Forall2 stripped_of pieces (map strip pieces)) /\
  (forall value : list string,
     validate self value = Ok tt <->
     (MultiEmailField.required self = true -> value <> []) /\
     Forall (fun e => email_ok e = true) value) /\
  (forall (value : list string) (e : string),
     validate self value = Raise (ValidationError "invalid" e) <->
     exists l1 l2, value = l1 ++ e :: l2 /\
                   Forall (fun e => email_ok e = true) l1 /\
                   email_ok e = false).
Proof.
  split; [reflexivity|]. split; [reflexivity|]. split; [|split].
  - intros s Hs. exists (split "," s).
    split; [apply join_split|]. split; [apply split_no_sep|]. split.
    + unfold MultiEmailField.to_python. cbn [MultiEmailField.falsy].
      destruct (String.eqb_spec s ""); [contradiction | reflexivity].
    + induction (split "," s); constructor; [apply strip_spec | assumption].
  - intros value. unfold MultiEmailField.validate.
    destruct value as [|e value].
    + destruct (MultiEmailField.required self); cbn [bind].
      * split; [discriminate | intros [H _]; now contradiction H].
      * split; [intros _; split; [discriminate | constructor] | reflexivity].
    + cbn [bind]. rewrite validate_each_ok. split; [|tauto].
      intros H. split; [discriminate | exact H].
  - intros value e. unfold MultiEmailField.validate.
    destruct value as [|e0 value].
    + split.
      * destruct (MultiEmailField.required self); discriminate.
      * intros (l1 & l2 & H & _). now destruct l1.
    + cbn [bind]. rewrite validate_each_raise. split.
      * intros (l1 & e' & l2 & Hv & Hl & He & [= ->]). exists l1, l2. auto.
      * intros (l1 & l2 & Hv & Hl & He). exists l1, e, l2. auto.
Qed.

End MultiEmailFieldProperties.

Lemma MultiEmailField_to_python_validate_witness :
  MultiEmailField.to_python (PStr " a@x.org ,b@y.org") = Ok ["a@x.org"; "b@y.org"]%string /\
  MultiEmailField.validate has_at_sign MultiEmailField.declared ["a@x.org"; "b@y.org"]%string
  = Ok tt.
Proof.
  destruct (MultiEmailField_to_python_validate has_at_sign MultiEmailField.declared)
    as (_ & _ & Hp & Hv & _).
  split.
  - reflexivity.
  - apply Hv. split.
    + discriminate.
    + repeat constructor.
Defined.

(** C4 as stated fails on empty input for the field as both forms
    declare it: [to_python] gives the empty list, every element of
    which is accepted, yet [validate] raises, the field being
    required. *)
Lemma MultiEmailField_required_refuses_empty :
  ~ (forall (email_ok : string -> bool) (value : pyval) (emails : list string),
       MultiEmailField.to_python value = Ok emails ->
       (MultiEmailField.validate email_ok MultiEmailField.declared emails = Ok tt <->
        Forall (fun e => email_ok e = true) emails)).
Proof.
  intros H.
  destruct (H has_at_sign PNone [] eq_refl) as [_ H2].
  specialize (H2 (Forall_nil_2 _)). discriminate H2.
Qed.

(** ** The event forms *)

Section TzProperties.
Import Tz.

Lemma in_range_spec (w : Z) : in_range w = true <-> min_wall <= w <= max_wall.
Proof. unfold in_range. rewrite andb_true_iff, !Z.leb_le. tauto. Qed.

Lemma add_seconds_ok (w delta : Z) :
  min_wall <= w + delta <= max_wall -> add_seconds w delta = Ok (w + delta).
Proof.
  intros H. unfold add_seconds. apply in_range_spec in H. now rewrite H.
Qed.

Lemma add_seconds_overflow (w delta : Z) :
  ~ min_wall <= w + delta <= max_wall ->
  add_seconds w delta = Raise (OverflowError "date value out of range").
Proof.
  intros H. unfold add_seconds.
  destruct (in_range (w + delta)) eqn:Hr; [|reflexivity].
  apply in_range_spec in Hr. contradiction.
Qed.

(** Away from the edges, [astimezone] reads the same instant on the
    clock of the zone. *)
Lemma astimezone_wall (z : timezone) (w : Z) (i : tzinfo) :
  min_wall <= w - utcoffset i <= max_wall ->
  min_wall <= w - utcoffset i + offset_at_utc z (w - utcoffset i) <= max_wall ->
  exists d, astimezone z w i = Ok d /\
            wall d = w - utcoffset i + offset_at_utc z (w - utcoffset i).
Proof.
  intros Hu Hw. unfold astimezone.
  destruct (is_tzinfo_of z w i) eqn:Hi.
  - eexists. split; [reflexivity|]. cbn [wall].
    unfold is_tzinfo_of in Hi. apply andb_true_iff in Hi as [_ Hi].
    apply Z.eqb_eq in Hi. lia.
  - replace (w - utcoffset i) with (w + - utcoffset i) in * by lia.
    rewrite (add_seconds_ok _ _ Hu). cbn [bind].
    rewrite (add_seconds_ok _ _ Hw). cbn [bind].
    eexists. split; reflexivity.
Qed.

Lemma make_naive_aware (current : timezone) (w : Z) (i : tzinfo) :
  min_wall <= w - utcoffset i <= max_wall ->
  min_wall <= w - utcoffset i + offset_at_utc current (w - utcoffset i) <= max_wall ->
  make_naive current {| wall := w; tz := Some i |}
  = Ok (naive (w - utcoffset i + offset_at_utc current (w - utcoffset i))).
Proof.
  intros Hu Hw. unfold make_naive. cbn [tz wall].
  destruct (astimezone_wall current w i Hu Hw) as (d & -> & Hd).
  cbn [bind]. now rewrite Hd.
Qed.

Lemma localize_naive (z : timezone) (w : Z) :
  min_wall + day <= w <= max_wall - day ->
  localize z (naive w) = Ok (aware w z (offset_at_wall z w)).
Proof.
  intros H. unfold localize. cbn [tz naive wall].
  destruct (is_DstTzInfo z); [|reflexivity].
  rewrite add_seconds_ok by (unfold day in *; lia). cbn [bind].
  rewrite add_seconds_ok by (unfold day in *; lia). reflexivity.
Qed.

(** Within a day of either edge a zone of changing offset cannot
    localize. *)
Lemma localize_overflow (z : timezone) (w : Z) :
  is_DstTzInfo z = true -> ~ min_wall + day <= w <= max_wall - day ->
  localize z (naive w) = Raise (OverflowError "date value out of range").
Proof.
  intros Hz H. unfold localize. cbn [tz naive wall]. rewrite Hz.
  destruct (in_range (w + - day)) eqn:H1.
  - unfold add_seconds at 1. rewrite H1. cbn [bind].
    apply in_range_spec in H1.
    rewrite add_seconds_overflow; [reflexivity|]. unfold day in *. lia.
  - unfold add_seconds at 1. now rewrite H1.
Qed.

(** [make_naive] and [localize] fail on nothing but the zone
    information and the range. *)
Lemma make_naive_returns (current : timezone) (d d' : datetime) :
  make_naive current d = Ok d' -> exists i w, tz d = Some i /\ d' = naive w.
Proof.
  unfold make_naive. destruct (tz d) as [i|]; [|discriminate].
  destruct (astimezone current (wall d) i) as [a|]; [|discriminate].
  cbn [bind]. intros [= <-]. eauto.
Qed.

Lemma localize_utc (w : Z) : localize utc (naive w) = Ok (aware w utc 0).
Proof. reflexivity. Qed.

End TzProperties.

Section EventFormProperties.
Import Tz EventForms.

Variable current : timezone.
Variable tzdb : string -> option timezone.

(** The three classes carry the same [clean]. *)
Lemma clean_same (f : event_form) :
  clean current tzdb f = TeamEventForm_clean current tzdb.
Proof. destruct f; reflexivity. Qed.

(** What [clean] does to one time, whatever the current time zone:
    the instant is read on the current clock, that reading is taken
    as wall-clock time of the event's zone, the instant it names is
    read on the current clock again, and that reading is labelled
    UTC. *)
Lemma relocalize_aware_value (event_tz : timezone) (w : Z) (i : tzinfo) :
  let n1 := w - utcoffset i + offset_at_utc current (w - utcoffset i) in
  let u := n1 - offset_at_wall event_tz n1 in
  min_wall <= w - utcoffset i <= max_wall ->
  min_wall + day <= n1 <= max_wall - day ->
  min_wall <= u <= max_wall ->
  min_wall <= u + offset_at_utc current u <= max_wall ->
  relocalize current event_tz (CDatetime {| wall := w; tz := Some i |})
  = Ok (CDatetime (aware (u + offset_at_utc current u) utc 0)).
Proof.
  intros n1 u H1 H2 H3 H4. unfold relocalize, make_naive_value.
  rewrite make_naive_aware by (fold n1; unfold day in *; lia).
  cbn [bind]. fold n1.
  rewrite (localize_naive event_tz n1 H2). cbn [bind]. unfold aware at 1.
  rewrite make_naive_aware by (cbn [utcoffset]; fold u; lia).
  cbn [bind utcoffset]. fold u. now rewrite localize_utc.
Qed.

(** In a zone where the reading [w] exists, the field's value reads
    [w] again on the current clock. *)
Lemma relocalize_submitted (event_tz : timezone) (w : Z) :
  offset_at_utc current (w - offset_at_wall current w) = offset_at_wall current w ->
  offsets_below_a_day current -> offsets_below_a_day event_tz ->
  days_inside 2 w ->
  relocalize current event_tz (CDatetime (from_current_timezone current w))
  = Ok (CDatetime (aware (w - offset_at_wall event_tz w
                          + offset_at_utc current (w - offset_at_wall event_tz w))
                         utc 0)).
Proof.
  intros Hc Hcur Hev Hw. unfold from_current_timezone, aware at 1.
  pose proof (Hcur w) as [_ Hcw]. pose proof (Hev w) as [_ Hew].
  pose proof (Hcur (w - offset_at_wall event_tz w)) as [Hcu _].
  unfold days_inside in Hw. unfold day, min_wall, max_wall in *.
  rewrite relocalize_aware_value; cbn [utcoffset]; rewrite ?Hc;
    replace (w - offset_at_wall current w + offset_at_wall current w) with w by lia;
    unfold day, min_wall, max_wall; try lia.
  reflexivity.
Qed.

(** C2. When [clean] returns, every entry of [cleaned_data] other
    than [start_time] and [end_time] is the one the superclass
    produced, present or absent alike. *)
Theorem clean_frame (f : event_form) (instance : Event)
    (super_clean cleaned_data' : cleaned_data) (key : string) :
  clean current tzdb f instance super_clean = Ok cleaned_data' ->
  key <> "start_time"%string -> key <> "end_time"%string ->
  cleaned_data' !! key = super_clean !! key.
Proof.
  rewrite clean_same. unfold TeamEventForm_clean. intros H Hs He.
  destruct (pytz_timezone tzdb (event_tz_name instance)) as [event_tz|]; [|discriminate].
  cbn [bind] in H.
  destruct (getitem super_clean "start_time") as [s|]; [|discriminate].
  cbn [bind] in H.
  destruct (relocalize current event_tz s) as [s'|]; [|discriminate].
  cbn [bind] in H.
  destruct (getitem _ "end_time") as [e|]; [|discriminate].
  cbn [bind] in H.
  destruct (relocalize current event_tz e) as [e'|]; [|discriminate].
  cbn [bind] in H. injection H as <-.
  rewrite lookup_insert_ne by congruence.
  now rewrite lookup_insert_ne by congruence.
Qed.

End EventFormProperties.

Section EventFormsInUtc.
Import Tz EventForms.

Variable tzdb : string -> option timezone.

(** Under UTC a day's distance from the edges is enough. *)
Lemma relocalize_submitted_in_utc (event_tz : timezone) (w : Z) :
  offsets_below_a_day event_tz -> days_inside 1 w ->
  relocalize utc event_tz (CDatetime (from_current_timezone utc w))
  = Ok (CDatetime (localized_in_utc event_tz w)).
Proof.
  intros Hev Hw. unfold from_current_timezone, aware at 1.
  pose proof (Hev w) as [_ Hew].
  unfold days_inside in Hw. unfold day, min_wall, max_wall in *.
  rewrite relocalize_aware_value; cbn [utcoffset offset_at_utc offset_at_wall utc];
    rewrite ?Z.sub_0_r, ?Z.add_0_r; unfold day, min_wall, max_wall; try lia.
  reflexivity.
Qed.

(** C1, as the code has it.  With UTC as Django's current time zone,
    for each of the three forms and every submission whose two times
    the superclass accepted and which lie at least a day inside the
    range of datetimes, for an event whose zone pytz knows (its
    offsets less than a day, as those of every zone are), [clean]
    returns [cleaned_data] in which [start_time] and [end_time] are
    the submitted wall-clock readings taken in the event's zone and
    converted to UTC. *)
Theorem clean_localizes_in_event_zone (f : event_form) (instance : Event)
    (event_tz : timezone) (super_clean : cleaned_data) (start_ end_ : Z) :
  tzdb (event_tz_name instance) = Some event_tz ->
  offsets_below_a_day event_tz ->
  days_inside 1 start_ -> days_inside 1 end_ ->
  super_clean !! "start_time" = Some (CDatetime (from_current_timezone utc start_)) ->
  super_clean !! "end_time" = Some (CDatetime (from_current_timezone utc end_)) ->
  exists cleaned_data',
    clean utc tzdb f instance super_clean = Ok cleaned_data' /\
    cleaned_data' !! "start_time" = Some (CDatetime (localized_in_utc event_tz start_)) /\
    cleaned_data' !! "end_time" = Some (CDatetime (localized_in_utc event_tz end_)).
Proof.
  intros Hz Hev Hds Hde Hs He. rewrite clean_same.
  unfold TeamEventForm_clean, pytz_timezone.
  rewrite Hz. cbn [bind]. unfold getitem at 1. rewrite Hs. cbn [bind].
  rewrite relocalize_submitted_in_utc by assumption. cbn [bind].
  unfold getitem. rewrite lookup_insert_ne by discriminate. rewrite He. cbn [bind].
  rewrite relocalize_submitted_in_utc by assumption. cbn [bind].
  eexists. split; [reflexivity|]. split.
  - rewrite lookup_insert_ne by discriminate. now rewrite lookup_insert_eq.
  - now rewrite lookup_insert_eq.
Qed.

End EventFormsInUtc.

Lemma new_york_offsets : offsets_below_a_day new_york.
Proof. intros t. cbn. unfold Tz.day. lia. Qed.

Lemma clean_localizes_in_event_zone_witness :
  exists cleaned_data',
    EventForms.clean Tz.utc zones EventForms.TeamEventForm meetup (submission Tz.utc)
      = Ok cleaned_data' /\
    cleaned_data' !! "start_time"
      = Some (EventForms.CDatetime (Tz.aware 19000 Tz.utc 0)) /\
    cleaned_data' !! "end_time"
      = Some (EventForms.CDatetime (Tz.aware 22600 Tz.utc 0)).
Proof.
  apply (clean_localizes_in_event_zone zones EventForms.TeamEventForm meetup
           new_york (submission Tz.utc) 1000 4600).
  - reflexivity.
  - intros t. cbn. unfold Tz.day. lia.
  - unfold days_inside, Tz.day, Tz.min_wall, Tz.max_wall. lia.
  - unfold days_inside, Tz.day, Tz.min_wall, Tz.max_wall. lia.
  - reflexivity.
  - reflexivity.
Defined.

Lemma clean_frame_witness :
  EventForms.clean Tz.utc zones EventForms.NewEventForm meetup (submission Tz.utc)
    = Ok cleaned_submission /\
  cleaned_submission !! "name" = submission Tz.utc !! "name".
Proof.
  split; [reflexivity|].
  apply (clean_frame Tz.utc zones EventForms.NewEventForm meetup
           (submission Tz.utc) cleaned_submission "name").
  - reflexivity.
  - discriminate.
  - discriminate.
Defined.

(** C1 as stated fails at the edge of the range of datetimes, also
    with UTC as the current time zone: for a New York event that
    starts with the first second of the year 1, a time the form field
    accepts, [clean] raises [OverflowError] where the zone looks a day
    back. *)
Lemma clean_raises_on_the_first_day :
  ~ (forall (tzdb : string -> option Tz.timezone)
            (f : EventForms.event_form) (instance : EventForms.Event)
            (event_tz : Tz.timezone) (super_clean : gmap string EventForms.cleaned)
            (start_ end_ : Z),
       tzdb (EventForms.event_tz_name instance) = Some event_tz ->
       offsets_below_a_day event_tz ->
       Tz.in_range start_ = true -> Tz.in_range end_ = true ->
       super_clean !! "start_time"
         = Some (EventForms.CDatetime (Tz.from_current_timezone Tz.utc start_)) ->
       super_clean !! "end_time"
         = Some (EventForms.CDatetime (Tz.from_current_timezone Tz.utc end_)) ->
       exists cleaned_data',
         EventForms.clean Tz.utc tzdb f instance super_clean = Ok cleaned_data' /\
         cleaned_data' !! "start_time"
           = Some (EventForms.CDatetime (Tz.localized_in_utc event_tz start_)) /\
         cleaned_data' !! "end_time"
           = Some (EventForms.CDatetime (Tz.localized_in_utc event_tz end_))).
Proof.
  intros H.
  destruct (H zones EventForms.TeamEventForm meetup new_york
              first_hour_submission Tz.min_wall (Tz.min_wall + 3600)
              eq_refl new_york_offsets eq_refl eq_refl eq_refl eq_refl)
    as (d & Hc & _).
  assert (Hd : EventForms.clean Tz.utc zones EventForms.TeamEventForm meetup
                 first_hour_submission
               = Raise (OverflowError "date value out of range")) by reflexivity.
  rewrite Hd in Hc. discriminate Hc.
Qed.

(** ** The URL configuration *)

Lemma append_cons (c : ascii) (s t : string) : String c s +:+ t = String c (s +:+ t).
Proof. reflexivity. Qed.

Lemma append_nil (t : string) : EmptyString +:+ t = t.
Proof. reflexivity. Qed.

Lemma eqb_append_nonempty (s t : string) :
  s <> EmptyString -> String.eqb (s +:+ t) "" = false.
Proof. destruct s; [contradiction | reflexivity]. Qed.

Ltac normalize_append := repeat (rewrite append_cons || rewrite append_nil).

(** A run of digits ends where the slash begins. *)
Lemma span_digits (s rest : string) (acc n : Z) :
  digits_value acc s = Some n ->
  Urls.span isdigit (s +:+ String "/" rest) = (s, String "/" rest).
Proof.
  revert acc. induction s as [|c s IH]; intros acc H.
  - reflexivity.
  - cbn [digits_value] in H. rewrite append_cons. cbn [Urls.span].
    destruct (isdigit c); [|discriminate].
    now rewrite (IH _ H).
Qed.

Lemma span_not_slash (s rest : string) :
  contains_char "/" s = false ->
  Urls.span Urls.not_slash (s +:+ String "/" rest) = (s, String "/" rest).
Proof.
  induction s as [|c s IH]; intros H.
  - reflexivity.
  - cbn [contains_char] in H. apply orb_false_iff in H as [Hc Hs].
    rewrite append_cons. cbn [Urls.span]. unfold Urls.not_slash at 1.
    rewrite Ascii.eqb_sym, Hc. cbn [negb]. now rewrite (IH Hs).
Qed.

Lemma IntConverter_digits (digits rest : string) (n : Z) :
  digits <> EmptyString -> digits_value 0 digits = Some n ->
  Urls.IntConverter (digits +:+ String "/" rest) = Some (PInt n, String "/" rest).
Proof.
  intros Hne Hd. unfold Urls.IntConverter.
  rewrite (span_digits digits rest 0 n Hd).
  destruct digits; [contradiction|]. cbv beta iota. now rewrite Hd.
Qed.

Lemma StringConverter_segment (slug rest : string) :
  slug <> EmptyString -> contains_char "/" slug = false ->
  Urls.StringConverter (slug +:+ String "/" rest) = Some (PStr slug, String "/" rest).
Proof.
  intros Hne Hs. unfold Urls.StringConverter.
  rewrite (span_not_slash slug rest Hs). cbv beta iota.
  destruct slug; [contradiction | reflexivity].
Qed.

Lemma match_show_team (digits : string) (n : Z) :
  digits <> EmptyString -> digits_value 0 digits = Some n ->
  Urls.match_pattern show_team ("team/" +:+ digits +:+ "/")
  = Some ([("team_id"%string, PInt n)], EmptyString).
Proof.
  intros Hne Hd. unfold Urls.match_pattern, show_team, Urls.path.
  cbn [Urls.route Urls.view].
  set (ps := Urls.parse_route _ _). vm_compute in ps. subst ps.
  normalize_append.
  cbn -[Urls.converter].
  change (Urls.converter "int" (digits +:+ "/")) with (Urls.IntConverter (digits +:+ "/")).
  rewrite (IntConverter_digits digits "" n Hne Hd). reflexivity.
Qed.

Lemma match_show_event (digits slug : string) (n : Z) :
  digits <> EmptyString -> digits_value 0 digits = Some n ->
  slug <> EmptyString -> contains_char "/" slug = false ->
  Urls.match_pattern show_event ("events/" +:+ digits +:+ "/" +:+ slug +:+ "/")
  = Some ([("event_id"%string, PInt n); ("event_slug"%string, PStr slug)], EmptyString).
Proof.
  intros Hne Hd Hs Hc. unfold Urls.match_pattern, show_event, Urls.path.
  cbn [Urls.route Urls.view].
  set (ps := Urls.parse_route _ _). vm_compute in ps. subst ps.
  normalize_append.
  cbn -[Urls.converter].
  change (Urls.converter "int" ?s) with (Urls.IntConverter s).
  rewrite (IntConverter_digits digits _ n Hne Hd).
  cbn -[Urls.converter].
  change (Urls.converter "str" ?s) with (Urls.StringConverter s).
  rewrite (StringConverter_segment slug "" Hs Hc). reflexivity.
Qed.

Lemma resolve_show_team (digits : string) (n : Z) :
  digits <> EmptyString -> digits_value 0 digits = Some n ->
  Urls.resolve ("team/" +:+ digits +:+ "/")
  = Some {| Urls.matched := show_team;
            Urls.kwargs := [("team_id"%string, PInt n)];
            Urls.remainder := "" |}.
Proof.
  intros Hne Hd. unfold Urls.resolve, Urls.urlpatterns.
  pose proof (match_show_team digits n Hne Hd) as Hm. revert Hm.
  normalize_append. intros Hm.
  cbn. unfold show_team in Hm. rewrite Hm. reflexivity.
Qed.

Lemma resolve_show_event (digits slug : string) (n : Z) :
  digits <> EmptyString -> digits_value 0 digits = Some n ->
  slug <> EmptyString -> contains_char "/" slug = false ->
  Urls.resolve ("events/" +:+ digits +:+ "/" +:+ slug +:+ "/")
  = Some {| Urls.matched := show_event;
            Urls.kwargs := [("event_id"%string, PInt n); ("event_slug"%string, PStr slug)];
            Urls.remainder := "" |}.
Proof.
  intros Hne Hd Hs Hc. unfold Urls.resolve, Urls.urlpatterns.
  pose proof (match_show_event digits slug n Hne Hd Hs Hc) as Hm. revert Hm.
  normalize_append. intros Hm.
  cbn. rewrite (eqb_append_nonempty digits _ Hne).
  unfold show_event in Hm. rewrite Hm. reflexivity.
Qed.

Lemma match_create_event (digits : string) (n : Z) :
  digits <> EmptyString -> digits_value 0 digits = Some n ->
  Urls.match_pattern create_event ("team/" +:+ digits +:+ "/create-event/")
  = Some ([("team_id"%string, PInt n)], EmptyString).
Proof.
  intros Hne Hd. unfold Urls.match_pattern, create_event, Urls.path.
  cbn [Urls.route Urls.view].
  set (ps := Urls.parse_route _ _). vm_compute in ps. subst ps.
  normalize_append.
  cbn -[Urls.converter].
  change (Urls.converter "int" ?s) with (Urls.IntConverter s).
  rewrite (IntConverter_digits digits _ n Hne Hd). reflexivity.
Qed.

Lemma resolve_create_event (digits : string) (n : Z) :
  digits <> EmptyString -> digits_value 0 digits = Some n ->
  Urls.resolve ("team/" +:+ digits +:+ "/create-event/")
  = Some {| Urls.matched := create_event;
            Urls.kwargs := [("team_id"%string, PInt n)];
            Urls.remainder := "" |}.
Proof.
  intros Hne Hd. unfold Urls.resolve, Urls.urlpatterns.
  pose proof (match_create_event digits n Hne Hd) as Hm.
  assert (Hteam : Urls.match_pattern show_team ("team/" +:+ digits +:+ "/create-event/")
                  = None).
  { unfold Urls.match_pattern, show_team, Urls.path. cbn [Urls.route Urls.view].
    set (ps := Urls.parse_route _ _). vm_compute in ps. subst ps.
    normalize_append. cbn -[Urls.converter].
    change (Urls.converter "int" ?s) with (Urls.IntConverter s).
    now rewrite (IntConverter_digits digits _ n Hne Hd). }
  revert Hm Hteam. normalize_append. intros Hm Hteam.
  cbn. unfold show_team in Hteam. rewrite Hteam.
  unfold create_event in Hm. rewrite Hm. reflexivity.
Qed.

Lemma resolve_oauth (rest : string) :
  Urls.resolve ("oauth/" +:+ rest)
  = Some {| Urls.matched := oauth; Urls.kwargs := []; Urls.remainder := rest |}.
Proof. unfold Urls.resolve, Urls.urlpatterns. normalize_append. reflexivity. Qed.

Lemma resolve_admin (rest : string) :
  Urls.resolve ("admin/" +:+ rest)
  = Some {| Urls.matched := Urls.path "admin/" Urls.AdminSiteUrls None;
            Urls.kwargs := []; Urls.remainder := rest |}.
Proof. unfold Urls.resolve, Urls.urlpatterns. normalize_append. reflexivity. Qed.

(** C5. The URL configuration lists sixteen routes, and each leads
    to the view the source gives it, under the name the source gives
    it: the request path of each route without converters is
    dispatched to that route's view; every path [team/N/] with a
    decimal number [N] is dispatched to [views.show_team], registered
    under the name [show-team], with [team_id=N]; every path
    [team/N/create-event/] to [views.create_event], registered under
    [create-event]; every path [events/N/slug/] to [views.show_event],
    registered under [show-event], with [event_id=N] and
    [event_slug=slug]; every path under [admin/] is handed to the
    admin site; and every path under [oauth/] is handed to the URLconf
    [social_django.urls], included under the namespace [social]. *)
Theorem urlpatterns_dispatch :
  length Urls.urlpatterns = 16%nat /\
  (dispatches "" "" (Urls.View "views" "home") (Some "home"%string) [] "" /\
   registered "home" "" (Urls.View "views" "home")) /\
  (forall rest, dispatches ("admin/" +:+ rest) "admin/" Urls.AdminSiteUrls None [] rest) /\
  dispatches "searchables/" "searchables/"
    (Urls.View "event_views" "searchable_list") None [] "" /\
  dispatches "api/places/" "api/places/"
    (Urls.View "event_views" "places_list") None [] "" /\
  dispatches "api/countries/" "api/countries/"
    (Urls.View "event_views" "country_list") None [] "" /\
  dispatches "api/spr/" "api/spr/" (Urls.View "event_views" "spr_list") None [] "" /\
  dispatches "api/cities/" "api/cities/" (Urls.View "event_views" "city_list") None [] "" /\
  (dispatches "events/" "events/" (Urls.View "views" "events_list")
     (Some "events"%string) [] "" /\
   registered "events" "events/" (Urls.View "views" "events_list")) /\
  (dispatches "create-team/" "create-team/" (Urls.View "views" "create_team")
     (Some "create-team"%string) [] "" /\
   registered "create-team" "create-team/" (Urls.View "views" "create_team")) /\
  (dispatches "teams/" "teams/" (Urls.View "views" "teams_list")
     (Some "teams"%string) [] "" /\
   registered "teams" "teams/" (Urls.View "views" "teams_list")) /\
  ((forall (digits : string) (n : Z),
      digits <> EmptyString -> digits_value 0 digits = Some n ->
      dispatches ("team/" +:+ digits +:+ "/") "team/<int:team_id>/"
        (Urls.View "views" "show_team") (Some "show-team"%string)
        [("team_id"%string, PInt n)] "") /\
   registered "show-team" "team/<int:team_id>/" (Urls.View "views" "show_team")) /\
  ((forall (digits : string) (n : Z),
      digits <> EmptyString -> digits_value 0 digits = Some n ->
      dispatches ("team/" +:+ digits +:+ "/create-event/")
        "team/<int:team_id>/create-event/"
        (Urls.View "views" "create_event") (Some "create-event"%string)
        [("team_id"%string, PInt n)] "") /\
   registered "create-event" "team/<int:team_id>/create-event/"
     (Urls.View "views" "create_event")) /\
  ((forall (digits slug : string) (n : Z),
      digits <> EmptyString -> digits_value 0 digits = Some n ->
      slug <> EmptyString -> contains_char "/" slug = false ->
      dispatches ("events/" +:+ digits +:+ "/" +:+ slug +:+ "/")
        "events/<int:event_id>/<str:event_slug>/"
        (Urls.View "views" "show_event") (Some "show-event"%string)
        [("event_id"%string, PInt n); ("event_slug"%string, PStr slug)] "") /\
   registered "show-event" "events/<int:event_id>/<str:event_slug>/"
     (Urls.View "views" "show_event")) /\
  (dispatches "places/" "places/" (Urls.View "views" "places_list")
     (Some "places"%string) [] "" /\
   registered "places" "places/" (Urls.View "views" "places_list")) /\
  (dispatches "create-place/" "create-place/" (Urls.View "views" "create_place")
     (Some "create-place"%string) [] "" /\
   registered "create-place" "create-place/" (Urls.View "views" "create_place")) /\
  (forall rest : string,
     dispatches ("oauth/" +:+ rest) "oauth/"
       (Urls.Include "social_django.urls" (Some "social"%string)) None [] rest).
Proof.
  unfold dispatches, registered.
  repeat match goal with |- _ /\ _ => split end;
    try exact resolve_admin; try exact resolve_oauth; try reflexivity.
  - exact resolve_show_team.
  - exact resolve_create_event.
  - exact resolve_show_event.
Qed.

Lemma urlpatterns_dispatch_witness :
  dispatches "team/42/" "team/<int:team_id>/"
    (Urls.View "views" "show_team") (Some "show-team"%string)
    [("team_id"%string, PInt 42)] "" /\
  dispatches "team/42/create-event/" "team/<int:team_id>/create-event/"
    (Urls.View "views" "create_event") (Some "create-event"%string)
    [("team_id"%string, PInt 42)] "" /\
  dispatches "events/7/spring-picnic/" "events/<int:event_id>/<str:event_slug>/"
    (Urls.View "views" "show_event") (Some "show-event"%string)
    [("event_id"%string, PInt 7); ("event_slug"%string, PStr "spring-picnic")] "".
Proof.
  destruct urlpatterns_dispatch
    as (_ & _ & _ & _ & _ & _ & _ & _ & _ & _ & _ & [Ht _] & [Hc _] & [He _] & _).
  split; [|split].
  - apply (Ht "42"%string 42); [discriminate | reflexivity].
  - apply (Hc "42"%string 42); [discriminate | reflexivity].
  - apply (He "7"%string "spring-picnic"%string 7);
      [discriminate | reflexivity | discriminate | reflexivity].
Defined.

(** ** The team display tests *)

Section TeamDisplayTestsProperties.
Import TeamDisplayTests.

Variable get_absolute_url : Team -> string.
Variable client_get : string -> Z.

(** C6 on the code under [get_together/]: no entry of [urlpatterns]
    carries the name [show-team-about-by-slug], so [reverse] raises
    [NoReverseMatch] and both tests of the about page end there,
    whatever the team and whatever the views answer. *)
Theorem about_page_route_not_registered (team : Team) :
  named "show-team-about-by-slug" = None /\
  test_show_about_team client_get team
    = Raise (NoReverseMatch "show-team-about-by-slug") /\
  test_show_about_team_redirects_if_none client_get team
    = Raise (NoReverseMatch "show-team-about-by-slug").
Proof. repeat split; reflexivity. Qed.

End TeamDisplayTestsProperties.

(** * Further properties *)

(** ** What [strptime] can return *)

Lemma digit_value_range (c : ascii) : isdigit c = true -> 0 <= digit_value c <= 9.
Proof.
  unfold isdigit, digit_value. intros H.
  apply andb_true_iff in H as [H1 H2]. lia.
Qed.

Lemma parse_I_range (s rest : string) (h : Z) :
  parse_I s = Some (h, rest) -> 1 <= h <= 12.
Proof.
  unfold parse_I, digit_value. intros H.
  destruct s as [|c1 [|c2 s]]; [discriminate| |];
    repeat match type of H with
           | (if ?b then _ else _) = _ => destruct b eqn:?; [injection H as <- _|]
           end; try discriminate; lia.
Qed.

Lemma parse_M_range (s rest : string) (m : Z) :
  parse_M s = Some (m, rest) -> 0 <= m <= 59.
Proof.
  unfold parse_M, isdigit, digit_value. intros H.
  destruct s as [|c1 [|c2 s]]; [discriminate| |];
    repeat match type of H with
           | (if ?b then _ else _) = _ => destruct b eqn:?; [injection H as <- _|]
           end; try discriminate; lia.
Qed.

Lemma strptime_I_M_p_range (s : string) (t : struct_time) :
  strptime_I_M_p s = Ok t ->
  exists h m, t = at_time h m 0 /\ 0 <= h < 24 /\ 0 <= m < 60.
Proof.
  unfold strptime_I_M_p. intros H.
  destruct (parse_I s) as [[h s1]|] eqn:HI; [|discriminate].
  destruct (parse_char ":" s1) as [s2|]; [|discriminate].
  destruct (parse_M s2) as [[m s3]|] eqn:HM; [|discriminate].
  destruct (parse_spaces s3) as [s4|]; [|discriminate].
  destruct (parse_p_end s4) as [pm|]; [|discriminate].
  injection H as <-.
  apply parse_I_range in HI. apply parse_M_range in HM.
  eexists _, m. split; [reflexivity|].
  destruct pm; destruct (Z.eqb_spec h 12); lia.
Qed.

Lemma append_empty_r (s : string) : s +:+ "" = s.
Proof.
  induction s as [|c s IH]; [reflexivity|].
  change (String c s +:+ "") with (String c (s +:+ "")). now rewrite IH.
Qed.

(** ** Two-digit fields *)

(** ["%02d" % n] for a minute, a second or an hour of the day is two
    decimal digits, the first at most 5. *)
Lemma fmt_02d_digits (n : Z) :
  0 <= n < 60 ->
  exists c1 c2, fmt_02d n = String c1 (String c2 EmptyString) /\
                48 <= code c1 <= 53 /\ 48 <= code c2 <= 57 /\
                10 * digit_value c1 + digit_value c2 = n.
Proof.
  intros Hn.
  assert (H : forallb (fun n =>
    match fmt_02d n with
    | String c1 (String c2 EmptyString) =>
        (48 <=? code c1) && (code c1 <=? 53) && (48 <=? code c2) && (code c2 <=? 57)
        && (10 * digit_value c1 + digit_value c2 =? n)
    | _ => false
    end) (range 0 60 1) = true) by (vm_compute; reflexivity).
  pose proof (range_forallb _ 60 H n Hn) as H1. cbv beta in H1.
  destruct (fmt_02d n) as [|c1 [|c2 [|? ?]]]; try discriminate.
  exists c1, c2. split; [reflexivity|].
  repeat (apply andb_true_iff in H1; destruct H1 as [H1 ?]). lia.
Qed.

Lemma parse_M_fmt_02d (n : Z) (rest : string) :
  0 <= n < 60 -> parse_M (fmt_02d n +:+ rest) = Some (n, rest).
Proof.
  intros Hn. destruct (fmt_02d_digits n Hn) as (c1 & c2 & -> & H1 & H2 & Hv).
  change (String c1 (String c2 "") +:+ rest) with (String c1 (String c2 rest)).
  unfold parse_M, isdigit.
  replace (48 <=? code c1) with true by lia.
  replace (code c1 <=? 53) with true by lia.
  replace (48 <=? code c2) with true by lia.
  replace (code c2 <=? 57) with true by lia.
  cbn [andb]. now rewrite Hv.
Qed.

Lemma parse_H_fmt_02d (n : Z) (rest : string) :
  0 <= n < 24 -> parse_H (fmt_02d n +:+ rest) = Some (n, rest).
Proof.
  intros Hn. destruct (fmt_02d_digits n ltac:(lia)) as (c1 & c2 & -> & H1 & H2 & Hv).
  change (String c1 (String c2 "") +:+ rest) with (String c1 (String c2 rest)).
  unfold parse_H, isdigit, digit_value in *.
  destruct (Z.eqb_spec (code c1) 50) as [E|E].
  - replace (48 <=? code c2) with true by lia.
    replace (code c2 <=? 51) with true by lia.
    cbn [andb]. do 2 f_equal. lia.
  - cbn [andb].
    replace (48 <=? code c1) with true by lia.
    replace (code c1 <=? 49) with true by lia.
    replace (48 <=? code c2) with true by lia.
    replace (code c2 <=? 57) with true by lia.
    cbn [andb]. do 2 f_equal. lia.
Qed.

Lemma strptime_strftime_H_M_S (h m s : Z) :
  0 <= h < 24 -> 0 <= m < 60 -> 0 <= s < 60 ->
  strptime_H_M_S (strftime_H_M_S (at_time h m s)) = Ok (at_time h m s).
Proof.
  intros Hh Hm Hs. unfold strptime_H_M_S, strftime_H_M_S.
  cbn [tm_hour tm_min tm_sec at_time].
  rewrite (parse_H_fmt_02d h _ Hh).
  change (parse_char ":" (":" +:+ ?x)) with (Some x). cbv iota.
  rewrite (parse_M_fmt_02d m _ Hm).
  change (parse_char ":" (":" +:+ ?x)) with (Some x). cbv iota.
  replace (fmt_02d s) with (fmt_02d s +:+ "") by apply append_empty_r.
  now rewrite (parse_M_fmt_02d s _ Hs).
Qed.

Lemma colon_not_digit (c : ascii) : 48 <= code c <= 57 -> Ascii.eqb ":" c = false.
Proof.
  intros H. destruct (Ascii.eqb_spec ":" c) as [<-|]; [|reflexivity].
  vm_compute in H. destruct H as [_ H]. now contradiction H.
Qed.

(** A text in the 24-hour format is no text in the 12-hour format. *)
Lemma strptime_I_M_p_of_24h (h m s : Z) :
  0 <= h < 24 -> 0 <= m < 60 -> 0 <= s < 60 ->
  strptime_I_M_p (strftime_H_M_S (at_time h m s))
  = Raise (ValueError "time data does not match format").
Proof.
  intros Hh Hm Hs. unfold strftime_H_M_S. cbn [tm_hour tm_min tm_sec at_time].
  destruct (fmt_02d_digits h ltac:(lia)) as (c1 & c2 & -> & H1 & H2 & Hv).
  change (String c1 (String c2 "") +:+ ":" +:+ ?x) with (String c1 (String c2 (String ":" x))).
  unfold strptime_I_M_p, parse_I.
  assert (Hafter : forall hh : Z,
    match parse_char ":" (String ":" (fmt_02d m +:+ ":" +:+ fmt_02d s)) with
    | Some s2 =>
        match parse_M s2 with
        | Some (mm, s3) =>
            match parse_spaces s3 with
            | Some s4 =>
                match parse_p_end s4 with
                | Some pm =>
                    Ok (at_time (if pm then if hh =? 12 then 12 else hh + 12
                                 else if hh =? 12 then 0 else hh) mm 0)
                | None => Raise (ValueError "time data does not match format")
                end
            | None => Raise (ValueError "time data does not match format")
            end
        | None => Raise (ValueError "time data does not match format")
        end
    | None => Raise (ValueError "time data does not match format")
    end = Raise (ValueError "time data does not match format")).
  { intros hh. cbn [parse_char]. change (Ascii.eqb ":" ":") with true. cbv iota.
    rewrite (parse_M_fmt_02d m _ Hm). reflexivity. }
  destruct ((code c1 =? 49) && (48 <=? code c2) && (code c2 <=? 50)); [apply Hafter|].
  destruct ((code c1 =? 48) && (49 <=? code c2) && (code c2 <=? 57)); [apply Hafter|].
  destruct ((49 <=? code c1) && (code c1 <=? 57)); [|reflexivity].
  cbn [parse_char]. now rewrite (colon_not_digit c2 H2).
Qed.

Lemma decompress_24h_text (h m s : Z) :
  0 <= h < 24 -> 0 <= m < 60 -> 0 <= s < 60 ->
  TimeWidget.decompress (TimeWidget.VStr (strftime_H_M_S (at_time h m s)))
  = Ok (PInt (hour_after_noon h), PInt m, PStr (fmt_p h)).
Proof.
  intros Hh Hm Hs. unfold TimeWidget.decompress.
  rewrite (strptime_I_M_p_of_24h h m s Hh Hm Hs).
  rewrite (strptime_strftime_H_M_S h m s Hh Hm Hs).
  cbn [bind tm_hour tm_min at_time]. unfold hour_after_noon, fmt_p.
  now destruct (h <? 12).
Qed.

(** ** [SimpleTimeWidget.value_from_datadict] on any posted text *)

Lemma SimpleTimeWidget_value_ok
    (data : querydict) (name value : string) :
  SimpleTimeWidget.value_from_datadict data name = Ok value ->
  exists (text : string) (h m : Z),
    data !! name = Some text /\ 0 <= h < 24 /\ 0 <= m < 60 /\
    value = strftime_H_M_S (at_time h m 0) /\
    strptime_H_M_S value = Ok (at_time h m 0).
Proof.
  unfold SimpleTimeWidget.value_from_datadict, data_get. intros H.
  destruct (data !! name) as [text|]; [|discriminate].
  cbn [SimpleTimeWidget.strptime_value] in H.
  destruct (strptime_I_M_p text) as [t|] eqn:Ht; [|discriminate].
  injection H as <-.
  destruct (strptime_I_M_p_range _ _ Ht) as (h & m & -> & Hh & Hm).
  exists text, h, m. repeat split; try lia.
  apply strptime_strftime_H_M_S; lia.
Qed.

(** X1. Whenever [SimpleTimeWidget.value_from_datadict] returns, the
    key was posted and the value is a time of day [HH:MM:00] on the
    24-hour clock, which [strptime] reads back under [%H:%M:%S]. *)
Theorem SimpleTimeWidget_value_is_time_of_day
    (data : querydict) (name value : string) :
  SimpleTimeWidget.value_from_datadict data name = Ok value ->
  exists (text : string) (h m : Z),
    data !! name = Some text /\ 0 <= h < 24 /\ 0 <= m < 60 /\
    value = strftime_H_M_S (at_time h m 0) /\
    strptime_H_M_S value = Ok (at_time h m 0).
Proof. exact (SimpleTimeWidget_value_ok data name value). Qed.

Lemma SimpleTimeWidget_value_is_time_of_day_witness :
  exists (text : string) (h m : Z),
    ({["t" := "7:05 pm"]} : querydict) !! "t" = Some text /\
    0 <= h < 24 /\ 0 <= m < 60 /\
    "19:05:00"%string = strftime_H_M_S (at_time h m 0) /\
    strptime_H_M_S "19:05:00" = Ok (at_time h m 0).
Proof.
  apply (SimpleTimeWidget_value_is_time_of_day {["t" := "7:05 pm"]} "t" "19:05:00").
  reflexivity.
Defined.

(** X2. [SimpleTimeWidget.value_from_datadict] does not need the
    posted text to be one of its 48 choices: for every hour and minute
    of the day it turns the 12-hour text into the 24-hour one, also
    when the hour has no leading zero and the meridian is in lower
    case.  A missing key raises [TypeError]; the 24-hour text itself
    raises [ValueError]. *)
Theorem SimpleTimeWidget_value_any_minute (data : querydict) (name : string) (h m : Z) :
  0 <= h < 24 -> 0 <= m < 60 ->
  (data !! name = Some (strftime_I_M_p (at_time h m 0)) ->
   SimpleTimeWidget.value_from_datadict data name = Ok (strftime_H_M_S (at_time h m 0))) /\
  (data !! name
     = Some (str_int (if h mod 12 =? 0 then 12 else h mod 12) +:+ ":" +:+ fmt_02d m
             +:+ " " +:+ lower_str (fmt_p h)) ->
   SimpleTimeWidget.value_from_datadict data name = Ok (strftime_H_M_S (at_time h m 0))) /\
  (data !! name = Some (strftime_H_M_S (at_time h m 0)) ->
   SimpleTimeWidget.value_from_datadict data name
     = Raise (ValueError "time data does not match format")) /\
  (data !! name = None ->
   SimpleTimeWidget.value_from_datadict data name
     = Raise (TypeError "strptime() argument 0 must be str")).
Proof.
  intros Hh Hm. unfold SimpleTimeWidget.value_from_datadict, data_get.
  split; [|split; [|split]]; intros ->; cbn [SimpleTimeWidget.strptime_value].
  - unfold strftime_I_M_p. cbn [tm_hour tm_min at_time].
    now rewrite strptime_strftime_I_M_p.
  - assert (H : forallb (fun h => forallb (fun m => bool_decide
      (strptime_I_M_p (str_int (if h mod 12 =? 0 then 12 else h mod 12) +:+ ":"
                       +:+ fmt_02d m +:+ " " +:+ lower_str (fmt_p h))
       = Ok (at_time h m 0))) (range 0 60 1)) (range 0 24 1) = true)
      by (vm_compute; reflexivity).
    pose proof (clock_forallb _ H h m Hh Hm) as H1. cbv beta in H1.
    apply bool_decide_eq_true in H1. now rewrite H1.
  - rewrite strptime_I_M_p_of_24h by lia. reflexivity.
  - reflexivity.
Qed.

Lemma SimpleTimeWidget_value_any_minute_witness :
  SimpleTimeWidget.value_from_datadict {["t" := "07:05 PM"]} "t" = Ok "19:05:00"%string.
Proof.
  refine (proj1 (SimpleTimeWidget_value_any_minute {["t" := "07:05 PM"]} "t" 19 5 _ _) _).
  - lia.
  - lia.
  - reflexivity.
Defined.

(** ** [TimeWidget] beyond the quarter hours *)

(** What the three select boxes post reaches [strptime] as one text. *)
Lemma TimeWidget_value_posted (name : string) (a b : Z) (p : string) :
  TimeWidget.value_from_datadict (TimeWidget.posted name (PInt a, PInt b, PStr p)) name
  = bind (int_of_string (str_int a)) (fun h =>
    bind (int_of_string (str_int b)) (fun m =>
    bind (strptime_I_M_p (fmt_02d h +:+ ":" +:+ fmt_02d m +:+ " " +:+ p)) (fun t =>
    Ok (strftime_H_M_S t)))).
Proof.
  destruct (TimeWidget_posted_lookup name (PInt a) (PInt b) (PStr p)) as (L0 & L1 & L2).
  unfold TimeWidget.value_from_datadict.
  rewrite (data_get_lookup _ _ _ L0), (data_get_lookup _ _ _ L1),
          (data_get_lookup _ _ _ L2).
  reflexivity.
Qed.

Lemma int_of_str_int_small (n : Z) : 0 <= n < 60 -> int_of_string (str_int n) = Ok n.
Proof.
  intros Hn.
  assert (H : forallb (fun n => bool_decide (int_of_string (str_int n) = Ok n))
                      (range 0 60 1) = true) by (vm_compute; reflexivity).
  pose proof (range_forallb _ 60 H n Hn) as H1. cbv beta in H1.
  now apply bool_decide_eq_true in H1.
Qed.

(** The text [strptime] gets when the hour box shows [hour_after_noon h]. *)
Lemma strptime_hour_after_noon (h m : Z) :
  0 <= h < 24 -> 0 <= m < 60 ->
  strptime_I_M_p (fmt_02d (hour_after_noon h) +:+ ":" +:+ fmt_02d m +:+ " " +:+ fmt_p h)
  = if hour_after_noon h =? 0
    then Raise (ValueError "time data does not match format")
    else Ok (at_time h m 0).
Proof.
  intros Hh Hm.
  assert (H : forallb (fun h => forallb (fun m => bool_decide
    (strptime_I_M_p (fmt_02d (hour_after_noon h) +:+ ":" +:+ fmt_02d m +:+ " " +:+ fmt_p h)
     = if hour_after_noon h =? 0
       then Raise (ValueError "time data does not match format")
       else Ok (at_time h m 0))) (range 0 60 1)) (range 0 24 1) = true)
    by (vm_compute; reflexivity).
  pose proof (clock_forallb _ H h m Hh Hm) as H1. cbv beta in H1.
  now apply bool_decide_eq_true in H1.
Qed.

(** X3. The string branch of [TimeWidget.decompress] reads a text in
    either format and returns the hour reduced by 12 from noon on, the
    minute and the meridian; so the hour is 0, not 12, for the hours
    after midnight and after noon.  [value_from_datadict] refuses that
    0 with [ValueError]; for every other hour it returns the time to
    the minute. *)
Theorem TimeWidget_decompress_text (name : string) (h m s : Z) :
  0 <= h < 24 -> 0 <= m < 60 -> 0 <= s < 60 ->
  let parts := (PInt (hour_after_noon h), PInt m, PStr (fmt_p h)) in
  TimeWidget.decompress (TimeWidget.VStr (strftime_H_M_S (at_time h m s))) = Ok parts /\
  TimeWidget.decompress (TimeWidget.VStr (strftime_I_M_p (at_time h m s))) = Ok parts /\
  (h = 0 \/ h = 12 ->
   TimeWidget.value_from_datadict (TimeWidget.posted name parts) name
   = Raise (ValueError "time data does not match format")) /\
  (h <> 0 -> h <> 12 ->
   TimeWidget.value_from_datadict (TimeWidget.posted name parts) name
   = Ok (strftime_H_M_S (at_time h m 0))).
Proof.
  intros Hh Hm Hs parts. subst parts. split; [|split; [|split]].
  - now apply decompress_24h_text.
  - unfold TimeWidget.decompress, strftime_I_M_p. cbn [tm_hour tm_min at_time].
    rewrite strptime_strftime_I_M_p by lia.
    cbn [bind tm_hour tm_min at_time]. unfold hour_after_noon, fmt_p.
    now destruct (h <? 12).
  - intros H0. rewrite TimeWidget_value_posted.
    rewrite !int_of_str_int_small by (unfold hour_after_noon; destruct (Z.ltb_spec h 12); lia).
    cbn [bind]. rewrite strptime_hour_after_noon by lia.
    replace (hour_after_noon h =? 0) with true; [reflexivity|].
    unfold hour_after_noon. destruct (Z.ltb_spec h 12); lia.
  - intros H0 H12. rewrite TimeWidget_value_posted.
    rewrite !int_of_str_int_small by (unfold hour_after_noon; destruct (Z.ltb_spec h 12); lia).
    cbn [bind]. rewrite strptime_hour_after_noon by lia.
    replace (hour_after_noon h =? 0) with false; [reflexivity|].
    unfold hour_after_noon. destruct (Z.ltb_spec h 12); lia.
Qed.

Lemma TimeWidget_decompress_text_witness :
  TimeWidget.decompress (TimeWidget.VStr "12:15:00")
    = Ok (PInt 0, PInt 15, PStr "PM") /\
  TimeWidget.value_from_datadict
    (TimeWidget.posted "start_time" (PInt 0, PInt 15, PStr "PM")) "start_time"
    = Raise (ValueError "time data does not match format").
Proof.
  destruct (TimeWidget_decompress_text "start_time" 12 15 0) as (H1 & _ & H2 & _);
    [lia | lia | lia |].
  split; [exact H1 | apply H2; right; reflexivity].
Defined.

(** X4. For every time of day, whatever its minute and second, the
    time branch of [TimeWidget.decompress] gives an hour from 1 to 12,
    the minute and "AM" or "PM", and [value_from_datadict] on what is
    posted back returns the time to the minute: the hour and minute
    are kept, the seconds and microseconds always come back as 00. *)
Theorem TimeWidget_roundtrip_to_the_minute (t : time) (name : string) :
  time_wf t ->
  exists (h12 : Z) (p : string),
    TimeWidget.decompress (TimeWidget.VTime t)
      = Ok (PInt h12, PInt (time_minute t), PStr p) /\
    1 <= h12 <= 12 /\ (p = "AM" \/ p = "PM")%string /\
    TimeWidget.value_from_datadict
      (TimeWidget.posted name (PInt h12, PInt (time_minute t), PStr p)) name
    = Ok (strftime_H_M_S (at_time (time_hour t) (time_minute t) 0)).
Proof.
  intros (Hh & Hm & _ & _).
  destruct (TimeWidget_parts (time_hour t) (time_minute t) Hh Hm)
    as (HI & HM & HsI & HsM & Hp & Hin).
  set (h12 := if time_hour t mod 12 =? 0 then 12 else time_hour t mod 12) in *.
  exists h12, (fmt_p (time_hour t)). split; [|split; [|split]].
  - unfold TimeWidget.decompress. rewrite HI. cbn [bind]. now rewrite HM.
  - subst h12. pose proof (Z.mod_pos_bound (time_hour t) 12 ltac:(lia)).
    destruct (Z.eqb_spec (time_hour t mod 12) 0); lia.
  - unfold fmt_p. destruct (time_hour t <? 12); auto.
  - rewrite TimeWidget_value_posted, HsI, HsM. cbn [bind]. now rewrite Hp.
Qed.

Lemma TimeWidget_roundtrip_to_the_minute_witness :
  exists (h12 : Z) (p : string),
    TimeWidget.decompress (TimeWidget.VTime seven_past_eleven_pm)
      = Ok (PInt h12, PInt 7, PStr p) /\
    1 <= h12 <= 12 /\ (p = "AM" \/ p = "PM")%string /\
    TimeWidget.value_from_datadict
      (TimeWidget.posted "start_time" (PInt h12, PInt 7, PStr p)) "start_time"
    = Ok "23:07:00"%string.
Proof.
  apply (TimeWidget_roundtrip_to_the_minute seven_past_eleven_pm "start_time").
  unfold time_wf. simpl. lia.
Defined.

(** X5. Whenever [TimeWidget.value_from_datadict] returns, the hour
    and the minute were posted and the value is a time of day
    [HH:MM:00] on the 24-hour clock. *)
Theorem TimeWidget_value_is_time_of_day (data : querydict) (name value : string) :
  TimeWidget.value_from_datadict data name = Ok value ->
  (exists a b, data !! subwidget_name name 0 = Some a /\
               data !! subwidget_name name 1 = Some b) /\
  exists h m, 0 <= h < 24 /\ 0 <= m < 60 /\ value = strftime_H_M_S (at_time h m 0).
Proof.
  unfold TimeWidget.value_from_datadict, data_get. intros H.
  destruct (data !! subwidget_name name 0) as [a|]; [|discriminate].
  destruct (data !! subwidget_name name 1) as [b|];
    [|cbn [int] in H; destruct (int_of_string a); discriminate].
  split; [eauto|]. cbn [int] in H.
  destruct (int_of_string a) as [h0|]; [|discriminate].
  destruct (int_of_string b) as [m0|]; [|discriminate].
  cbn [bind] in H.
  destruct (strptime_I_M_p _) as [t|] eqn:Ht; [|discriminate].
  injection H as <-.
  destruct (strptime_I_M_p_range _ _ Ht) as (h & m & -> & Hh & Hm).
  exists h, m. auto.
Qed.

Lemma TimeWidget_value_is_time_of_day_witness :
  (exists a b,
     TimeWidget.posted "t" (PInt 9, PInt 45, PStr "PM") !! subwidget_name "t" 0 = Some a /\
     TimeWidget.posted "t" (PInt 9, PInt 45, PStr "PM") !! subwidget_name "t" 1 = Some b) /\
  exists h m, 0 <= h < 24 /\ 0 <= m < 60 /\
              "21:45:00"%string = strftime_H_M_S (at_time h m 0).
Proof.
  apply (TimeWidget_value_is_time_of_day
           (TimeWidget.posted "t" (PInt 9, PInt 45, PStr "PM")) "t" "21:45:00").
  reflexivity.
Defined.

(** X6. The three select boxes of [TimeWidget] have 12 x 4 x 2 = 96
    settings; [value_from_datadict] turns each into the time of day
    it stands for (12 AM being 00 and 12 PM being 12), and no two
    settings give the same time. *)
Theorem TimeWidget_settings_are_distinct_times (name : string) :
  length select_settings = 96%nat /\
  map (fun c => TimeWidget.value_from_datadict (TimeWidget.posted name c) name)
      select_settings
  = map setting_time select_settings /\
  NoDup (map (fun c => TimeWidget.value_from_datadict (TimeWidget.posted name c) name)
             select_settings).
Proof.
  assert (Hmap :
    map (fun c => TimeWidget.value_from_datadict (TimeWidget.posted name c) name)
        select_settings
    = map setting_time select_settings).
  { assert (Hall : Forall (fun c =>
        match c with
        | (PInt a, PInt b, PStr p) =>
            bind (int_of_string (str_int a)) (fun h =>
            bind (int_of_string (str_int b)) (fun m =>
            bind (strptime_I_M_p (fmt_02d h +:+ ":" +:+ fmt_02d m +:+ " " +:+ p)) (fun t =>
            Ok (strftime_H_M_S t)))) = setting_time c
        | _ => False
        end) select_settings).
    { apply Forall_forall. intros c Hc.
      assert (H : forallb (fun c =>
        match c with
        | (PInt a, PInt b, PStr p) =>
            bool_decide (bind (int_of_string (str_int a)) (fun h =>
            bind (int_of_string (str_int b)) (fun m =>
            bind (strptime_I_M_p (fmt_02d h +:+ ":" +:+ fmt_02d m +:+ " " +:+ p)) (fun t =>
            Ok (strftime_H_M_S t)))) = setting_time c)
        | _ => false
        end) select_settings = true) by (vm_compute; reflexivity).
      rewrite forallb_forall in H. specialize (H c (proj1 (list_elem_of_In _ _) Hc)).
      destruct c as [[[] []] []]; try discriminate.
      now apply bool_decide_eq_true in H. }
    induction Hall as [|c l Hc _ IH]; [reflexivity|].
    cbn [map]. rewrite IH. f_equal.
    destruct c as [[[] []] []]; try contradiction.
    now rewrite TimeWidget_value_posted. }
  split; [reflexivity|]. split; [exact Hmap|].
  rewrite Hmap.
  assert (H : bool_decide (NoDup (map setting_time select_settings)) = true)
    by (vm_compute; reflexivity).
  now apply bool_decide_eq_true in H.
Qed.

(** ** [DateTimeWidget] on posted data *)

Lemma append_not_empty (a b : string) (c : ascii) :
  String.eqb (a +:+ String c b) "" = false.
Proof. now destruct a. Qed.

Lemma DateTimeWidget_value_ok (data : querydict) (name value : string) :
  DateTimeWidget.value_from_datadict data name = Ok value ->
  exists (d t : string) (h m : Z),
    data !! subwidget_name name 0 = Some d /\
    data !! subwidget_name name 1 = Some t /\
    0 <= h < 24 /\ 0 <= m < 60 /\
    value = d +:+ " " +:+ strftime_H_M_S (at_time h m 0).
Proof.
  unfold DateTimeWidget.value_from_datadict. intros H.
  destruct (SimpleTimeWidget.value_from_datadict data (subwidget_name name 1))
    as [v1|] eqn:H1; [|discriminate].
  destruct (SimpleTimeWidget_value_ok _ _ _ H1)
    as (t & h & m & Ht & Hh & Hm & -> & _).
  cbn [bind] in H. unfold data_get in H.
  destruct (data !! subwidget_name name 0) as [d|]; [|discriminate].
  injection H as <-. exists d, t, h, m. auto.
Qed.

(** X7. Whenever [DateTimeWidget.value_from_datadict] returns, both
    parts were posted and the value is the posted date text, as it
    is, one space, and a time of day [HH:MM:00] on the 24-hour clock. *)
Theorem DateTimeWidget_value_shape (data : querydict) (name value : string) :
  DateTimeWidget.value_from_datadict data name = Ok value ->
  exists (d t : string) (h m : Z),
    data !! subwidget_name name 0 = Some d /\
    data !! subwidget_name name 1 = Some t /\
    0 <= h < 24 /\ 0 <= m < 60 /\
    value = d +:+ " " +:+ strftime_H_M_S (at_time h m 0).
Proof. exact (DateTimeWidget_value_ok data name value). Qed.

Lemma DateTimeWidget_value_shape_witness :
  exists (d t : string) (h m : Z),
    DateTimeWidget.posted "s" (PStr "next week", PStr "1:00 am") !! subwidget_name "s" 0
      = Some d /\
    DateTimeWidget.posted "s" (PStr "next week", PStr "1:00 am") !! subwidget_name "s" 1
      = Some t /\
    0 <= h < 24 /\ 0 <= m < 60 /\
    "next week 01:00:00"%string = d +:+ " " +:+ strftime_H_M_S (at_time h m 0).
Proof.
  apply (DateTimeWidget_value_shape
           (DateTimeWidget.posted "s" (PStr "next week", PStr "1:00 am")) "s"
           "next week 01:00:00").
  reflexivity.
Defined.

(** X8. [DateTimeWidget.decompress] cannot take back what
    [DateTimeWidget.value_from_datadict] returns: that value is a
    non-empty string, and [decompress] of a non-empty string raises
    [AttributeError]. *)
Theorem DateTimeWidget_decompress_of_value (data : querydict) (name value : string) :
  DateTimeWidget.value_from_datadict data name = Ok value ->
  DateTimeWidget.decompress (DateTimeWidget.VStr value)
  = Raise (AttributeError "'str' object has no attribute 'timetuple'").
Proof.
  intros H.
  destruct (DateTimeWidget_value_ok _ _ _ H) as (d & t & h & m & _ & _ & _ & _ & ->).
  unfold DateTimeWidget.decompress, DateTimeWidget.truthy.
  change (d +:+ " " +:+ ?x) with (d +:+ String " " x).
  now rewrite append_not_empty.
Qed.

Lemma DateTimeWidget_decompress_of_value_witness :
  DateTimeWidget.decompress (DateTimeWidget.VStr "2020-01-02 15:30:00")
  = Raise (AttributeError "'str' object has no attribute 'timetuple'").
Proof.
  apply (DateTimeWidget_decompress_of_value
           (DateTimeWidget.posted "start_time" (PStr "2020-01-02", PStr "03:30 PM"))
           "start_time" "2020-01-02 15:30:00").
  reflexivity.
Defined.

(** ** The constructors and the caller's [attrs] *)

Lemma DateWidget_init_spec (attrs : option html_attrs) :
  let given := default ∅ attrs in
  let w := fst (DateWidget_init attrs) in
  date_attrs w !! "class" = Some (default "date"%string (given !! "class")) /\
  date_attrs w !! "date_class" = None /\
  date_class w = default "datepicker"%string (given !! "date_class") /\
  (forall k : string, k <> "class"%string -> k <> "date_class"%string ->
                      k <> "type"%string -> date_attrs w !! k = given !! k) /\
  (no_attrs attrs = true -> snd (DateWidget_init attrs) = attrs) /\
  (no_attrs attrs = false ->
   exists a', snd (DateWidget_init attrs) = Some a' /\
              a' !! "date_class" = None /\
              a' !! "class" = Some (default "date"%string (given !! "class")) /\
              forall k : string, k <> "class"%string -> k <> "date_class"%string ->
                                 a' !! k = given !! k).
Proof.
  intros given w. subst given w. unfold DateWidget_init.
  destruct (no_attrs attrs) eqn:Hno.
  - assert (Hg : default ∅ attrs = (∅ : html_attrs)).
    { destruct attrs as [a|]; [|reflexivity]. cbn in Hno.
      now apply bool_decide_eq_true in Hno. }
    rewrite Hg. rewrite !lookup_empty. cbn [fst snd date_attrs date_class default].
    repeat split; try discriminate; intros; by simplify_map_eq.
  - destruct attrs as [a|]; [|discriminate].
    change (default ∅ (Some a)) with a.
    destruct (a !! "date_class") as [v|] eqn:Hd; cbv beta iota zeta.
    1: rewrite lookup_delete_ne by discriminate.
    all:
      destruct (a !! "class") as [c|] eqn:Hc;
      cbn [fst snd date_attrs date_class default];
      (split; [|split; [|split; [|split; [|split]]]]);
      try discriminate; try (intros; by simplify_map_eq);
      intros _; eexists; (split; [reflexivity|]);
      repeat split; intros; by simplify_map_eq.
Qed.

(** X9. [DateWidget(attrs)]: the widget's attributes always carry
    ["class"], the one given or else "date", and never ["date_class"];
    [date_class] is the one given or else "datepicker"; every other
    attribute but ["type"] is as given.  [None] and an empty dict are
    left as they are; any other dict of the caller is changed in
    place: it loses ["date_class"] and has ["class"] set. *)
Theorem DateWidget_init_attrs (attrs : option html_attrs) :
  let given := default ∅ attrs in
  let w := fst (DateWidget_init attrs) in
  date_attrs w !! "class" = Some (default "date"%string (given !! "class")) /\
  date_attrs w !! "date_class" = None /\
  date_class w = default "datepicker"%string (given !! "date_class") /\
  (forall k : string, k <> "class"%string -> k <> "date_class"%string ->
                      k <> "type"%string -> date_attrs w !! k = given !! k) /\
  (no_attrs attrs = true -> snd (DateWidget_init attrs) = attrs) /\
  (no_attrs attrs = false ->
   exists a', snd (DateWidget_init attrs) = Some a' /\
              a' !! "date_class" = None /\
              a' !! "class" = Some (default "date"%string (given !! "class")) /\
              forall k : string, k <> "class"%string -> k <> "date_class"%string ->
                                 a' !! k = given !! k).
Proof. exact (DateWidget_init_spec attrs). Qed.

Lemma DateWidget_init_attrs_witness :
  date_attrs (fst (DateWidget_init (Some {["id" := "when"; "date_class" := "cal"]})))
    !! "class" = Some "date"%string /\
  date_class (fst (DateWidget_init (Some {["id" := "when"; "date_class" := "cal"]})))
    = "cal"%string /\
  exists a', snd (DateWidget_init (Some {["id" := "when"; "date_class" := "cal"]})) = Some a' /\
             a' !! "date_class" = None /\ a' !! "class" = Some "date"%string.
Proof.
  destruct (DateWidget_init_attrs (Some {["id" := "when"; "date_class" := "cal"]}))
    as (H1 & _ & H3 & _ & _ & H6).
  split; [exact H1|]. split; [exact H3|].
  destruct (H6 eq_refl) as (a' & Ha & Hd & Hc & _).
  exists a'. auto.
Defined.

Lemma has_key_not_empty (a : html_attrs) (k v : string) :
  a !! k = Some v -> no_attrs (Some a) = false.
Proof.
  intros H. cbn. apply bool_decide_eq_false. intros ->.
  now rewrite lookup_empty in H.
Qed.

(** X10. [DateTimeWidget(attrs)] builds both parts from the same
    [attrs].  With [None] or an empty dict the date part gets the
    class "date" and the time part "time".  With any other dict the
    date part works on the caller's dict first, so the time part finds
    ["class"] already set and gets the class of the date part: the
    one given, or "date" when none was given.  The time part never
    carries ["date_class"] or ["time_class"]; the date part keeps
    ["time_class"] as given. *)
Theorem DateTimeWidget_init_shares_attrs (attrs : option html_attrs) :
  let given := default ∅ attrs in
  let date_part := fst (fst (DateTimeWidget_init attrs)) in
  let time_part := snd (fst (DateTimeWidget_init attrs)) in
  (no_attrs attrs = true ->
   date_attrs date_part !! "class" = Some "date"%string /\
   time_attrs time_part !! "class" = Some "time"%string) /\
  (no_attrs attrs = false ->
   date_attrs date_part !! "class" = Some (default "date"%string (given !! "class")) /\
   time_attrs time_part !! "class" = Some (default "date"%string (given !! "class"))) /\
  time_attrs time_part !! "date_class" = None /\
  time_attrs time_part !! "time_class" = None /\
  date_attrs date_part !! "time_class" = given !! "time_class".
Proof.
  intros given date_part time_part. subst given date_part time_part.
  unfold DateTimeWidget_init.
  pose proof (DateWidget_init_spec attrs) as (Hc & Hd & _ & Hk & Hnone & Hsome).
  cbv zeta in *.
  destruct (DateWidget_init attrs) as [dw attrs1]. cbn [fst snd] in *.
  destruct (no_attrs attrs) eqn:Hno.
  - rewrite (Hnone eq_refl).
    assert (Hg : default ∅ attrs = (∅ : html_attrs)).
    { destruct attrs as [a|]; [|reflexivity]. cbn in Hno.
      now apply bool_decide_eq_true in Hno. }
    rewrite Hg in *. rewrite lookup_empty in *.
    unfold SimpleTimeWidget_init. rewrite Hno, !lookup_empty. cbn.
    repeat split; try discriminate; try assumption; try by simplify_map_eq.
    now rewrite Hk by discriminate.
  - destruct (Hsome eq_refl) as (a' & -> & Hd' & Hc' & Hk').
    unfold SimpleTimeWidget_init.
    rewrite (has_key_not_empty a' _ _ Hc'). change (default ∅ (Some a')) with a'.
    destruct (a' !! "time_class") as [v|] eqn:Ht; cbv beta iota zeta.
    + rewrite lookup_delete_ne by discriminate. rewrite Hc'. cbn [fst snd time_attrs].
      repeat split; try discriminate; try assumption; try by simplify_map_eq.
      now rewrite Hk by discriminate.
    + rewrite Hc'. cbn [fst snd time_attrs].
      repeat split; try discriminate; try assumption.
      now rewrite Hk by discriminate.
Qed.

Lemma DateTimeWidget_init_shares_attrs_witness :
  date_attrs (fst (fst (DateTimeWidget_init (Some {["id" := "when"]})))) !! "class"
    = Some "date"%string /\
  time_attrs (snd (fst (DateTimeWidget_init (Some {["id" := "when"]})))) !! "class"
    = Some "date"%string.
Proof.
  destruct (DateTimeWidget_init_shares_attrs (Some {["id" := "when"]})) as (_ & H & _).
  exact (H eq_refl).
Defined.

(** ** [clean] under any settings *)

Section CleanProperties.
Import Tz EventForms.

Variable current : timezone.
Variable tzdb : string -> option timezone.

(** [relocalize] returns only for an aware datetime, and then a
    datetime labelled UTC. *)
Lemma relocalize_ok (event_tz : timezone) (v v' : cleaned) :
  relocalize current event_tz v = Ok v' ->
  exists (d : datetime) (i : tzinfo) (w : Z),
    v = CDatetime d /\ tz d = Some i /\ v' = CDatetime (aware w utc 0).
Proof.
  unfold relocalize, make_naive_value. intros H.
  destruct v as [d|]; [|discriminate].
  destruct (make_naive current d) as [n1|] eqn:H1; [|discriminate].
  destruct (make_naive_returns _ _ _ H1) as (i & w1 & Hi & ->).
  cbn [bind] in H.
  destruct (localize event_tz (naive w1)) as [a|]; [|discriminate].
  cbn [bind] in H.
  destruct (make_naive current a) as [n2|] eqn:H2; [|discriminate].
  destruct (make_naive_returns _ _ _ H2) as (_ & w2 & _ & ->).
  cbn [bind] in H. rewrite localize_utc in H. cbn [bind] in H.
  injection H as <-. eexists d, i, w2. auto.
Qed.

(** Four days inside the range, [relocalize] returns for every aware
    datetime. *)
Lemma relocalize_aware (event_tz : timezone) (d : datetime) (i : tzinfo) :
  tz d = Some i -> - day < utcoffset i < day ->
  offsets_below_a_day current -> offsets_below_a_day event_tz ->
  days_inside 4 (wall d) ->
  exists v', relocalize current event_tz (CDatetime d) = Ok v'.
Proof.
  intros Hi Hoff Hcur Hev Hw. destruct d as [w t]. cbn [tz wall] in *. subst t.
  pose proof (Hcur (w - utcoffset i)) as [Hc1 _].
  set (n1 := w - utcoffset i + offset_at_utc current (w - utcoffset i)) in *.
  pose proof (Hev n1) as [_ He1].
  pose proof (Hcur (n1 - offset_at_wall event_tz n1)) as [Hc2 _].
  unfold days_inside in Hw. unfold day, min_wall, max_wall in *.
  eexists. apply relocalize_aware_value; fold n1;
    unfold day, min_wall, max_wall; lia.
Qed.

(** Within a day of the edges [relocalize] raises for an event zone
    of changing offset. *)
Lemma relocalize_overflow (event_tz : timezone) (w : Z) :
  is_DstTzInfo event_tz = true ->
  offset_at_utc current (w - offset_at_wall current w) = offset_at_wall current w ->
  min_wall <= w <= max_wall -> ~ days_inside 1 w ->
  relocalize current event_tz (CDatetime (from_current_timezone current w))
  = Raise (OverflowError "date value out of range").
Proof.
  intros Hdst Hc Hr Hw. unfold relocalize, make_naive_value, make_naive.
  unfold from_current_timezone, aware. cbn [tz wall]. unfold astimezone.
  assert (Hl : localize event_tz (naive w)
               = Raise (OverflowError "date value out of range")).
  { apply localize_overflow; [exact Hdst|].
    unfold days_inside in Hw. now rewrite Z.mul_1_l in Hw. }
  destruct (is_tzinfo_of current w _).
  - cbn [bind wall]. now rewrite Hl.
  - cbn [utcoffset]. unfold add_seconds at 1.
    destruct (in_range (w + - offset_at_wall current w)); [|reflexivity].
    cbn [bind].
    replace (w + - offset_at_wall current w) with (w - offset_at_wall current w) by lia.
    rewrite Hc.
    replace (w - offset_at_wall current w + offset_at_wall current w) with w by lia.
    rewrite add_seconds_ok
      by (replace (w - offset_at_wall current w + offset_at_wall current w) with w by lia;
          exact Hr).
    cbn [bind aware wall].
    replace (w - offset_at_wall current w + offset_at_wall current w) with w by lia.
    now rewrite Hl.
Qed.

Lemma clean_submitted (f : event_form) (instance : Event)
    (event_tz : timezone) (super_clean : cleaned_data) (start_ end_ : Z) :
  tzdb (event_tz_name instance) = Some event_tz ->
  offsets_below_a_day current -> offsets_below_a_day event_tz ->
  days_inside 2 start_ -> days_inside 2 end_ ->
  offset_at_utc current (start_ - offset_at_wall current start_)
    = offset_at_wall current start_ ->
  offset_at_utc current (end_ - offset_at_wall current end_)
    = offset_at_wall current end_ ->
  super_clean !! "start_time" = Some (CDatetime (from_current_timezone current start_)) ->
  super_clean !! "end_time" = Some (CDatetime (from_current_timezone current end_)) ->
  let in_utc := fun w => w - offset_at_wall event_tz w in
  exists cleaned_data',
    clean current tzdb f instance super_clean = Ok cleaned_data' /\
    cleaned_data' !! "start_time"
      = Some (CDatetime (aware (in_utc start_ + offset_at_utc current (in_utc start_)) utc 0)) /\
    cleaned_data' !! "end_time"
      = Some (CDatetime (aware (in_utc end_ + offset_at_utc current (in_utc end_)) utc 0)).
Proof.
  intros Hz Hcur Hev Hds Hde Hcs Hce Hs He in_utc. subst in_utc.
  rewrite clean_same. unfold TeamEventForm_clean, pytz_timezone.
  rewrite Hz. cbn [bind]. unfold getitem at 1. rewrite Hs. cbn [bind].
  rewrite (relocalize_submitted current event_tz start_ Hcs Hcur Hev Hds). cbn [bind].
  unfold getitem. rewrite lookup_insert_ne by discriminate. rewrite He. cbn [bind].
  rewrite (relocalize_submitted current event_tz end_ Hce Hcur Hev Hde). cbn [bind].
  eexists. split; [reflexivity|]. split.
  - rewrite lookup_insert_ne by discriminate. now rewrite lookup_insert_eq.
  - now rewrite lookup_insert_eq.
Qed.

(** X11. Whatever Django's current time zone, for a submission whose
    two readings exist in that zone and lie at least two days inside
    the range of datetimes, and an event whose zone pytz knows,
    [clean] returns the two times labelled UTC, each reading being
    the UTC time of the reading in the event's zone plus the offset
    of the current zone at that instant. *)
Theorem clean_shifts_by_current_offset (f : event_form) (instance : Event)
    (event_tz : timezone) (super_clean : cleaned_data) (start_ end_ : Z) :
  tzdb (event_tz_name instance) = Some event_tz ->
  offsets_below_a_day current -> offsets_below_a_day event_tz ->
  days_inside 2 start_ -> days_inside 2 end_ ->
  offset_at_utc current (start_ - offset_at_wall current start_)
    = offset_at_wall current start_ ->
  offset_at_utc current (end_ - offset_at_wall current end_)
    = offset_at_wall current end_ ->
  super_clean !! "start_time" = Some (CDatetime (from_current_timezone current start_)) ->
  super_clean !! "end_time" = Some (CDatetime (from_current_timezone current end_)) ->
  let in_utc := fun w => w - offset_at_wall event_tz w in
  exists cleaned_data',
    clean current tzdb f instance super_clean = Ok cleaned_data' /\
    cleaned_data' !! "start_time"
      = Some (CDatetime (aware (in_utc start_ + offset_at_utc current (in_utc start_)) utc 0)) /\
    cleaned_data' !! "end_time"
      = Some (CDatetime (aware (in_utc end_ + offset_at_utc current (in_utc end_)) utc 0)).
Proof. exact (clean_submitted f instance event_tz super_clean start_ end_). Qed.

(** X14. With a current time zone of constant offset, for a
    submission whose two readings lie at least two days inside the
    range of datetimes, [clean] changes the time between start and
    end by exactly the change of the event zone's offset between the
    two readings; an event that does not span a change of offset
    keeps its length. *)
Theorem clean_duration (f : event_form) (instance : Event)
    (event_tz : timezone) (super_clean : cleaned_data) (start_ end_ off : Z) :
  tzdb (event_tz_name instance) = Some event_tz ->
  - day < off < day ->
  (forall u, offset_at_utc current u = off) ->
  (forall w, offset_at_wall current w = off) ->
  offsets_below_a_day event_tz ->
  days_inside 2 start_ -> days_inside 2 end_ ->
  super_clean !! "start_time" = Some (CDatetime (from_current_timezone current start_)) ->
  super_clean !! "end_time" = Some (CDatetime (from_current_timezone current end_)) ->
  exists cleaned_data' ws we,
    clean current tzdb f instance super_clean = Ok cleaned_data' /\
    cleaned_data' !! "start_time" = Some (CDatetime (aware ws utc 0)) /\
    cleaned_data' !! "end_time" = Some (CDatetime (aware we utc 0)) /\
    we - ws = (end_ - start_)
              - (offset_at_wall event_tz end_ - offset_at_wall event_tz start_) /\
    (offset_at_wall event_tz end_ = offset_at_wall event_tz start_ ->
     we - ws = end_ - start_).
Proof.
  intros Hz Hoff Hu Hw Hev Hds Hde Hs He.
  assert (Hcur : offsets_below_a_day current).
  { intros t. now rewrite Hu, Hw. }
  destruct (clean_submitted f instance event_tz super_clean start_ end_ Hz Hcur Hev Hds Hde)
    as (d & Hd & Hdst & Hdet); try assumption; try (now rewrite Hu, Hw).
  cbv beta in Hdst, Hdet. rewrite !Hu in Hdst, Hdet.
  eexists d, _, _. split; [exact Hd|]. split; [exact Hdst|]. split; [exact Hdet|].
  split; [lia|]. intros Ho. lia.
Qed.

(** X12. When [clean] returns and when it raises.  It returns only
    when pytz knows the event's zone and [cleaned_data] holds an
    aware datetime under both [start_time] and [end_time]; it does
    return when, besides, both lie at least four days inside the
    range of datetimes.  An unknown zone raises
    [UnknownTimeZoneError] before the data is looked at; with a known
    zone, a missing [start_time] raises [KeyError] for it, a missing
    [end_time] raises [KeyError] for it once [start_time] went
    through, and a submitted start within a day of either end of the
    range raises [OverflowError] when the offset of the event's zone
    changes over the years. *)
Theorem clean_returns_or_raises (f : event_form) (instance : Event)
    (super_clean : cleaned_data) :
  (is_ok (clean current tzdb f instance super_clean) = true ->
   exists event_tz s si e ei,
     tzdb (event_tz_name instance) = Some event_tz /\
     super_clean !! "start_time" = Some (CDatetime s) /\ tz s = Some si /\
     super_clean !! "end_time" = Some (CDatetime e) /\ tz e = Some ei) /\
  (forall event_tz s si e ei,
     tzdb (event_tz_name instance) = Some event_tz ->
     super_clean !! "start_time" = Some (CDatetime s) -> tz s = Some si ->
     super_clean !! "end_time" = Some (CDatetime e) -> tz e = Some ei ->
     offsets_below_a_day current -> offsets_below_a_day event_tz ->
     - day < utcoffset si < day -> - day < utcoffset ei < day ->
     days_inside 4 (wall s) -> days_inside 4 (wall e) ->
     is_ok (clean current tzdb f instance super_clean) = true) /\
  (tzdb (event_tz_name instance) = None ->
   clean current tzdb f instance super_clean
   = Raise (UnknownTimeZoneError (event_tz_name instance))) /\
  (forall event_tz, tzdb (event_tz_name instance) = Some event_tz ->
   super_clean !! "start_time" = None ->
   clean current tzdb f instance super_clean = Raise (KeyError "start_time")) /\
  (forall event_tz s si, tzdb (event_tz_name instance) = Some event_tz ->
   super_clean !! "start_time" = Some (CDatetime s) -> tz s = Some si ->
   offsets_below_a_day current -> offsets_below_a_day event_tz ->
   - day < utcoffset si < day -> days_inside 4 (wall s) ->
   super_clean !! "end_time" = None ->
   clean current tzdb f instance super_clean = Raise (KeyError "end_time")) /\
  (forall event_tz start_, tzdb (event_tz_name instance) = Some event_tz ->
   is_DstTzInfo event_tz = true ->
   super_clean !! "start_time" = Some (CDatetime (from_current_timezone current start_)) ->
   offset_at_utc current (start_ - offset_at_wall current start_)
     = offset_at_wall current start_ ->
   min_wall <= start_ <= max_wall -> ~ days_inside 1 start_ ->
   clean current tzdb f instance super_clean
   = Raise (OverflowError "date value out of range")).
Proof.
  rewrite clean_same. unfold TeamEventForm_clean, pytz_timezone.
  split; [|split; [|split; [|split; [|split]]]].
  - intros H.
    destruct (tzdb (event_tz_name instance)) as [event_tz|]; [|discriminate].
    cbn [bind] in H. unfold getitem at 1 in H.
    destruct (super_clean !! "start_time") as [s|] eqn:Hs; [|discriminate].
    cbn [bind] in H.
    destruct (relocalize current event_tz s) as [s'|] eqn:Hrs; [|discriminate].
    cbn [bind] in H. unfold getitem in H.
    rewrite lookup_insert_ne in H by discriminate.
    destruct (super_clean !! "end_time") as [e|] eqn:He; [|discriminate].
    cbn [bind] in H.
    destruct (relocalize current event_tz e) as [e'|] eqn:Hre; [|discriminate].
    destruct (relocalize_ok _ _ _ Hrs) as (ds & si & _ & -> & Hsi & _).
    destruct (relocalize_ok _ _ _ Hre) as (de & ei & _ & -> & Hei & _).
    exists event_tz, ds, si, de, ei. auto.
  - intros event_tz s si e ei -> Hs Hsi He Hei Hcur Hev Hos Hoe Hws Hwe.
    cbn [bind]. unfold getitem at 1. rewrite Hs. cbn [bind].
    destruct (relocalize_aware event_tz s si Hsi Hos Hcur Hev Hws) as (s' & ->).
    cbn [bind].
    unfold getitem. rewrite lookup_insert_ne by discriminate. rewrite He. cbn [bind].
    destruct (relocalize_aware event_tz e ei Hei Hoe Hcur Hev Hwe) as (e' & ->).
    reflexivity.
  - intros ->. reflexivity.
  - intros event_tz -> Hs. cbn [bind]. unfold getitem. now rewrite Hs.
  - intros event_tz s si -> Hs Hsi Hcur Hev Hos Hws He. cbn [bind]. unfold getitem at 1.
    rewrite Hs. cbn [bind].
    destruct (relocalize_aware event_tz s si Hsi Hos Hcur Hev Hws) as (s' & ->).
    cbn [bind].
    unfold getitem. rewrite lookup_insert_ne by discriminate. now rewrite He.
  - intros event_tz start_ -> Hdst Hs Hc Hr Hw. cbn [bind]. unfold getitem at 1.
    rewrite Hs. cbn [bind]. now rewrite relocalize_overflow.
Qed.

(** X13. When [clean] returns, [cleaned_data] has the keys it had,
    and [start_time] and [end_time] are aware datetimes labelled UTC. *)
Theorem clean_keeps_keys (f : event_form) (instance : Event)
    (super_clean cleaned_data' : cleaned_data) :
  clean current tzdb f instance super_clean = Ok cleaned_data' ->
  dom cleaned_data' = dom super_clean /\
  exists ws we,
    cleaned_data' !! "start_time" = Some (CDatetime (aware ws utc 0)) /\
    cleaned_data' !! "end_time" = Some (CDatetime (aware we utc 0)).
Proof.
  rewrite clean_same. unfold TeamEventForm_clean. intros H.
  destruct (pytz_timezone tzdb (event_tz_name instance)) as [event_tz|]; [|discriminate].
  cbn [bind] in H. unfold getitem at 1 in H.
  destruct (super_clean !! "start_time") as [s|] eqn:Hs; [|discriminate].
  cbn [bind] in H.
  destruct (relocalize current event_tz s) as [s'|] eqn:Hrs; [|discriminate].
  cbn [bind] in H. unfold getitem in H.
  rewrite lookup_insert_ne in H by discriminate.
  destruct (super_clean !! "end_time") as [e|] eqn:He; [|discriminate].
  cbn [bind] in H.
  destruct (relocalize current event_tz e) as [e'|] eqn:Hre; [|discriminate].
  cbn [bind] in H. injection H as <-.
  destruct (relocalize_ok _ _ _ Hrs) as (_ & _ & ws & _ & _ & ->).
  destruct (relocalize_ok _ _ _ Hre) as (_ & _ & we & _ & _ & ->).
  split.
  - rewrite !dom_insert_L.
    assert (Hin_s : "start_time"%string ∈ dom super_clean) by (apply elem_of_dom; eauto).
    assert (Hin_e : "end_time"%string ∈ dom super_clean) by (apply elem_of_dom; eauto).
    rewrite (subseteq_union_1_L {["start_time"%string]} (dom super_clean))
      by (apply singleton_subseteq_l; exact Hin_s).
    apply subseteq_union_1_L, singleton_subseteq_l. exact Hin_e.
  - exists ws, we. split.
    + rewrite lookup_insert_ne by discriminate. apply lookup_insert_eq.
    + apply lookup_insert_eq.
Qed.

End CleanProperties.

Lemma clean_shifts_by_current_offset_witness :
  exists cleaned_data',
    EventForms.clean paris zones EventForms.TeamEventForm meetup (submission paris)
      = Ok cleaned_data' /\
    cleaned_data' !! "start_time"
      = Some (EventForms.CDatetime (Tz.aware 22600 Tz.utc 0)) /\
    cleaned_data' !! "end_time"
      = Some (EventForms.CDatetime (Tz.aware 26200 Tz.utc 0)).
Proof.
  apply (clean_shifts_by_current_offset paris zones EventForms.TeamEventForm meetup
           new_york (submission paris) 1000 4600).
  - reflexivity.
  - intros t. cbn. unfold Tz.day. lia.
  - intros t. cbn. unfold Tz.day. lia.
  - unfold days_inside, Tz.day, Tz.min_wall, Tz.max_wall. lia.
  - unfold days_inside, Tz.day, Tz.min_wall, Tz.max_wall. lia.
  - reflexivity.
  - reflexivity.
  - reflexivity.
  - reflexivity.
Defined.

Lemma clean_returns_or_raises_witness :
  is_ok (EventForms.clean paris zones EventForms.NewEventForm meetup (submission paris))
  = true /\
  EventForms.clean Tz.utc zones EventForms.NewEventForm meetup
    (<["end_time"%string := EventForms.CDatetime (Tz.aware 4600 Tz.utc 0)]> ∅)
  = Raise (KeyError "start_time") /\
  EventForms.clean Tz.utc zones EventForms.NewEventForm meetup
    (<["start_time"%string := EventForms.CDatetime (Tz.aware 1000 Tz.utc 0)]> ∅)
  = Raise (KeyError "end_time") /\
  EventForms.clean Tz.utc zones EventForms.NewEventForm meetup first_hour_submission
  = Raise (OverflowError "date value out of range").
Proof.
  split; [|split; [|split]].
  - destruct (clean_returns_or_raises paris zones EventForms.NewEventForm meetup
                (submission paris)) as (_ & H & _).
    apply (H new_york (Tz.from_current_timezone paris 1000)
             {| Tz.tzname := "Europe/Paris"; Tz.utcoffset := 3600 |}
             (Tz.from_current_timezone paris 4600)
             {| Tz.tzname := "Europe/Paris"; Tz.utcoffset := 3600 |});
      try reflexivity;
      try (intros t; cbn; unfold Tz.day; lia);
      try (cbn; unfold Tz.day; lia);
      unfold days_inside, Tz.day, Tz.min_wall, Tz.max_wall; cbn; lia.
  - destruct (clean_returns_or_raises Tz.utc zones EventForms.NewEventForm meetup
                (<["end_time"%string := EventForms.CDatetime (Tz.aware 4600 Tz.utc 0)]> ∅))
      as (_ & _ & _ & H & _).
    apply (H new_york); reflexivity.
  - destruct (clean_returns_or_raises Tz.utc zones EventForms.NewEventForm meetup
                (<["start_time"%string := EventForms.CDatetime (Tz.aware 1000 Tz.utc 0)]> ∅))
      as (_ & _ & _ & _ & H & _).
    apply (H new_york (Tz.aware 1000 Tz.utc 0)
             {| Tz.tzname := "UTC"; Tz.utcoffset := 0 |});
      try reflexivity;
      try (intros t; cbn; unfold Tz.day; lia);
      try (cbn; unfold Tz.day; lia);
      unfold days_inside, Tz.day, Tz.min_wall, Tz.max_wall; cbn; lia.
  - destruct (clean_returns_or_raises Tz.utc zones EventForms.NewEventForm meetup
                first_hour_submission) as (_ & _ & _ & _ & _ & H).
    apply (H new_york Tz.min_wall); try reflexivity.
    + unfold Tz.min_wall, Tz.max_wall. lia.
    + unfold days_inside, Tz.day, Tz.min_wall, Tz.max_wall. lia.
Defined.

Lemma clean_keeps_keys_witness :
  dom cleaned_submission = dom (submission Tz.utc) /\
  exists ws we,
    cleaned_submission !! "start_time"
      = Some (EventForms.CDatetime (Tz.aware ws Tz.utc 0)) /\
    cleaned_submission !! "end_time"
      = Some (EventForms.CDatetime (Tz.aware we Tz.utc 0)).
Proof.
  apply (clean_keeps_keys Tz.utc zones EventForms.NewEventForm meetup
           (submission Tz.utc) cleaned_submission).
  reflexivity.
Defined.

Lemma clean_duration_witness :
  exists cleaned_data' ws we,
    EventForms.clean paris zones EventForms.TeamEventForm meetup (submission paris)
      = Ok cleaned_data' /\
    cleaned_data' !! "start_time" = Some (EventForms.CDatetime (Tz.aware ws Tz.utc 0)) /\
    cleaned_data' !! "end_time" = Some (EventForms.CDatetime (Tz.aware we Tz.utc 0)) /\
    we - ws = (4600 - 1000)
              - (Tz.offset_at_wall new_york 4600 - Tz.offset_at_wall new_york 1000) /\
    (Tz.offset_at_wall new_york 4600 = Tz.offset_at_wall new_york 1000 ->
     we - ws = 4600 - 1000).
Proof.
  apply (clean_duration paris zones EventForms.TeamEventForm meetup new_york
           (submission paris) 1000 4600 3600).
  - reflexivity.
  - unfold Tz.day. lia.
  - reflexivity.
  - reflexivity.
  - intros t. cbn. unfold Tz.day. lia.
  - unfold days_inside, Tz.day, Tz.min_wall, Tz.max_wall. lia.
  - unfold days_inside, Tz.day, Tz.min_wall, Tz.max_wall. lia.
  - reflexivity.
  - reflexivity.
Defined.

(** ** Counting the pieces *)

Lemma split_length (sep : ascii) (s : string) :
  length (split sep s) = S (count_char sep s).
Proof.
  induction s as [|c s IH]; [reflexivity|].
  cbn [split count_char]. pose proof (split_nonempty sep s) as Hn.
  destruct (Ascii.eqb c sep).
  - cbn [length]. now rewrite IH.
  - destruct (split sep s) as [|w ws]; [contradiction|]. cbn [length] in *. lia.
Qed.

Lemma split_trailing_sep (sep : ascii) (s : string) :
  split sep (s +:+ String sep EmptyString) = split sep s ++ [EmptyString].
Proof.
  induction s as [|c s IH].
  - change ("" +:+ String sep "") with (String sep "").
    cbn [split]. now rewrite Ascii.eqb_refl.
  - change (String c s +:+ String sep "") with (String c (s +:+ String sep "")).
    cbn [split]. rewrite IH. pose proof (split_nonempty sep s) as Hn.
    destruct (Ascii.eqb c sep); [reflexivity|].
    destruct (split sep s) as [|w ws]; [contradiction | reflexivity].
Qed.

Lemma all_space_no_comma (s : string) :
  all_space s = true -> split "," s = [s].
Proof.
  induction s as [|c s IH]; [reflexivity|]. cbn [all_space split]. intros H.
  apply andb_true_iff in H as [Hc Hs]. rewrite (IH Hs).
  destruct (Ascii.eqb_spec c ",") as [->|]; [discriminate Hc | reflexivity].
Qed.

Lemma all_space_lstrip (s : string) : all_space s = true -> lstrip s = EmptyString.
Proof.
  induction s as [|c s IH]; [reflexivity|]. cbn [all_space lstrip]. intros H.
  apply andb_true_iff in H as [-> Hs]. auto.
Qed.

Lemma all_space_strip (s : string) : all_space s = true -> strip s = EmptyString.
Proof. intros H. unfold strip. now rewrite (all_space_lstrip s H). Qed.

Section MultiEmailFieldCleanProperties.

Variable email_ok : string -> bool.

(** X15. For the field as the forms declare it, [clean] returns
    exactly for a non-empty text all of whose pieces between commas,
    once stripped, [validate_email] accepts, and then returns those
    stripped pieces: one more than the text has commas, each accepted,
    none holding a comma or beginning or ending with white space. *)
Theorem MultiEmailField_clean_returns (s : string) (emails : list string) :
  MultiEmailField_clean email_ok MultiEmailField.declared (PStr s) = Ok emails <->
  s <> EmptyString /\ emails = map strip (split "," s) /\
  Forall (fun e => email_ok e = true) emails /\
  length emails = S (count_char "," s) /\
  Forall (fun e => contains_char "," e = false /\
                   starts_with_space e = false /\ ends_with_space e = false) emails.
Proof.
  unfold MultiEmailField_clean, MultiEmailField.to_python. cbn [MultiEmailField.falsy].
  assert (Hshape : forall l, Forall (fun w => contains_char "," w = false) l ->
            Forall (fun e => contains_char "," e = false /\
                             starts_with_space e = false /\ ends_with_space e = false)
                   (map strip l)).
  { intros l Hl. induction Hl as [|w l Hw _ IH]; constructor; [|exact IH].
    destruct (strip_spec w) as (a & b & Hwab & _ & _ & Hs & He).
    split; [|split; assumption].
    destruct (contains_char "," (strip w)) eqn:Hc; [|reflexivity].
    exfalso. rewrite Hwab in Hw. clear -Hw Hc.
    assert (Hin : forall x y, contains_char "," (x +:+ y)
                              = contains_char "," x || contains_char "," y).
    { intros x y. induction x as [|c x IH]; [reflexivity|].
      change (String c x +:+ y) with (String c (x +:+ y)).
      cbn [contains_char]. rewrite IH. now rewrite orb_assoc. }
    rewrite !Hin, Hc in Hw. now destruct (contains_char "," a). }
  destruct (String.eqb_spec s "") as [->|Hne].
  - cbn. split; [discriminate | intros [H _]; now contradiction H].
  - cbn [bind]. split.
    + intros H.
      destruct (MultiEmailField.validate email_ok MultiEmailField.declared
                  (map strip (split "," s))) as [[]|] eqn:Hv; [|discriminate].
      cbn [bind] in H. injection H as <-.
      split; [exact Hne|]. split; [reflexivity|]. split; [|split].
      * unfold MultiEmailField.validate in Hv.
        destruct (map strip (split "," s)); [discriminate|].
        cbn [bind] in Hv. now apply validate_each_ok.
      * now rewrite length_map, split_length.
      * apply Hshape, split_no_sep.
    + intros (_ & -> & Hok & _ & _).
      assert (Hv : MultiEmailField.validate email_ok MultiEmailField.declared
                     (map strip (split "," s)) = Ok tt).
      { unfold MultiEmailField.validate.
        pose proof (split_nonempty "," s) as Hn.
        destruct (split "," s) as [|w ws]; [contradiction|]. cbn [map bind].
        now apply validate_each_ok. }
      now rewrite Hv.
Qed.

(** X16. When [validate_email] refuses the empty address, [clean]
    refuses every text that ends in a comma, and a text of white space
    alone is refused as an invalid address, not as a missing value. *)
Theorem MultiEmailField_clean_empty_piece :
  email_ok EmptyString = false ->
  (forall s : string,
     exists e, MultiEmailField_clean email_ok MultiEmailField.declared (PStr (s +:+ ","))
               = Raise e) /\
  (forall s : string, s <> EmptyString -> all_space s = true ->
     MultiEmailField_clean email_ok MultiEmailField.declared (PStr s)
     = Raise (ValidationError "invalid" "")).
Proof.
  intros Hempty. split.
  - intros s.
    destruct (MultiEmailField_clean email_ok MultiEmailField.declared (PStr (s +:+ ",")))
      as [emails|e] eqn:H; [|eauto].
    exfalso.
    unfold MultiEmailField_clean, MultiEmailField.to_python in H.
    cbn [MultiEmailField.falsy] in H.
    change (s +:+ ",") with (s +:+ String "," "") in H.
    rewrite append_not_empty in H. cbn [bind] in H.
    rewrite split_trailing_sep, map_app in H. cbn [map] in H.
    destruct (MultiEmailField.validate _ _ _) as [[]|] eqn:Hv; [|discriminate].
    unfold MultiEmailField.validate in Hv.
    destruct (map strip (split "," s) ++ [strip ""]) eqn:Hl;
      [now destruct (map strip (split "," s))|].
    cbn [bind] in Hv. rewrite <- Hl in Hv. apply validate_each_ok in Hv.
    apply Forall_app in Hv as [_ Hv]. apply Forall_cons in Hv as [Hv _].
    change (strip "") with EmptyString in Hv. congruence.
  - intros s Hne Hs.
    unfold MultiEmailField_clean, MultiEmailField.to_python. cbn [MultiEmailField.falsy].
    destruct (String.eqb_spec s ""); [contradiction|]. cbn [bind].
    rewrite (all_space_no_comma s Hs). cbn [map]. rewrite (all_space_strip s Hs).
    unfold MultiEmailField.validate. cbn [bind MultiEmailField.validate_each].
    unfold MultiEmailField.validate_email. now rewrite Hempty.
Qed.

End MultiEmailFieldCleanProperties.

Lemma MultiEmailField_clean_returns_witness :
  MultiEmailField_clean has_at_sign MultiEmailField.declared (PStr "a@x.org, b@y.org")
  = Ok ["a@x.org"; "b@y.org"]%string.
Proof.
  apply (MultiEmailField_clean_returns has_at_sign "a@x.org, b@y.org").
  split; [discriminate|]. split; [reflexivity|]. split; [repeat constructor|].
  split; [reflexivity|]. repeat constructor.
Defined.

Lemma MultiEmailField_clean_empty_piece_witness :
  (exists e, MultiEmailField_clean has_at_sign MultiEmailField.declared (PStr "a@x.org,")
             = Raise e) /\
  MultiEmailField_clean has_at_sign MultiEmailField.declared (PStr "  ")
  = Raise (ValidationError "invalid" "").
Proof.
  destruct (MultiEmailField_clean_empty_piece has_at_sign eq_refl) as [H1 H2].
  split.
  - apply (H1 "a@x.org"%string).
  - apply H2; [discriminate | reflexivity].
Defined.

(** ** Dispatch does not depend on the order of [urlpatterns] *)

Lemma resolve_in_sound (patterns : list Urls.url_pattern) (s : string)
    (m : Urls.resolver_match) :
  Urls.resolve_in patterns s = Some m ->
  In (Urls.matched m) patterns /\
  Urls.match_pattern (Urls.matched m) s = Some (Urls.kwargs m, Urls.remainder m).
Proof.
  induction patterns as [|p patterns IH]; [discriminate|].
  cbn [Urls.resolve_in]. destruct (Urls.match_pattern p s) as [[kw r]|] eqn:Hp.
  - intros [= <-]. cbn. auto.
  - intros H. destruct (IH H). cbn [In]. auto.
Qed.

(** Reading one literal character of a route off the request path. *)
Ltac read_literal H s :=
  let c := fresh "c" in
  destruct s as [|c s]; [discriminate H|];
  cbn [Urls.match_parts] in H;
  match type of H with
  | context [Ascii.eqb ?a c] =>
      destruct (Ascii.eqb_spec a c) as [<-|]; [|discriminate H]
  end.

Ltac open_pattern H :=
  unfold Urls.match_pattern, Urls.path in H; cbn [Urls.route Urls.view] in H;
  let ps := fresh "ps" in
  set (ps := Urls.parse_route _ _) in H; vm_compute in ps; subst ps.

Lemma literal_view_only (s : string) (kw kw' : list (string * pyval)) (r : string) :
  (if String.eqb s "" then Some (kw', s) else None) = Some (kw, r) ->
  s = EmptyString /\ kw = kw' /\ r = EmptyString.
Proof.
  destruct (String.eqb_spec s "") as [->|]; [|discriminate]. now intros [= <- <-].
Qed.

Lemma converter_nonempty (kind s : string) (v : pyval) (b : string) :
  Urls.converter kind s = Some (v, b) -> s <> EmptyString.
Proof.
  intros H ->. unfold Urls.converter in H.
  destruct (String.eqb kind "int"); [discriminate|].
  destruct (String.eqb kind "str"); discriminate.
Qed.

Ltac literal_view H s :=
  open_pattern H; repeat read_literal H s; cbn [Urls.match_parts] in H;
  apply literal_view_only in H as (-> & -> & ->); reflexivity.

Ltac literal_prefix H s :=
  open_pattern H; repeat read_literal H s; cbn [Urls.match_parts] in H;
  injection H as <- <-; reflexivity.

(** Taking a converter's match out of a hypothesis on [match_parts]. *)
Ltac read_converter H s v b Hconv :=
  cbn [Urls.match_parts] in H;
  destruct (Urls.converter _ s) as [[v b]|] eqn:Hconv; [|discriminate H].

Lemma kwargs_view_only (b : string) (kw0 kw : list (string * pyval)) (r : string) :
  match
    match (if String.eqb b "" then Some ([] : list (string * pyval), b) else None) with
    | Some (kw', rest) => Some (kw0 ++ kw', rest)
    | None => None
    end
  with
  | Some (kw', rest) => Some (kw', rest)
  | None => None
  end = Some (kw, r) ->
  b = EmptyString /\ kw = kw0 /\ r = EmptyString.
Proof.
  destruct (String.eqb_spec b "") as [->|]; [|discriminate].
  intros [= <- <-]. now rewrite app_nil_r.
Qed.

Lemma no_shadowing (p : Urls.url_pattern) (s : string)
    (kw : list (string * pyval)) (r : string) :
  In p Urls.urlpatterns -> Urls.match_pattern p s = Some (kw, r) ->
  Urls.resolve s = Some {| Urls.matched := p; Urls.kwargs := kw; Urls.remainder := r |}.
Proof.
  intros Hin Hm. unfold Urls.urlpatterns in Hin. cbn [In] in Hin.
  unfold Urls.resolve, Urls.urlpatterns.
  repeat destruct Hin as [<-|Hin]; try contradiction; pose proof Hm as Hm0.
  - literal_view Hm s.
  - literal_prefix Hm s.
  - literal_view Hm s.
  - literal_view Hm s.
  - literal_view Hm s.
  - literal_view Hm s.
  - literal_view Hm s.
  - literal_view Hm s.
  - literal_view Hm s.
  - literal_view Hm s.
  - (* team/<int:team_id>/ *)
    open_pattern Hm. do 5 read_literal Hm s.
    cbn. now rewrite Hm0.
  - (* team/<int:team_id>/create-event/ *)
    open_pattern Hm. do 5 read_literal Hm s.
    read_converter Hm s v b Hconv.
    do 14 read_literal Hm b.
    assert (Hteam : Urls.match_pattern
              (Urls.path "team/<int:team_id>/" (Urls.View "views" "show_team")
                 (Some "show-team"%string))
              (String "t" (String "e" (String "a" (String "m" (String "/" s))))) = None).
    { unfold Urls.match_pattern, Urls.path. cbn [Urls.route Urls.view].
      set (ps := Urls.parse_route _ _). vm_compute in ps. subst ps.
      cbn -[Urls.converter]. now rewrite Hconv. }
    cbn. now rewrite Hteam, Hm0.
  - (* events/<int:event_id>/<str:event_slug>/ *)
    open_pattern Hm. do 7 read_literal Hm s.
    read_converter Hm s v b Hconv.
    pose proof (converter_nonempty _ _ _ _ Hconv) as Hne.
    destruct s as [|c s]; [contradiction|].
    cbn. now rewrite Hm0.
  - literal_view Hm s.
  - literal_view Hm s.
  - literal_prefix Hm s.
Qed.

(** X17. A request path is dispatched to an entry of [urlpatterns]
    exactly when that entry's route matches it, with the arguments
    and the remainder of that match: no route of the list hides
    another, so the order of the list decides nothing. *)
Theorem resolve_iff_match (s : string) (m : Urls.resolver_match) :
  Urls.resolve s = Some m <->
  In (Urls.matched m) Urls.urlpatterns /\
  Urls.match_pattern (Urls.matched m) s = Some (Urls.kwargs m, Urls.remainder m).
Proof.
  split.
  - apply resolve_in_sound.
  - intros [Hin Hm]. destruct m as [p kw r]. now apply no_shadowing.
Qed.

(** ** [reverse], then [resolve] *)

Lemma pretty_N_char_digit (d : N) :
  (d < 10)%N ->
  isdigit (pretty_N_char d) = true /\ digit_value (pretty_N_char d) = Z.of_N d.
Proof.
  intros Hd.
  assert (Hc : (d = 0 \/ d = 1 \/ d = 2 \/ d = 3 \/ d = 4 \/ d = 5 \/ d = 6 \/ d = 7
                \/ d = 8 \/ d = 9)%N) by lia.
  repeat destruct Hc as [->|Hc]; try subst d; split; reflexivity.
Qed.

Lemma digits_value_pretty_N_go (x : N) (s : string) :
  digits_value 0 (pretty_N_go x s) = digits_value (Z.of_N x) s.
Proof.
  revert s. induction (N.lt_wf_0 x) as [x _ IH]. intros s.
  destruct (N.eq_dec x 0%N) as [->|Hx].
  - now rewrite pretty_N_go_0.
  - rewrite pretty_N_go_step by lia.
    rewrite IH by (apply N.div_lt; lia).
    cbn [digits_value].
    destruct (pretty_N_char_digit (N.modulo x 10%N)) as [-> ->]; [apply N.mod_lt; lia|].
    f_equal. rewrite <- Z.add_comm.
    rewrite N2Z.inj_div, N2Z.inj_mod. change (Z.of_N 10) with 10.
    pose proof (Z.div_mod (Z.of_N x) 10 ltac:(lia)). lia.
Qed.

(** [str(n)] of a natural number is its run of decimal digits. *)
Lemma digits_value_str_int (n : Z) :
  0 <= n -> digits_value 0 (str_int n) = Some n /\ str_int n <> EmptyString.
Proof.
  intros Hn.
  assert (Hd : digits_value 0 (str_int n) = Some n).
  { destruct n as [|p|p]; [reflexivity| |lia].
    unfold str_int, pretty, pretty_Z, pretty, pretty_positive, pretty, pretty_N.
    destruct (decide (N.pos p = 0%N)); [discriminate|].
    now rewrite digits_value_pretty_N_go. }
  split; [exact Hd|]. intros He. rewrite He in Hd. cbn in Hd.
  injection Hd as <-. discriminate He.
Qed.

Lemma append_assoc (a b c : string) : (a +:+ b) +:+ c = a +:+ (b +:+ c).
Proof.
  induction a as [|x a IH]; [reflexivity|].
  rewrite !append_cons. now rewrite IH.
Qed.

Lemma quote_app (a b : string) : Urls.quote (a +:+ b) = Urls.quote a +:+ Urls.quote b.
Proof.
  induction a as [|x a IH]; [reflexivity|].
  rewrite append_cons. cbn [Urls.quote]. now rewrite IH, append_assoc.
Qed.

Lemma quote_all_safe (s : string) : all_safe s = true -> Urls.quote s = s.
Proof.
  induction s as [|x s IH]; [reflexivity|]. cbn [all_safe Urls.quote].
  intros [Hx Hs]%andb_true_iff. unfold Urls.quote_char. rewrite Hx.
  now rewrite IH.
Qed.

Lemma isdigit_safe (c : ascii) : isdigit c = true -> Urls.safe c = true.
Proof.
  intros H. unfold Urls.safe, Urls.isalnum. unfold isdigit in H. now rewrite H.
Qed.

Lemma digits_all_safe (s : string) (acc n : Z) :
  digits_value acc s = Some n -> all_safe s = true.
Proof.
  revert acc. induction s as [|c s IH]; intros acc H; [reflexivity|].
  cbn [digits_value] in H. cbn [all_safe].
  destruct (isdigit c) eqn:Hc; [|discriminate].
  rewrite (isdigit_safe c Hc). exact (IH _ H).
Qed.

(** One entry of the list, in [reverse]. *)
Lemma reverse_in_skip (p : Urls.url_pattern) (rest : list Urls.url_pattern)
    (n : string) (kw : list (string * pyval)) :
  Urls.has_name n p = false ->
  Urls.reverse_in (p :: rest) n kw = Urls.reverse_in rest n kw.
Proof. intros H. cbn [Urls.reverse_in]. now rewrite H. Qed.

Lemma reverse_in_hit (p : Urls.url_pattern) (rest : list Urls.url_pattern)
    (n : string) (kw : list (string * pyval)) (candidate : string)
    (m : list (string * pyval) * string) :
  Urls.has_name n p = true ->
  Urls.same_keys kw (Urls.params (Urls.parse_route Urls.Outside (Urls.route p))) = true ->
  Urls.build (Urls.parse_route Urls.Outside (Urls.route p)) kw = Some candidate ->
  Urls.match_pattern p candidate = Some m ->
  Urls.reverse_in (p :: rest) n kw
  = Ok (Urls.escape_leading_slashes ("/" +:+ Urls.quote candidate)).
Proof.
  intros Hn Hk Hb Hm. cbn [Urls.reverse_in]. now rewrite Hn, Hk, Hb, Hm.
Qed.

Lemma reverse_in_miss (p : Urls.url_pattern) (rest : list Urls.url_pattern)
    (n : string) (kw : list (string * pyval)) (candidate : string) :
  Urls.build (Urls.parse_route Urls.Outside (Urls.route p)) kw = Some candidate ->
  Urls.match_pattern p candidate = None ->
  Urls.reverse_in (p :: rest) n kw = Urls.reverse_in rest n kw.
Proof.
  intros Hb Hm. cbn [Urls.reverse_in]. rewrite Hb, Hm.
  now destruct (Urls.has_name n p && _).
Qed.

(** [reverse] on the list as it stands, up to the first entry that
    carries the name. *)
Ltac open_reverse :=
  unfold Urls.reverse;
  let l := fresh "l" in
  set (l := rev Urls.urlpatterns); vm_compute in l; subst l;
  repeat (rewrite reverse_in_skip by reflexivity).

Lemma reverse_show_team (n : Z) :
  0 <= n ->
  Urls.reverse "show-team" [("team_id"%string, PInt n)]
  = Ok ("/" +:+ "team/" +:+ str_int n +:+ "/").
Proof.
  intros Hn. destruct (digits_value_str_int n Hn) as [Hd Hne]. open_reverse.
  rewrite (reverse_in_hit _ _ _ _ ("team/" +:+ str_int n +:+ "/")
             ([("team_id"%string, PInt n)], EmptyString));
    [|reflexivity|reflexivity|reflexivity|exact (match_show_team _ n Hne Hd)].
  rewrite !quote_app, (quote_all_safe (str_int n) (digits_all_safe _ _ _ Hd)).
  reflexivity.
Qed.

Lemma reverse_create_event (n : Z) :
  0 <= n ->
  Urls.reverse "create-event" [("team_id"%string, PInt n)]
  = Ok ("/" +:+ "team/" +:+ str_int n +:+ "/create-event/").
Proof.
  intros Hn. destruct (digits_value_str_int n Hn) as [Hd Hne]. open_reverse.
  rewrite (reverse_in_hit _ _ _ _ ("team/" +:+ str_int n +:+ "/create-event/")
             ([("team_id"%string, PInt n)], EmptyString));
    [|reflexivity|reflexivity|reflexivity|exact (match_create_event _ n Hne Hd)].
  rewrite !quote_app, (quote_all_safe (str_int n) (digits_all_safe _ _ _ Hd)).
  reflexivity.
Qed.

Lemma reverse_show_event (n : Z) (slug : string) :
  0 <= n -> slug <> EmptyString -> contains_char "/" slug = false ->
  Urls.reverse "show-event" [("event_id"%string, PInt n); ("event_slug"%string, PStr slug)]
  = Ok ("/" +:+ "events/" +:+ str_int n +:+ "/" +:+ Urls.quote slug +:+ "/").
Proof.
  intros Hn Hs Hc. destruct (digits_value_str_int n Hn) as [Hd Hne]. open_reverse.
  rewrite (reverse_in_hit _ _ _ _ ("events/" +:+ str_int n +:+ "/" +:+ slug +:+ "/")
             ([("event_id"%string, PInt n); ("event_slug"%string, PStr slug)],
              EmptyString));
    [|reflexivity|reflexivity|reflexivity|exact (match_show_event _ _ n Hne Hd Hs Hc)].
  rewrite !quote_app, (quote_all_safe (str_int n) (digits_all_safe _ _ _ Hd)).
  reflexivity.
Qed.

(** The sign of a negative number is no digit. *)
Lemma reverse_negative_team (n : Z) :
  n < 0 ->
  Urls.reverse "show-team" [("team_id"%string, PInt n)]
  = Raise (NoReverseMatch "show-team").
Proof.
  intros Hn. destruct n as [|p|p]; try lia. open_reverse.
  rewrite (reverse_in_miss _ _ _ _ ("team/" +:+ str_int (Z.neg p) +:+ "/"));
    reflexivity.
Qed.

(** X18. [reverse] for the three routes with arguments.  It takes
    the route's own keywords and nothing else, and text that the
    route's converter matches: a negative team id, a missing keyword
    and a surplus keyword each raise [NoReverseMatch].  The URL it
    returns is the route filled in and percent-quoted.  For [show-team]
    and [create-event] with a team id that is a natural number, and
    for [show-event] with an event id that is a natural number and a
    slug that is not empty, holds no slash and needs no quoting, that
    URL is dispatched back to the same entry with the same arguments. *)
Theorem reverse_then_resolve :
  (forall n : Z, 0 <= n ->
     exists url,
       Urls.reverse "show-team" [("team_id"%string, PInt n)] = Ok ("/" +:+ url) /\
       Urls.resolve url
       = Some {| Urls.matched := show_team;
                 Urls.kwargs := [("team_id"%string, PInt n)];
                 Urls.remainder := "" |}) /\
  (forall n : Z, 0 <= n ->
     exists url,
       Urls.reverse "create-event" [("team_id"%string, PInt n)] = Ok ("/" +:+ url) /\
       Urls.resolve url
       = Some {| Urls.matched := create_event;
                 Urls.kwargs := [("team_id"%string, PInt n)];
                 Urls.remainder := "" |}) /\
  (forall (n : Z) (slug : string),
     0 <= n -> slug <> EmptyString -> contains_char "/" slug = false ->
     Urls.reverse "show-event"
       [("event_id"%string, PInt n); ("event_slug"%string, PStr slug)]
     = Ok ("/events/" +:+ str_int n +:+ "/" +:+ Urls.quote slug +:+ "/") /\
     (all_safe slug = true ->
      Urls.resolve ("events/" +:+ str_int n +:+ "/" +:+ Urls.quote slug +:+ "/")
      = Some {| Urls.matched := show_event;
                Urls.kwargs := [("event_id"%string, PInt n);
                                ("event_slug"%string, PStr slug)];
                Urls.remainder := "" |})) /\
  (forall n : Z, n < 0 ->
     Urls.reverse "show-team" [("team_id"%string, PInt n)]
     = Raise (NoReverseMatch "show-team")) /\
  Urls.reverse "show-team" [] = Raise (NoReverseMatch "show-team") /\
  (forall v w : pyval,
     Urls.reverse "show-team" [("team_id"%string, v); ("page"%string, w)]
     = Raise (NoReverseMatch "show-team")).
Proof.
  split; [|split; [|split; [|split; [|split]]]].
  - intros n Hn. destruct (digits_value_str_int n Hn) as [Hd Hne].
    exists ("team/" +:+ str_int n +:+ "/"). split; [now apply reverse_show_team|].
    now apply resolve_show_team.
  - intros n Hn. destruct (digits_value_str_int n Hn) as [Hd Hne].
    exists ("team/" +:+ str_int n +:+ "/create-event/").
    split; [now apply reverse_create_event|].
    now apply resolve_create_event.
  - intros n slug Hn Hs Hc. destruct (digits_value_str_int n Hn) as [Hd Hne].
    split; [now apply reverse_show_event|].
    intros Hsafe. rewrite (quote_all_safe slug Hsafe).
    now apply resolve_show_event.
  - exact reverse_negative_team.
  - reflexivity.
  - intros v w. reflexivity.
Qed.

Lemma reverse_then_resolve_witness :
  (exists url,
     Urls.reverse "show-team" [("team_id"%string, PInt 42)] = Ok ("/" +:+ url) /\
     Urls.resolve url
     = Some {| Urls.matched := show_team;
               Urls.kwargs := [("team_id"%string, PInt 42)];
               Urls.remainder := "" |}) /\
  (Urls.reverse "show-event"
     [("event_id"%string, PInt 7); ("event_slug"%string, PStr "spring-picnic")]
   = Ok "/events/7/spring-picnic/"%string /\
   Urls.resolve "events/7/spring-picnic/"
   = Some {| Urls.matched := show_event;
             Urls.kwargs := [("event_id"%string, PInt 7);
                             ("event_slug"%string, PStr "spring-picnic")];
             Urls.remainder := "" |}) /\
  Urls.reverse "show-event"
    [("event_id"%string, PInt 7); ("event_slug"%string, PStr "a b")]
  = Ok "/events/7/a%20b/"%string /\
  Urls.reverse "show-team" [("team_id"%string, PInt (-5))]
  = Raise (NoReverseMatch "show-team").
Proof.
  destruct reverse_then_resolve as (Ht & _ & He & Hn & _).
  split; [|split; [|split]].
  - apply (Ht 42). lia.
  - destruct (He 7 "spring-picnic"%string) as [Hr Hb];
      [lia | discriminate | reflexivity |].
    split; [exact Hr | apply Hb; reflexivity].
  - apply (He 7 "a b"%string); [lia | discriminate | reflexivity].
  - apply (Hn (-5)). lia.
Defined.
